(** * Smart Helpdesk: the ticket triage pipeline

    A shallow embedding of the triage pipeline of the helpdesk backend:
    the language-model provider and the knowledge-base search of
    [services/llmService.js], the orchestrator and its retry wrapper of
    [services/agentService.js], the schemas of [models/index.js], the
    routes that start a triage ([routes/agents.js], [routes/tickets.js]),
    and the routes that reply to, assign, reopen and close a ticket, edit
    a suggestion and read or update the configuration ([routes/tickets.js],
    [routes/agents.js], [routes/config.js]) behind the role check of
    [middleware/auth.js]; followed by the properties of the pipeline that
    its specification states, and by further properties of the code.

    Conventions of the embedding.
    - JavaScript numbers that hold confidences and thresholds are IEEE 754
      binary64 values: they are modelled by the kernel's primitive floats,
      so [0.6 + 2 * 0.1] is computed exactly as the engine computes it.
      Counters, delays and identifiers are natural numbers.
    - Strings are [string]; the text functions cover ASCII text.
    - An [async] method is a computation in the monad [M]: it reads and
      updates a [World] (the collections of the database, and the trace of
      console lines and timers) and either returns or throws.  A throw
      keeps every effect that happened before it, as in the source: nothing
      is rolled back.
    - A loaded document that a method assigns to ([ticket.category = ...])
      is passed in and returned: the caller goes on with the document as
      the method left it.
    - An operation of the database succeeds unless the validation of the
      schema rejects the document.  The one exception is the article query
      of the search service, which may fail: the service has a handler for
      it.  Timestamps are left out; a collection keeps insertion order. *)

From Stdlib Require Import String Ascii List Bool Arith PeanoNat ZArith Lia.
From Stdlib Require Import Floats Uint63 DecimalString.
Import ListNotations.

Set Warnings "-inexact-float".

Local Open Scope list_scope.
Local Open Scope string_scope.
Local Open Scope nat_scope.

(* ===================================================================== *)
(** ** JavaScript primitives used by the pipeline *)
(* ===================================================================== *)

Module Js.

(** A JavaScript number holding a small count, as a binary64 value. *)
Definition num (n : nat) : float := PrimFloat.of_uint63 (Uint63.of_Z (Z.of_nat n)).

(** [Math.min(a, b)] ([NaN] if either argument is). *)
Definition Math_min (a b : float) : float :=
  if PrimFloat.is_nan a || PrimFloat.is_nan b then PrimFloat.nan
  else if PrimFloat.ltb b a then b else a.

(** [a >= b] and [a > b] on numbers; false when an operand is [NaN]. *)
Definition ge (a b : float) : bool := PrimFloat.leb b a.
Definition gt (a b : float) : bool := PrimFloat.ltb b a.

(** [x || d] on a number: [0] and [NaN] are falsy. *)
Definition num_or (x d : float) : float :=
  if PrimFloat.is_nan x || PrimFloat.is_zero x then d else x.

(** [c.toLowerCase()] on one character of ASCII text: the letters [A] to
    [Z] are mapped to [a] to [z], every other character is kept. *)
Definition lower_ascii (c : ascii) : ascii :=
  let n := nat_of_ascii c in
  if (65 <=? n) && (n <=? 90) then ascii_of_nat (n + 32) else c.

(** [s.toLowerCase()], on ASCII text. *)
Fixpoint toLowerCase (s : string) : string :=
  match s with
  | EmptyString => EmptyString
  | String c s' => String (lower_ascii c) (toLowerCase s')
  end.

(** [s.includes(word)]: [word] occurs in [s] as a substring. *)
Fixpoint includes (s word : string) : bool :=
  String.prefix word s ||
  match s with
  | EmptyString => false
  | String _ s' => includes s' word
  end.

(** [s.substring(0, n)]. *)
Definition substring0 (n : nat) (s : string) : string := String.substring 0 n s.

(** [s.split(' ')]. *)
Fixpoint split_space_aux (cur : string) (s : string) : list string :=
  match s with
  | EmptyString => [cur]
  | String c s' =>
      if Ascii.eqb c " "%char then cur :: split_space_aux "" s'
      else split_space_aux (cur ++ String c "") s'
  end.
Definition split_space (s : string) : list string := split_space_aux "" s.

(** The decimal text of a count, as a template literal renders it. *)
Definition show_nat (n : nat) : string := NilEmpty.string_of_uint (Nat.to_uint n).

End Js.

(* ===================================================================== *)
(** ** Data model ([models/index.js]) *)
(* ===================================================================== *)

(** Enumeration of the [category] path of tickets and suggestions. *)
Inductive Category := billing | tech | shipping | other.

(** A string in the place of a category that no schema has validated
    yet, such as the [predictedCategory] of a parsed answer of the remote
    model or the [category] of a request body: a value of the enumeration,
    or any other string. *)
Inductive CategoryValue :=
| inEnum (c : Category)
| outside (s : string).
Coercion inEnum : Category >-> CategoryValue.

(** Enumeration of the [status] path of tickets. *)
Inductive Status := open | triaged | waiting_human | resolved | closed.

Definition Category_eqb (a b : Category) : bool :=
  match a, b with
  | billing, billing | tech, tech | shipping, shipping | other, other => true
  | _, _ => false
  end.

Definition CategoryValue_eqb (a b : CategoryValue) : bool :=
  match a, b with
  | inEnum x, inEnum y => Category_eqb x y
  | outside x, outside y => String.eqb x y
  | _, _ => false
  end.

Definition Status_eqb (a b : Status) : bool :=
  match a, b with
  | open, open | triaged, triaged | waiting_human, waiting_human
  | resolved, resolved | closed, closed => true
  | _, _ => false
  end.

Definition ObjectId := nat.

(** A thrown JavaScript error: its class name and its [message]. *)
Record JsError := mkError { e_name : string; message : string }.

Record ModelInfo := mkModelInfo {
  provider : string;
  model : string;
  promptVersion : string;
  latencyMs : nat
}.

(** Result of [LLMProvider.classify]. *)
Record Classification := mkClassification {
  predictedCategory : CategoryValue;
  confidence : float;
  modelInfo : ModelInfo
}.

(** Documents of the [Article] collection, with the paths of the schema.
    The [textScore] that a text search projects is no path of the schema,
    so a document does not expose it. *)
Module Article.
Inductive Status := draft | published.
Record t := mk {
  _id : ObjectId;
  title : string;
  body : string;
  tags : list string;
  status : Status
}.
End Article.

(** An article as [KBSearchService.search] returns it. *)
Module Hit.
Record t := mk {
  id : ObjectId;
  title : string;
  body : string;
  tags : list string;
  score : float
}.
End Hit.

(** Result of [LLMProvider.draft]. *)
Module Draft.
Record t := mk {
  draftReply : string;
  citations : list string;
  modelInfo : ModelInfo
}.
End Draft.

(* ===================================================================== *)
(** ** The language-model provider ([services/llmService.js]) *)
(* ===================================================================== *)

Module LLMProvider.

(** The provider object.  [remoteClassify] and [remoteDraft] stand for the
    HTTP exchange with the remote model followed by [JSON.parse]: the
    fields of an answer that parses to an object with a string
    [predictedCategory] and a numeric [confidence] (a string [draftReply]
    and a list of [citations]), or [None] for any transport, timeout or
    parse error.  The provider passes the parsed fields on unchecked: the
    category may be any string.  [latency] is what the clock measures
    between the start and the end of a call. *)
Record t := mk {
  stubMode : bool;
  remoteClassify : string -> option (CategoryValue * float);
  remoteDraft : string -> list Hit.t -> option (string * list string);
  latency : nat
}.

Definition promptVersion : string := "1.0".

Definition billingWords : list string :=
  ["refund"; "invoice"; "payment"; "charge"; "billing"; "money"; "cost"; "price"].
Definition techWords : list string :=
  ["error"; "bug"; "login"; "password"; "api"; "code"; "500"; "404"; "crash"; "broken"].
Definition shippingWords : list string :=
  ["delivery"; "shipment"; "tracking"; "package"; "order"; "shipping"; "delivered"].

(** [words.filter(word => lowerText.includes(word)).length] *)
Definition matches (words : list string) (lowerText : string) : nat :=
  length (filter (fun word => Js.includes lowerText word) words).

Definition billingMatches (text : string) : nat := matches billingWords (Js.toLowerCase text).
Definition techMatches (text : string) : nat := matches techWords (Js.toLowerCase text).
Definition shippingMatches (text : string) : nat := matches shippingWords (Js.toLowerCase text).

(** [Math.max(billingMatches, techMatches, shippingMatches)] *)
Definition maxMatches (text : string) : nat :=
  Nat.max (billingMatches text) (Nat.max (techMatches text) (shippingMatches text)).

(** The keyword-match count of a category; [other] has no keyword list,
    and neither has a string outside the enumeration. *)
Definition categoryMatches (text : string) (c : CategoryValue) : nat :=
  match c with
  | inEnum billing => billingMatches text
  | inEnum tech => techMatches text
  | inEnum shipping => shippingMatches text
  | inEnum other => 0
  | outside _ => 0
  end.

(** [_stubClassify(text, startTime)].  The clock is read once more at the
    end of the method; [latency] stands for [Date.now() - startTime]. *)
Definition _stubClassify (text : string) (latency : nat) : Classification :=
  let billingMatches := billingMatches text in
  let techMatches := techMatches text in
  let shippingMatches := shippingMatches text in
  let maxMatches := Nat.max billingMatches (Nat.max techMatches shippingMatches) in
  let '(predictedCategory, confidence) :=
    if 0 <? maxMatches then
      if billingMatches =? maxMatches then
        (billing, Js.Math_min 0.9 (0.6 + (Js.num billingMatches * 0.1)))%float
      else if techMatches =? maxMatches then
        (tech, Js.Math_min 0.9 (0.6 + (Js.num techMatches * 0.1)))%float
      else if shippingMatches =? maxMatches then
        (shipping, Js.Math_min 0.9 (0.6 + (Js.num shippingMatches * 0.1)))%float
      else (other, 0.5%float)
    else (other, 0.5%float) in
  mkClassification predictedCategory confidence
    (mkModelInfo "stub" "rule-based" promptVersion latency).

(** [_stubDraft(ticketText, articles, startTime)]: the [forEach] keeps the
    articles of index 0 and 1. *)
Fixpoint stubDraftLines (index : nat) (articles : list Hit.t) : string * list string :=
  match articles with
  | [] => ("", [])
  | article :: rest =>
      let '(text, cites) := stubDraftLines (S index) rest in
      if index <? 2 then
        (Hit.title article ++ " [" ++ Js.show_nat (index + 1) ++ "]" ++ String "010" "" ++ text,
         Hit.title article :: cites)
      else (text, cites)
  end.

Definition _stubDraft (ticketText : string) (articles : list Hit.t) (latency : nat) : Draft.t :=
  let opening := "Thank you for contacting our support team. " in
  let '(draftReply, citations) :=
    if 0 <? length articles then
      let '(lines, cites) := stubDraftLines 0 articles in
      (opening ++ "Based on our knowledge base, here's how we can help:"
         ++ String "010" (String "010" "") ++ lines
         ++ String "010" "Please review the information above. If you need additional assistance, our support team will be happy to help further.",
       cites)
    else
      (opening ++ "We've received your request and our support team will review it shortly. We typically respond within 24 hours.",
       []) in
  Draft.mk draftReply citations (mkModelInfo "stub" "template-based" promptVersion latency).

(** [classify(text)]: the stub in stub mode, else the remote model with
    the stub as fallback on any error. *)
Definition classify (this : t) (text : string) : Classification :=
  if stubMode this then _stubClassify text (latency this)
  else
    match remoteClassify this text with
    | Some (predictedCategory, confidence) =>
        mkClassification predictedCategory confidence
          (mkModelInfo "deepseek" "deepseek-chat" promptVersion (latency this))
    | None => _stubClassify text (latency this)
    end.

(** [draft(ticketText, articles)], with the same fallback. *)
Definition draft (this : t) (ticketText : string) (articles : list Hit.t) : Draft.t :=
  if stubMode this then _stubDraft ticketText articles (latency this)
  else
    match remoteDraft this ticketText articles with
    | Some (draftReply, citations) =>
        Draft.mk draftReply citations
          (mkModelInfo "deepseek" "deepseek-chat" promptVersion (latency this))
    | None => _stubDraft ticketText articles (latency this)
    end.

End LLMProvider.

(* ===================================================================== *)
(** ** The knowledge-base search service ([services/llmService.js]) *)
(* ===================================================================== *)

Module KBSearchService.

(** The three [Article.find] queries that [search] issues.  [category] is
    the optional [tags: { $in: [category] }] restriction added to the
    [status: 'published'] filter. *)
Inductive Query :=
| TextSearch (category : option CategoryValue) (query : string) (limit : nat)
| TagOrTitle (category : option CategoryValue) (queryWords : list string) (limit : nat)
| Recent (category : option CategoryValue) (limit : nat).

(** The service object: [Article_find] is the article collection's answer
    to a query, ranking included; it may fail with an error. *)
Record t := mk {
  Article_find : Query -> list Article.t -> JsError + list Article.t
}.

(** The object [search] makes of an article; [article.score] is
    [undefined] on a document, so [article.score || 0] is [0]. *)
Definition toHit (article : Article.t) : Hit.t :=
  Hit.mk (Article._id article) (Article.title article) (Article.body article)
    (Article.tags article) 0%float.

(** [category && category !== 'other']: the category that restricts the
    tags, if any; the empty string is falsy. *)
Definition tagFilter (category : option CategoryValue) : option CategoryValue :=
  match category with
  | Some (inEnum other) => None
  | Some (outside "") => None
  | Some c => Some c
  | None => None
  end.

(** The body of the [try] block of [search]. *)
Definition search_try (this : t) (articles : list Article.t)
    (query : string) (category : option CategoryValue) (limit : nat)
  : JsError + list Hit.t :=
  let searchFilter := tagFilter category in
  let found :=
    if negb (String.eqb query "") then
      match Article_find this (TextSearch searchFilter query limit) articles with
      | inl e => inl e
      | inr [] =>
          let queryWords := Js.split_space (Js.toLowerCase query) in
          Article_find this (TagOrTitle searchFilter queryWords limit) articles
      | inr found => inr found
      end
    else Article_find this (Recent searchFilter limit) articles in
  match found with
  | inl e => inl e
  | inr found => inr (map toHit found)
  end.

(** [search(query, category, limit)]: the [catch] clause turns every
    error of the [try] block into the empty list. *)
Definition search (this : t) (articles : list Article.t)
    (query : string) (category : option CategoryValue) (limit : nat) : list Hit.t :=
  match search_try this articles query category limit with
  | inr hits => hits
  | inl error => []
  end.

End KBSearchService.

(* ===================================================================== *)
(** ** Documents of the remaining collections ([models/index.js]) *)
(* ===================================================================== *)

Module User.
Inductive Role := admin | agent | user.
Record t := mk { _id : ObjectId; name : string; email : string; role : Role }.
Definition is_agent (u : t) : bool :=
  match role u with agent => true | _ => false end.
End User.

Module Reply.
Record t := mk { author : ObjectId; content : string; isAgentGenerated : bool }.
End Reply.

Module Ticket.
Record t := mk {
  _id : ObjectId;
  title : string;
  description : string;
  category : Category;
  status : Status;
  createdBy : ObjectId;
  assignee : option ObjectId;
  agentSuggestionId : option ObjectId;
  replies : list Reply.t
}.

(** Assignments to the paths of a loaded document. *)
Definition set_category (c : Category) (x : t) : t :=
  mk (_id x) (title x) (description x) c (status x) (createdBy x) (assignee x)
     (agentSuggestionId x) (replies x).
Definition set_status (st : Status) (x : t) : t :=
  mk (_id x) (title x) (description x) (category x) st (createdBy x) (assignee x)
     (agentSuggestionId x) (replies x).
Definition set_assignee (a : ObjectId) (x : t) : t :=
  mk (_id x) (title x) (description x) (category x) (status x) (createdBy x) (Some a)
     (agentSuggestionId x) (replies x).
Definition set_agentSuggestionId (sid : ObjectId) (x : t) : t :=
  mk (_id x) (title x) (description x) (category x) (status x) (createdBy x) (assignee x)
     (Some sid) (replies x).
Definition push_reply (r : Reply.t) (x : t) : t :=
  mk (_id x) (title x) (description x) (category x) (status x) (createdBy x) (assignee x)
     (agentSuggestionId x) (replies x ++ [r])%list.
End Ticket.

Module AgentSuggestion.
Record t := mk {
  _id : ObjectId;
  ticketId : ObjectId;
  predictedCategory : Category;
  articleIds : list ObjectId;
  draftReply : string;
  confidence : float;
  autoClosed : bool;
  modelInfo : ModelInfo
}.
End AgentSuggestion.

Module Config.
(** [slaHours] is absent from the object literal that replaces a missing
    configuration document. *)
Record t := mk {
  autoCloseEnabled : bool;
  confidenceThreshold : float;
  slaHours : option nat
}.
End Config.

(** The two verdicts of the decision step. *)
Inductive DecisionAction := auto_close | assign_human.

Module Decision.
Record t := mk {
  action : DecisionAction;
  confidence : float;
  threshold : float;
  autoCloseEnabled : bool;
  reasoning : string
}.
End Decision.

Module TriagePlan.
Record TicketInfo := mkInfo {
  id : ObjectId; title : string; category : Category; status : Status }.
Record t := mk { steps : list string; ticketInfo : TicketInfo }.
End TriagePlan.

(** The [meta] object of an audit entry (schema type [Mixed]), one
    constructor for each shape that the application writes. *)
Inductive Meta :=
| MetaPlan (plan : TriagePlan.t)
| MetaClassified (originalCategory : Category) (predictedCategory : CategoryValue)
    (confidence : float) (modelInfo : ModelInfo)
| MetaKB (searchQuery : string) (articlesFound : nat) (articleIds : list ObjectId)
    (articleTitles : list string)
| MetaDraft (draftLength citationsCount : nat) (modelInfo : ModelInfo)
| MetaDecision (decision : Decision.t)
| MetaAutoClosed (suggestionId : ObjectId) (confidence : float)
| MetaAssigned (suggestionId : ObjectId) (assigneeId : option ObjectId) (confidence : float)
| MetaFailed (error : string)
| MetaCreated (title : string) (category : Category) (createdBy : ObjectId)
| MetaEmpty.

Module AuditLog.
Record t := mk {
  ticketId : option ObjectId;
  traceId : string;
  actor : string;
  action : string;
  meta : Meta
}.
End AuditLog.

(** [auditLogSchema.action.enum] *)
Definition auditLogSchema_action : list string :=
  [ "TICKET_CREATED";
    "AGENT_CLASSIFIED";
    "KB_RETRIEVED";
    "DRAFT_GENERATED";
    "AUTO_CLOSED";
    "ASSIGNED_TO_HUMAN";
    "REPLY_SENT";
    "TICKET_REOPENED";
    "TICKET_CLOSED";
    "SUGGESTION_EDITED" ].

(** [auditLogSchema.actor.enum] *)
Definition auditLogSchema_actor : list string := [ "system"; "agent"; "user" ].

(** Membership of a string in an [enum] list. *)
Definition enum_has (enum : list string) (v : string) : bool :=
  existsb (String.eqb v) enum.

(* ===================================================================== *)
(** ** The world the service runs in, and its computations *)
(* ===================================================================== *)

(** What the process does besides the database: a structured console line
    (of its JSON fields the level, trace id and message, the error text of
    an error line, and the attempt counters of a retry line), and a timer
    awaited for [delay] milliseconds. *)
Inductive Effect :=
| Console (level traceId message : string) (error : option string)
    (attempt : option (nat * nat))
| SetTimeout (delay : nat).

(** The collections in insertion order, the supply of fresh [ObjectId]s,
    the number of identifiers [crypto.randomUUID] has produced so far, and
    the effects so far in the order they happened. *)
Record World := mkWorld {
  tickets : list Ticket.t;
  suggestions : list AgentSuggestion.t;
  auditLogs : list AuditLog.t;
  users : list User.t;
  configs : list Config.t;
  articles : list Article.t;
  nextId : ObjectId;
  uuidCount : nat;
  effects : list Effect
}.

Inductive Result (A : Type) :=
| Ok (a : A)
| Throw (e : JsError).
Arguments Ok {A} a.
Arguments Throw {A} e.

(** An [async] computation.  The world after a [Throw] holds every effect
    performed before the error was raised. *)
Definition M (A : Type) : Type := World -> Result A * World.

Definition ret {A} (a : A) : M A := fun w => (Ok a, w).

Definition bind {A B} (m : M A) (k : A -> M B) : M B :=
  fun w =>
    match m w with
    | (Ok a, w') => k a w'
    | (Throw e, w') => (Throw e, w')
    end.

Definition throw {A} (e : JsError) : M A := fun w => (Throw e, w).

(** [try { m } catch (error) { handler error }] *)
Definition try_catch {A} (m : M A) (handler : JsError -> M A) : M A :=
  fun w =>
    match m w with
    | (Ok a, w') => (Ok a, w')
    | (Throw e, w') => handler e w'
    end.

Definition gets {A} (f : World -> A) : M A := fun w => (Ok (f w), w).
Definition modify (f : World -> World) : M unit := fun w => (Ok tt, f w).

Declare Scope js_scope.
Delimit Scope js_scope with js.
Notation "x <- m ;; k" := (bind m (fun x => k))
  (at level 61, m at next level, right associativity) : js_scope.
Notation "' pat <- m ;; k" := (bind m (fun x => match x with pat => k end))
  (at level 61, pat pattern, m at next level, right associativity) : js_scope.
Notation "m ;; k" := (bind m (fun _ => k))
  (at level 61, right associativity) : js_scope.
Local Open Scope js_scope.

Definition set_tickets (v : list Ticket.t) (w : World) : World :=
  mkWorld v (suggestions w) (auditLogs w) (users w) (configs w) (articles w)
    (nextId w) (uuidCount w) (effects w).
Definition set_suggestions (v : list AgentSuggestion.t) (w : World) : World :=
  mkWorld (tickets w) v (auditLogs w) (users w) (configs w) (articles w)
    (nextId w) (uuidCount w) (effects w).
Definition set_auditLogs (v : list AuditLog.t) (w : World) : World :=
  mkWorld (tickets w) (suggestions w) v (users w) (configs w) (articles w)
    (nextId w) (uuidCount w) (effects w).
Definition set_users (v : list User.t) (w : World) : World :=
  mkWorld (tickets w) (suggestions w) (auditLogs w) v (configs w) (articles w)
    (nextId w) (uuidCount w) (effects w).
Definition set_nextId (v : ObjectId) (w : World) : World :=
  mkWorld (tickets w) (suggestions w) (auditLogs w) (users w) (configs w) (articles w)
    v (uuidCount w) (effects w).
Definition set_uuidCount (v : nat) (w : World) : World :=
  mkWorld (tickets w) (suggestions w) (auditLogs w) (users w) (configs w) (articles w)
    (nextId w) v (effects w).
Definition set_effects (v : list Effect) (w : World) : World :=
  mkWorld (tickets w) (suggestions w) (auditLogs w) (users w) (configs w) (articles w)
    (nextId w) (uuidCount w) v.

(** One more effect at the end of the trace. *)
Definition emit (e : Effect) : M unit :=
  modify (fun w => set_effects (effects w ++ [e])%list w).

(** [console.log(JSON.stringify({ level: 'info', traceId, message, ... }))] *)
Definition console_info (traceId message : string) : M unit :=
  emit (Console "info" traceId message None None).

(** [console.error(JSON.stringify({ level: 'error', traceId, message, error }))] *)
Definition console_error (traceId message error : string) : M unit :=
  emit (Console "error" traceId message (Some error) None).

(** A fresh [ObjectId] for a new document. *)
Definition newObjectId : M ObjectId :=
  fun w => (Ok (nextId w), set_nextId (S (nextId w)) w).

(* ===================================================================== *)
(** ** Persistence: the operations of the models that the service calls *)
(* ===================================================================== *)

Module Db.

(** [Ticket.findById(id)] *)
Definition Ticket_findById (ticketId : ObjectId) : M (option Ticket.t) :=
  gets (fun w => find (fun t => Ticket._id t =? ticketId) (tickets w)).

(** [ticket.save()] on a loaded ticket whose paths hold values of the
    schema: the stored document of the same [_id] takes the values of the
    one in memory.  The documents of the collection passed validation
    when they were stored, and the assignments of the service and the
    routes give a path a value of its enumeration; the one assignment of
    an unchecked value is that of the classification step, for which see
    [Ticket_save_category]. *)
Definition Ticket_save (ticket : Ticket.t) : M unit :=
  modify (fun w =>
    set_tickets
      (map (fun t => if Ticket._id t =? Ticket._id ticket then ticket else t) (tickets w)) w).

(** The validation error of an [enum] path, with Mongoose's message. *)
Definition enumError (modelName path value : string) : JsError :=
  mkError "ValidationError"
    (modelName ++ " validation failed: " ++ path ++ ": `" ++ value
       ++ "` is not a valid enum value for path `" ++ path ++ "`.").

(** [ticket.category = value; await ticket.save()]: the validation that
    [save] runs first rejects a [category] outside the enumeration of the
    schema, and then nothing is written; otherwise the document is saved
    with the new category.  Returns the document as saved. *)
Definition Ticket_save_category (value : CategoryValue) (ticket : Ticket.t) : M Ticket.t :=
  match value with
  | inEnum c =>
      let ticket := Ticket.set_category c ticket in
      Ticket_save ticket ;;
      ret ticket
  | outside s => throw (enumError "Ticket" "category" s)
  end.

(** [auditLog.save()] under a schema whose [action] enum is [actions]:
    validation runs first and rejects a value outside the enum; a valid
    entry is appended to the collection. *)
Definition AuditLog_save (actions : list string) (log : AuditLog.t) : M unit :=
  if negb (enum_has auditLogSchema_actor (AuditLog.actor log)) then
    throw (enumError "AuditLog" "actor" (AuditLog.actor log))
  else if negb (enum_has actions (AuditLog.action log)) then
    throw (enumError "AuditLog" "action" (AuditLog.action log))
  else modify (fun w => set_auditLogs (auditLogs w ++ [log])%list w).

(** [AuditLog.findOne({ ticketId, traceId, action })]: an entry that
    matches the filter, or [null] when there is none.  The query asks for
    no order, and the database promises none when several entries match;
    here the answer is the match that was inserted first.  No property
    below depends on which of several matches is returned: each is about
    the absence of a match or about the entry that was returned. *)
Definition AuditLog_findOne (ticketId : ObjectId) (traceId action : string)
  : M (option AuditLog.t) :=
  gets (fun w =>
    find (fun log =>
            match AuditLog.ticketId log with
            | Some i => i =? ticketId
            | None => false
            end
            && String.eqb (AuditLog.traceId log) traceId
            && String.eqb (AuditLog.action log) action)
         (auditLogs w)).

(** The validation of a suggestion: [draftReply] is required (and so not
    empty) and [confidence] lies between [min: 0] and [max: 1].  The
    message of the range error is abridged. *)
Definition AgentSuggestion_validate (s : AgentSuggestion.t) : option JsError :=
  if String.eqb (AgentSuggestion.draftReply s) "" then
    Some (mkError "ValidationError"
            "AgentSuggestion validation failed: draftReply: Path `draftReply` is required.")
  else if negb (PrimFloat.leb 0 (AgentSuggestion.confidence s)
                && PrimFloat.leb (AgentSuggestion.confidence s) 1) then
    Some (mkError "ValidationError"
            "AgentSuggestion validation failed: confidence: outside the allowed range")
  else None.

(** [suggestion.save()] for a new suggestion. *)
Definition AgentSuggestion_save (s : AgentSuggestion.t) : M unit :=
  match AgentSuggestion_validate s with
  | Some e => throw e
  | None => modify (fun w => set_suggestions (suggestions w ++ [s])%list w)
  end.

(** [AgentSuggestion.findOne({ ticketId }).sort({ createdAt: -1 })]: the
    suggestion of the ticket that was created last. *)
Definition AgentSuggestion_latest (ticketId : ObjectId) : M (option AgentSuggestion.t) :=
  gets (fun w =>
    find (fun s => AgentSuggestion.ticketId s =? ticketId) (rev (suggestions w))).

(** [Config.findOne()] *)
Definition Config_findOne : M (option Config.t) :=
  gets (fun w => hd_error (configs w)).

(** [User.findOne({ email })] and [User.findOne({ role: 'agent' })] *)
Definition User_findByEmail (email : string) : M (option User.t) :=
  gets (fun w => find (fun u => String.eqb (User.email u) email) (users w)).
Definition User_findAgent : M (option User.t) :=
  gets (fun w => find User.is_agent (users w)).

(** [user.save()] for a new user. *)
Definition User_save (u : User.t) : M unit :=
  modify (fun w => set_users (users w ++ [u])%list w).

(** [Article.find({ _id: { $in: ids } })] *)
Definition Article_findByIds (ids : list ObjectId) : M (list Article.t) :=
  gets (fun w => filter (fun a => existsb (Nat.eqb (Article._id a)) ids) (articles w)).

End Db.

(* ===================================================================== *)
(** ** The triage service ([services/agentService.js]) *)
(* ===================================================================== *)

(** The value a successful [triageTicket] returns. *)
Module TriageResult.
Record t := mk {
  success : bool;
  traceId : string;
  ticketId : ObjectId;
  decision : DecisionAction;
  confidence : float
}.
End TriageResult.

Module AgentService.

(** The service object with what it is loaded with: its two collaborators
    (set by the constructor), the [action] enum of the [AuditLog] model it
    requires, the two environment variables it reads
    ([CONFIDENCE_THRESHOLD] after [parseFloat], so [NaN] when unset), and
    the identifiers [crypto.randomUUID] produces, in order. *)
Record t := mk {
  llmProvider : LLMProvider.t;
  kbSearch : KBSearchService.t;
  AuditLog_action : list string;
  AUTO_CLOSE_ENABLED : option string;
  CONFIDENCE_THRESHOLD : float;
  randomUUID : nat -> string
}.

(** [crypto.randomUUID()] *)
Definition crypto_randomUUID (this : t) : M string :=
  fun w => (Ok (randomUUID this (uuidCount w)), set_uuidCount (S (uuidCount w)) w).

(** [_logAudit(ticketId, traceId, actor, action, meta)] *)
Definition _logAudit (this : t) (ticketId : ObjectId) (traceId actor action : string)
    (meta : Meta) : M unit :=
  let auditLog := AuditLog.mk (Some ticketId) traceId actor action meta in
  Db.AuditLog_save (AuditLog_action this) auditLog.

(** [_createTriagePlan(ticket)] *)
Definition _createTriagePlan (ticket : Ticket.t) : TriagePlan.t :=
  TriagePlan.mk
    [ "classify_category";
      "retrieve_kb_articles";
      "draft_reply";
      "compute_confidence";
      "make_decision" ]
    (TriagePlan.mkInfo (Ticket._id ticket) (Ticket.title ticket)
       (Ticket.category ticket) (Ticket.status ticket)).

(** [_classifyTicket(ticket, traceId)].  The ticket is a loaded document
    that the method assigns to; the document as the method leaves it is
    returned beside the classification. *)
Definition _classifyTicket (this : t) (ticket : Ticket.t) (traceId : string)
  : M (Ticket.t * Classification) :=
  console_info traceId "Starting classification" ;;
  let ticketText := Ticket.title ticket ++ String "010" "" ++ Ticket.description ticket in
  let classification := LLMProvider.classify (llmProvider this) ticketText in
  ticket <-
    (if Js.gt (confidence classification) 0.7 then
       Db.Ticket_save_category (predictedCategory classification) ticket
     else ret ticket) ;;
  _logAudit this (Ticket._id ticket) traceId "system" "AGENT_CLASSIFIED"
    (MetaClassified (Ticket.category ticket) (predictedCategory classification)
       (confidence classification) (modelInfo classification)) ;;
  console_info traceId "Classification completed" ;;
  ret (ticket, classification).

(** [_retrieveKBArticles(ticket, classification, traceId)] *)
Definition _retrieveKBArticles (this : t) (ticket : Ticket.t)
    (classification : Classification) (traceId : string) : M (list Hit.t) :=
  console_info traceId "Retrieving KB articles" ;;
  let searchQuery :=
    Js.substring0 200 (Ticket.title ticket ++ " " ++ Ticket.description ticket) in
  articles <-
    gets (fun w =>
      KBSearchService.search (kbSearch this) (articles w) searchQuery
        (Some (predictedCategory classification)) 3) ;;
  _logAudit this (Ticket._id ticket) traceId "system" "KB_RETRIEVED"
    (MetaKB (Js.substring0 100 searchQuery) (length articles)
       (map Hit.id articles) (map Hit.title articles)) ;;
  console_info traceId "KB retrieval completed" ;;
  ret articles.

(** [_draftReply(ticket, articles, traceId)] *)
Definition _draftReply (this : t) (ticket : Ticket.t) (articles : list Hit.t)
    (traceId : string) : M Draft.t :=
  console_info traceId "Drafting reply" ;;
  let ticketText := Ticket.title ticket ++ String "010" "" ++ Ticket.description ticket in
  let draft := LLMProvider.draft (llmProvider this) ticketText articles in
  _logAudit this (Ticket._id ticket) traceId "system" "DRAFT_GENERATED"
    (MetaDraft (String.length (Draft.draftReply draft)) (length (Draft.citations draft))
       (Draft.modelInfo draft)) ;;
  console_info traceId "Draft generated" ;;
  ret draft.

(** The object that replaces a missing configuration document. *)
Definition defaultConfig (this : t) : Config.t :=
  Config.mk
    (match AUTO_CLOSE_ENABLED this with
     | Some v => String.eqb v "true"
     | None => false
     end)
    (Js.num_or (CONFIDENCE_THRESHOLD this) 0.78)
    None.

(** [config.autoCloseEnabled && classification.confidence >= config.confidenceThreshold] *)
Definition shouldAutoClose (config : Config.t) (confidence : float) : bool :=
  Config.autoCloseEnabled config && Js.ge confidence (Config.confidenceThreshold config).

(** The [decision] object of [_makeTriageDecision]. *)
Definition decision (config : Config.t) (confidence : float) : Decision.t :=
  Decision.mk
    (if shouldAutoClose config confidence then auto_close else assign_human)
    confidence
    (Config.confidenceThreshold config)
    (Config.autoCloseEnabled config)
    (if shouldAutoClose config confidence
     then "High confidence classification, auto-closing with AI response"
     else "Low confidence or auto-close disabled, assigning to human").

(** [_makeTriageDecision(ticket, classification, draft, traceId)] *)
Definition _makeTriageDecision (this : t) (ticket : Ticket.t)
    (classification : Classification) (draft : Draft.t) (traceId : string)
  : M Decision.t :=
  found <- Db.Config_findOne ;;
  let config := match found with Some c => c | None => defaultConfig this end in
  let decision := decision config (confidence classification) in
  _logAudit this (Ticket._id ticket) traceId "system" "DECISION_MADE"
    (MetaDecision decision) ;;
  console_info traceId "Triage decision made" ;;
  ret decision.

(** [_getClassificationFromLogs(ticketId, traceId)]: [log ? log.meta : null] *)
Definition _getClassificationFromLogs (ticketId : ObjectId) (traceId : string)
  : M (option Meta) :=
  log <- Db.AuditLog_findOne ticketId traceId "AGENT_CLASSIFIED" ;;
  ret (option_map AuditLog.meta log).

(** [_getArticlesFromLogs(ticketId, traceId)]; of each article the caller
    reads the [id] only. *)
Definition _getArticlesFromLogs (ticketId : ObjectId) (traceId : string)
  : M (list ObjectId) :=
  log <- Db.AuditLog_findOne ticketId traceId "KB_RETRIEVED" ;;
  match option_map AuditLog.meta log with
  | Some (MetaKB _ _ articleIds _) =>
      articles <- Db.Article_findByIds articleIds ;;
      ret (map Article._id articles)
  | _ => ret []
  end.

Definition fallbackDraft : string :=
  "Thank you for your inquiry. Our team is reviewing your request.".

(** [_getDraftFromLogs(ticketId, traceId)]: the [draftReply] of the
    returned object. *)
Definition _getDraftFromLogs (ticketId : ObjectId) (traceId : string) : M string :=
  log <- Db.AuditLog_findOne ticketId traceId "DRAFT_GENERATED" ;;
  match log with
  | Some _ =>
      suggestion <- Db.AgentSuggestion_latest ticketId ;;
      match suggestion with
      | Some suggestion => ret (AgentSuggestion.draftReply suggestion)
      | None => ret fallbackDraft
      end
  | None => ret fallbackDraft
  end.

(** [_getSystemUserId()] *)
Definition _getSystemUserId : M ObjectId :=
  found <- Db.User_findByEmail "system@helpdesk.local" ;;
  match found with
  | Some systemUser => ret (User._id systemUser)
  | None =>
      i <- newObjectId ;;
      let systemUser := User.mk i "AI Assistant" "system@helpdesk.local" User.agent in
      Db.User_save systemUser ;;
      ret (User._id systemUser)
  end.

(** [_executeDecision(ticket, decision, traceId)]; returns the ticket
    document as the method leaves it.  A [null] classification makes the
    first property read throw; a recorded category outside the
    enumeration, or a [meta] without the classification's fields (which
    leaves the required paths of the suggestion undefined), makes the
    validation of the suggestion reject it.  Of a validation error that
    concerns several paths the message is abridged to the paths named. *)
Definition _executeDecision (this : t) (ticket : Ticket.t) (decision : Decision.t)
    (traceId : string) : M Ticket.t :=
  classification <- _getClassificationFromLogs (Ticket._id ticket) traceId ;;
  articleIds <- _getArticlesFromLogs (Ticket._id ticket) traceId ;;
  draftReply <- _getDraftFromLogs (Ticket._id ticket) traceId ;;
  match classification with
  | None =>
      throw (mkError "TypeError"
               "Cannot read properties of null (reading 'predictedCategory')")
  | Some (MetaClassified _ (outside s) _ _) =>
      throw (Db.enumError "AgentSuggestion" "predictedCategory" s)
  | Some (MetaClassified _ (inEnum predictedCategory) confidence modelInfo) =>
      i <- newObjectId ;;
      let suggestion :=
        AgentSuggestion.mk i (Ticket._id ticket) predictedCategory articleIds draftReply
          confidence
          (match Decision.action decision with auto_close => true | assign_human => false end)
          modelInfo in
      Db.AgentSuggestion_save suggestion ;;
      let ticket := Ticket.set_agentSuggestionId (AgentSuggestion._id suggestion) ticket in
      ticket <-
        match Decision.action decision with
        | auto_close =>
            let ticket := Ticket.set_status resolved ticket in
            author <- _getSystemUserId ;;
            let ticket := Ticket.push_reply (Reply.mk author draftReply true) ticket in
            _logAudit this (Ticket._id ticket) traceId "system" "AUTO_CLOSED"
              (MetaAutoClosed (AgentSuggestion._id suggestion) confidence) ;;
            console_info traceId "Ticket auto-closed" ;;
            ret ticket
        | assign_human =>
            let ticket := Ticket.set_status waiting_human ticket in
            agent <- Db.User_findAgent ;;
            let ticket :=
              match agent with
              | Some agent => Ticket.set_assignee (User._id agent) ticket
              | None => ticket
              end in
            _logAudit this (Ticket._id ticket) traceId "system" "ASSIGNED_TO_HUMAN"
              (MetaAssigned (AgentSuggestion._id suggestion) (option_map User._id agent)
                 confidence) ;;
            console_info traceId "Ticket assigned to human" ;;
            ret ticket
        end ;;
      Db.Ticket_save ticket ;;
      ret ticket
  | Some _ =>
      throw (mkError "ValidationError"
               "AgentSuggestion validation failed: predictedCategory: Path `predictedCategory` is required., confidence: Path `confidence` is required.")
  end.

(** The statements of the [try] block of [triageTicket] that follow the
    loading of the ticket. *)
Definition triageSteps (this : t) (ticket : Ticket.t) (trace : string)
  : M TriageResult.t :=
  console_info trace "Starting ticket triage" ;;
  (* Step 1: Plan *)
  let plan := _createTriagePlan ticket in
  _logAudit this (Ticket._id ticket) trace "system" "TRIAGE_STARTED" (MetaPlan plan) ;;
  (* Step 2: Classify *)
  ' (ticket, classification) <- _classifyTicket this ticket trace ;;
  (* Step 3: Retrieve KB articles *)
  articles <- _retrieveKBArticles this ticket classification trace ;;
  (* Step 4: Draft reply *)
  draft <- _draftReply this ticket articles trace ;;
  (* Step 5: Make decision *)
  decision <- _makeTriageDecision this ticket classification draft trace ;;
  (* Step 6: Execute decision *)
  ticket <- _executeDecision this ticket decision trace ;;
  ret (TriageResult.mk true trace (Ticket._id ticket) (Decision.action decision)
         (confidence classification)).

(** [triageTicket(ticketId, traceId = null)].  An absent or empty
    [traceId] is falsy.  The ticket is loaded by the first statement of
    the [try] block; the [catch] clause sees it through the variable
    [ticket], which is [null] only when loading found nothing. *)
Definition triageTicket (this : t) (ticketId : ObjectId) (traceId : option string)
  : M TriageResult.t :=
  trace <-
    match traceId with
    | Some given => if String.eqb given "" then crypto_randomUUID this else ret given
    | None => crypto_randomUUID this
    end ;;
  ticket <- Db.Ticket_findById ticketId ;;
  try_catch
    match ticket with
    | None => throw (mkError "Error" "Ticket not found")
    | Some ticket => triageSteps this ticket trace
    end
    (fun error =>
       console_error trace "Triage failed" (message error) ;;
       match ticket with
       | Some ticket =>
           _logAudit this (Ticket._id ticket) trace "system" "TRIAGE_FAILED"
             (MetaFailed (message error))
       | None => ret tt
       end ;;
       throw error).

(** The [throw] that follows the loop of [retryTriage]; [lastError] is
    [undefined] when the loop body never ran. *)
Definition retryExit (maxRetries : nat) (lastError : option JsError) : M TriageResult.t :=
  match lastError with
  | Some lastError =>
      throw (mkError "Error"
               ("Triage failed after " ++ Js.show_nat maxRetries ++ " attempts: "
                  ++ message lastError))
  | None =>
      throw (mkError "TypeError"
               "Cannot read properties of undefined (reading 'message')")
  end.

(** One pass through the [try] block of the loop, [attempt] already
    incremented. *)
Definition retryAttempt (this : t) (ticketId : ObjectId) (maxRetries attempt : nat)
  : M TriageResult.t :=
  traceId <- crypto_randomUUID this ;;
  emit (Console "info" traceId "Retrying triage" None (Some (attempt, maxRetries))) ;;
  triageTicket this ticketId (Some traceId).

(** The [catch] clause of the loop, apart from the assignment to
    [lastError]. *)
Definition retryBackoff (maxRetries attempt : nat) : M unit :=
  if attempt <? maxRetries then
    (* Exponential backoff *)
    let delay := 2 ^ attempt * 1000 in
    emit (SetTimeout delay)
  else ret tt.

(** The [while (attempt < maxRetries)] loop followed by the final
    [throw], entered with [attempt] attempts made; [remaining] bounds the
    iterations still possible. *)
Fixpoint retryLoop (this : t) (ticketId : ObjectId) (maxRetries : nat)
    (remaining attempt : nat) (lastError : option JsError) {struct remaining}
  : M TriageResult.t :=
  match remaining with
  | S remaining' =>
      if attempt <? maxRetries then
        let attempt := S attempt in
        try_catch (retryAttempt this ticketId maxRetries attempt)
          (fun error =>
             retryBackoff maxRetries attempt ;;
             retryLoop this ticketId maxRetries remaining' attempt (Some error))
      else retryExit maxRetries lastError
  | 0 => retryExit maxRetries lastError
  end.

(** [retryTriage(ticketId, maxRetries = 3)] *)
Definition retryTriage (this : t) (ticketId : ObjectId) (maxRetries : nat)
  : M TriageResult.t :=
  retryLoop this ticketId maxRetries maxRetries 0 None.

End AgentService.

(* ===================================================================== *)
(** ** Request validation and authorization ([middleware/auth.js]) *)
(* ===================================================================== *)

(** The sanitizers and checks of the request validators that the routes
    below declare, on ASCII text. *)
Module Validator.

(** White space as [trim] sees it: tab to carriage return, and space. *)
Definition is_space (c : ascii) : bool :=
  let n := nat_of_ascii c in
  ((9 <=? n) && (n <=? 13)) || (n =? 32).

Fixpoint trimStart (s : string) : string :=
  match s with
  | EmptyString => EmptyString
  | String c s' => if is_space c then trimStart s' else s
  end.

Fixpoint trimEnd (s : string) : string :=
  match s with
  | EmptyString => EmptyString
  | String c s' =>
      match trimEnd s' with
      | EmptyString => if is_space c then EmptyString else String c EmptyString
      | rest => String c rest
      end
  end.

(** [.trim()] *)
Definition trim (s : string) : string := trimEnd (trimStart s).

(** [.isLength({ min, max })] *)
Definition isLength (min max : nat) (s : string) : bool :=
  (min <=? String.length s) && (String.length s <=? max).

End Validator.

(** An HTTP response: status code, the [error] text of an error body, and
    the document of a success body. *)
Module Http.
Record t (A : Type) := mk {
  statusCode : nat;
  error : option string;
  body : option A
}.
Arguments mk {A} statusCode error body.
Arguments statusCode {A} t.
Arguments error {A} t.
Arguments body {A} t.

Definition ok {A} (a : A) : t A := mk 200 None (Some a).
Definition fail {A} (code : nat) (msg : string) : t A := mk code (Some msg) None.
End Http.

Module Auth.

Definition Role_eqb (a b : User.Role) : bool :=
  match a, b with
  | User.admin, User.admin | User.agent, User.agent | User.user, User.user => true
  | _, _ => false
  end.

(** What [authenticate] makes of the [Authorization] header: no token, a
    token that [jwt.verify] rejects as expired or for another reason, or
    a token that verifies, with the [userId] of its payload. *)
Inductive Token :=
| NoToken
| ExpiredToken
| InvalidToken
| Verified (userId : ObjectId).

(** [authenticate]: the answer 401, or the stored user that the verified
    token names, who becomes [req.user]. *)
Definition authenticate {A} (token : Token) (w : World) : Http.t A + User.t :=
  match token with
  | NoToken => inl (Http.fail 401 "Access denied. No token provided.")
  | ExpiredToken => inl (Http.fail 401 "Token expired.")
  | InvalidToken => inl (Http.fail 401 "Invalid token.")
  | Verified userId =>
      match find (fun u => User._id u =? userId) (users w) with
      | Some user => inr user
      | None => inl (Http.fail 401 "Invalid token.")
      end
  end.

(** [authorize(...roles)] for an authenticated request: [None] lets the
    request through to the handler. *)
Definition authorize {A} (roles : list User.Role) (user : User.t) : option (Http.t A) :=
  if negb (existsb (Role_eqb (User.role user)) roles) then
    Some (Http.fail 403 "Access denied. Insufficient permissions.")
  else None.

End Auth.

(* ===================================================================== *)
(** ** The routes that start a triage ([routes/agents.js], [routes/tickets.js]) *)
(* ===================================================================== *)

(** An HTTP response: the status code and the fields of the JSON body that
    the handlers below set. *)
Module Response.
Record t := mk {
  statusCode : nat;
  error : option string;
  details : option string;
  currentStatus : option Status;
  result : option TriageResult.t
}.
End Response.

Module AgentRoutes.

(** A handler as it is entered after [authenticate], [authorize] and the
    validation of the ticket id (none of which the handlers below
    repeat): its [try] block computes a response, its [catch] clause
    answers 500. *)
Definition handle (traceId failureLog failure : string) (body : M Response.t)
  : World -> Response.t * World :=
  fun w =>
    match body w with
    | (Ok response, w') => (response, w')
    | (Throw error, w') =>
        (Response.mk 500 (Some failure) (Some (message error)) None None,
         set_effects
           (effects w' ++ [Console "error" traceId failureLog (Some (message error)) None])%list
           w')
    end.

(** The handler of [router.post('/triage', ...)], entered by a request of
    an agent or admin with a well-formed ticket id; [req_traceId] is
    [req.traceId]. *)
Definition post_triage (agentService : AgentService.t) (ticketId : ObjectId)
    (req_traceId : string) : World -> Response.t * World :=
  handle req_traceId "Manual triage failed" "Triage failed"
    (* Verify ticket exists and can be triaged *)
    (ticket <- Db.Ticket_findById ticketId ;;
     match ticket with
     | None => ret (Response.mk 404 (Some "Ticket not found") None None None)
     | Some ticket =>
         if negb (existsb (Status_eqb (Ticket.status ticket)) [open; waiting_human]) then
           ret (Response.mk 400 (Some "Ticket cannot be triaged in current status") None
                  (Some (Ticket.status ticket)) None)
         else
           console_info req_traceId "Manual triage triggered" ;;
           triageResult <-
             AgentService.triageTicket agentService ticketId (Some req_traceId) ;;
           ret (Response.mk 200 None None None (Some triageResult))
     end).

(** The handler of [router.post('/retry/:ticketId', ...)], entered by a
    request of an agent or admin. *)
Definition post_retry (agentService : AgentService.t) (ticketId : ObjectId)
    (req_traceId : string) : World -> Response.t * World :=
  handle req_traceId "Triage retry failed" "Triage retry failed"
    (ticket <- Db.Ticket_findById ticketId ;;
     match ticket with
     | None => ret (Response.mk 404 (Some "Ticket not found") None None None)
     | Some ticket =>
         console_info req_traceId "Triage retry triggered" ;;
         (* Use retry mechanism with exponential backoff *)
         result <- AgentService.retryTriage agentService ticketId 3 ;;
         ret (Response.mk 200 None None None (Some result))
     end).

End AgentRoutes.

Module TicketRoutes.

(** The [try] block of the creation handler of [router.post('/', ...)]:
    the validators trim the title and the description and refuse an
    empty or over-long text and a category outside the enumeration; the
    new ticket is saved with status [open] and the category of the
    request ([other] when absent), a [TICKET_CREATED] entry records it
    under a fresh trace id, and the response carries the stored ticket
    and the trace id.  The triage that the handler schedules with
    [setImmediate] is [autoTriage] below. *)
Definition create (agentService : AgentService.t) (title description : string)
    (category : option CategoryValue) (userId : ObjectId)
  : M (Http.t (option Ticket.t * string)) :=
  let title := Validator.trim title in
  let description := Validator.trim description in
  if negb (Validator.isLength 1 200 title
           && Validator.isLength 1 5000 description
           && match category with
              | Some (outside _) => false
              | _ => true
              end) then
    ret (Http.fail 400 "Validation failed")
  else
    traceId <- AgentService.crypto_randomUUID agentService ;;
    i <- newObjectId ;;
    let ticket :=
      Ticket.mk i title description
        (match category with Some (inEnum c) => c | _ => other end)
        open userId None None [] in
    modify (fun w => set_tickets (tickets w ++ [ticket])%list w) ;;
    (* Log ticket creation *)
    Db.AuditLog_save (AgentService.AuditLog_action agentService)
      (AuditLog.mk (Some (Ticket._id ticket)) traceId "user" "TICKET_CREATED"
         (MetaCreated (Ticket.title ticket) (Ticket.category ticket) userId)) ;;
    console_info traceId "Ticket created" ;;
    (* Return created ticket *)
    populatedTicket <- Db.Ticket_findById (Ticket._id ticket) ;;
    ret (Http.mk 201 None (Some (populatedTicket, traceId))).

(** The handler with its [catch] clause. *)
Definition post (agentService : AgentService.t) (title description : string)
    (category : option CategoryValue) (userId : ObjectId) (req_traceId : string)
  : World -> Http.t (option Ticket.t * string) * World :=
  fun w =>
    match create agentService title description category userId w with
    | (Ok response, w') => (response, w')
    | (Throw error, w') =>
        (Http.fail 500 "Failed to create ticket",
         set_effects
           (effects w'
            ++ [Console "error" req_traceId "Ticket creation failed" (Some (message error))
                  None])%list
           w')
    end.

(** The callback the handler passes to [setImmediate]. *)
Definition autoTriage (agentService : AgentService.t) (ticket : Ticket.t)
    (traceId : string) : M unit :=
  try_catch
    (AgentService.triageTicket agentService (Ticket._id ticket) (Some traceId) ;; ret tt)
    (fun error => console_error traceId "Auto-triage failed" (message error)).

End TicketRoutes.

(* ===================================================================== *)
(** ** Observations on worlds and traces *)
(* ===================================================================== *)

(** The position of a category in the enumeration order of the
    classifier. *)
Definition enumIndex (c : CategoryValue) : nat :=
  match c with
  | inEnum billing => 0
  | inEnum tech => 1
  | inEnum shipping => 2
  | inEnum other => 3
  | outside _ => 4
  end.

(** The configuration the decision step works with in a world: the stored
    document, or the object built from the environment. *)
Definition effectiveConfig (this : AgentService.t) (w : World) : Config.t :=
  match hd_error (configs w) with
  | Some c => c
  | None => AgentService.defaultConfig this
  end.

(** The audit entries recorded under a run id, in insertion order. *)
Definition runEntries (traceId : string) (w : World) : list AuditLog.t :=
  filter (fun log => String.eqb (AuditLog.traceId log) traceId) (auditLogs w).

(** The categories an audit entry carries in its [meta]. *)
Definition metaCategories (m : Meta) : list CategoryValue :=
  match m with
  | MetaPlan plan => [inEnum (TriagePlan.category (TriagePlan.ticketInfo plan))]
  | MetaClassified originalCategory predictedCategory _ _ =>
      [inEnum originalCategory; predictedCategory]
  | MetaCreated _ category _ => [inEnum category]
  | _ => []
  end.

(** Some entry of the audit trail of the ticket carries category [c]. *)
Definition trailMentions (ticketId : ObjectId) (c : Category) (w : World) : bool :=
  existsb
    (fun log =>
       match AuditLog.ticketId log with
       | Some i =>
           (i =? ticketId)
           && existsb (CategoryValue_eqb (inEnum c)) (metaCategories (AuditLog.meta log))
       | None => false
       end)
    (auditLogs w).

(** The effects that belong to the retry loop itself: its own console line
    (the one with attempt counters) and its timers. *)
Definition isRetryEffect (e : Effect) : bool :=
  match e with
  | Console _ _ _ _ (Some _) => true
  | Console _ _ _ _ None => false
  | SetTimeout _ => true
  end.

Definition retryEffects (l : list Effect) : list Effect := filter isRetryEffect l.


(* ===================================================================== *)
(** ** Fixtures: the data of the repository's tests and seed script *)
(* ===================================================================== *)

Module Fixture.

(** An article collection that answers a text search with the published
    articles carrying the category tag, and has nothing to add for the
    looser queries. *)
Definition tagFind (q : KBSearchService.Query) (articles : list Article.t)
  : JsError + list Article.t :=
  match q with
  | KBSearchService.TextSearch category _ limit =>
      inr (firstn limit
             (filter (fun a =>
                        match Article.status a, category with
                        | Article.published, Some (inEnum billing) =>
                            existsb (String.eqb "billing") (Article.tags a)
                        | Article.published, Some (inEnum tech) =>
                            existsb (String.eqb "tech") (Article.tags a)
                        | Article.published, Some (inEnum shipping) =>
                            existsb (String.eqb "shipping") (Article.tags a)
                        | Article.published, Some (outside tag) =>
                            existsb (String.eqb tag) (Article.tags a)
                        | Article.published, _ => true
                        | Article.draft, _ => false
                        end) articles))
  | _ => inr []
  end.

(** An article collection whose every query fails. *)
Definition brokenFind (q : KBSearchService.Query) (articles : list Article.t)
  : JsError + list Article.t :=
  inl (mkError "MongoNetworkError" "connection lost").

Definition uuid (n : nat) : string := "run-" ++ Js.show_nat n.

(** The service in stub mode, with the environment of the seed
    configuration ([AUTO_CLOSE_ENABLED=true], threshold unset) and the
    [AuditLog] model of the repository. *)
Definition service : AgentService.t :=
  AgentService.mk
    (LLMProvider.mk true (fun _ => None) (fun _ _ => None) 0)
    (KBSearchService.mk tagFind)
    auditLogSchema_action
    (Some "true")
    PrimFloat.nan
    uuid.

(** The same service loaded with an [AuditLog] model whose enum also lists
    the three actions that only the pipeline writes.  This is not the
    model of the repository, whose enum lists none of the three; it is
    the model that the repository's test [should complete triage
    workflow] presupposes, and it shows what the pipeline does once its
    audit writes are accepted. *)
Definition extendedActions : list string :=
  (auditLogSchema_action ++ ["TRIAGE_STARTED"; "DECISION_MADE"; "TRIAGE_FAILED"])%list.

Definition extendedService : AgentService.t :=
  AgentService.mk
    (AgentService.llmProvider service) (AgentService.kbSearch service)
    extendedActions
    (AgentService.AUTO_CLOSE_ENABLED service) (AgentService.CONFIDENCE_THRESHOLD service)
    (AgentService.randomUUID service).

(** The service whose article collection is unreachable. *)
Definition brokenKbService : AgentService.t :=
  AgentService.mk
    (AgentService.llmProvider service) (KBSearchService.mk brokenFind)
    auditLogSchema_action
    (AgentService.AUTO_CLOSE_ENABLED service) (AgentService.CONFIDENCE_THRESHOLD service)
    (AgentService.randomUUID service).

Definition users : list User.t :=
  [ User.mk 1 "Admin User" "admin@helpdesk.local" User.admin;
    User.mk 2 "Support Agent" "agent@helpdesk.local" User.agent;
    User.mk 3 "Regular User" "user@helpdesk.local" User.user;
    User.mk 4 "AI Assistant" "system@helpdesk.local" User.agent ].

Definition articles : list Article.t :=
  [ Article.mk 10 "How to update payment method" "To update your payment method: ..."
      ["billing"; "payments"; "account"] Article.published;
    Article.mk 11 "Troubleshooting 500 errors" "If you're experiencing 500 Internal Server Errors: ..."
      ["tech"; "errors"; "troubleshooting"] Article.published;
    Article.mk 12 "Refund and cancellation policy" "Our refund policy: ..."
      ["billing"; "refund"; "policy"] Article.published ].

(** The first ticket of the seed script. *)
Definition refundTicket (st : Status) : Ticket.t :=
  Ticket.mk 20 "Refund for double charge"
    "I was charged twice for order #1234. My card shows two transactions of $49.99 each on the same day. Please refund one of the charges."
    other st 3 None None [].

(** The ticket of the test [should complete triage workflow]. *)
Definition passwordTicket : Ticket.t :=
  Ticket.mk 21 "Cannot reset my password"
    "The reset password link is not working. I clicked it multiple times but nothing happens."
    other open 3 None None [].

Definition world (ticket : Ticket.t) : World :=
  mkWorld [ticket] [] [] users [] articles 100 0 [].

End Fixture.

(** The audit entries the pipeline writes for a ticket under a run id,
    given their actions and [meta] objects. *)
Definition pipelineEntries (ticketId : ObjectId) (traceId : string)
    (l : list (string * Meta)) : list AuditLog.t :=
  map (fun am => AuditLog.mk (Some ticketId) traceId "system" (fst am) (snd am)) l.

(** The action of the terminal audit entry for a verdict. *)
Definition terminalAction (d : DecisionAction) : string :=
  match d with
  | auto_close => "AUTO_CLOSED"
  | assign_human => "ASSIGNED_TO_HUMAN"
  end.

(** A computation is quiet when all it adds to the trace of effects are
    console lines without attempt counters, and it draws no identifier
    from [crypto.randomUUID]: it sets no timer and is no retry. *)
Definition quiet {A} (m : M A) : Prop :=
  forall w, exists d,
    effects (snd (m w)) = (effects w ++ d)%list
    /\ retryEffects d = []
    /\ uuidCount (snd (m w)) = uuidCount w.

(** The delays of the timers in a trace, in order. *)
Definition timers (l : list Effect) : list nat :=
  flat_map (fun e => match e with SetTimeout delay => [delay] | _ => [] end) l.


(* ===================================================================== *)
(** ** Further persistence operations *)
(* ===================================================================== *)

Definition set_configs (v : list Config.t) (w : World) : World :=
  mkWorld (tickets w) (suggestions w) (auditLogs w) (users w) v (articles w)
    (nextId w) (uuidCount w) (effects w).

Module Store.

(** [User.findById(id)] *)
Definition User_findById (userId : ObjectId) : M (option User.t) :=
  gets (fun w => find (fun u => User._id u =? userId) (users w)).

(** [AgentSuggestion.findById(id)] *)
Definition AgentSuggestion_findById (suggestionId : ObjectId)
  : M (option AgentSuggestion.t) :=
  gets (fun w => find (fun s => AgentSuggestion._id s =? suggestionId) (suggestions w)).

(** The assignment [suggestion.draftReply = draftReply]. *)
Definition set_draftReply (draftReply : string) (s : AgentSuggestion.t) : AgentSuggestion.t :=
  AgentSuggestion.mk (AgentSuggestion._id s) (AgentSuggestion.ticketId s)
    (AgentSuggestion.predictedCategory s) (AgentSuggestion.articleIds s) draftReply
    (AgentSuggestion.confidence s) (AgentSuggestion.autoClosed s)
    (AgentSuggestion.modelInfo s).

(** [suggestion.save()] on a loaded suggestion. *)
Definition AgentSuggestion_update (s : AgentSuggestion.t) : M unit :=
  match Db.AgentSuggestion_validate s with
  | Some e => throw e
  | None =>
      modify (fun w =>
        set_suggestions
          (map (fun x => if AgentSuggestion._id x =? AgentSuggestion._id s then s else x)
             (suggestions w)) w)
  end.

(** The validation of a configuration: [confidenceThreshold] lies between
    [min: 0] and [max: 1].  The message is abridged. *)
Definition Config_validate (c : Config.t) : option JsError :=
  if negb (PrimFloat.leb 0 (Config.confidenceThreshold c)
           && PrimFloat.leb (Config.confidenceThreshold c) 1) then
    Some (mkError "ValidationError"
            "Config validation failed: confidenceThreshold: outside the allowed range")
  else None.

(** [config.save()]: for the document [Config.findOne()] returned
    ([loaded]) the stored document takes its values; a new document is
    added to the collection. *)
Definition Config_save (loaded : bool) (c : Config.t) : M unit :=
  match Config_validate c with
  | Some e => throw e
  | None =>
      modify (fun w =>
        set_configs
          (if loaded then c :: tl (configs w) else (configs w ++ [c])%list) w)
  end.

End Store.

(* ===================================================================== *)
(** ** The other routes ([routes/tickets.js], [routes/agents.js], [routes/config.js]) *)
(* ===================================================================== *)

(** The [meta] objects of the audit entries that the routes below write.
    The schema types [meta] as [Mixed] and nothing in the application
    reads these objects back. *)
Inductive RouteMeta :=
| ReplySent (agentId : ObjectId) (contentLength : nat) (newStatus : Status)
| TicketAssigned (assignedBy : ObjectId) (oldAssigneeId : option ObjectId)
    (newAssigneeId : ObjectId)
| TicketReopened (reopenedBy : ObjectId) (previousStatus : Status)
| TicketClosed (closedBy : ObjectId)
| SuggestionEdited (suggestionId editedBy : ObjectId) (originalLength newLength : nat)
| ConfigUpdated (updatedBy : ObjectId) (oldConfig newConfig : Config.t).

Module Routes.

(** What the routes are loaded with: the [action] enum of the [AuditLog]
    model, the way the [meta] objects of the routes are kept in the
    [Mixed] field, and the environment variables of the configuration
    defaults ([CONFIDENCE_THRESHOLD] after [parseFloat]). *)
Record t := mk {
  AuditLog_action : list string;
  mixed : RouteMeta -> Meta;
  AUTO_CLOSE_ENABLED : option string;
  CONFIDENCE_THRESHOLD : float
}.

(** A handler behind its [authorize] guard: the [try] block computes a
    response; the [catch] clause prints the error and answers 500 with a
    fixed text. *)
Definition handle {A} (guard : option (Http.t A)) (traceId failureLog failure : string)
    (body : M (Http.t A)) : World -> Http.t A * World :=
  fun w =>
    match guard with
    | Some refusal => (refusal, w)
    | None =>
        match body w with
        | (Ok response, w') => (response, w')
        | (Throw error, w') =>
            (Http.fail 500 failure,
             set_effects
               (effects w'
                ++ [Console "error" traceId failureLog (Some (message error)) None])%list
               w')
        end
    end.

(** A route behind [authenticate]: the handler, with its role check, is
    reached by an authenticated request only. *)
Definition authenticated {A} (token : Auth.Token)
    (route : User.t -> World -> Http.t A * World) : World -> Http.t A * World :=
  fun w =>
    match Auth.authenticate token w with
    | inl refusal => (refusal, w)
    | inr user => route user w
    end.

(** [new AuditLog({ ticketId, traceId, actor, action, meta }).save()] *)
Definition audit (this : t) (ticketId : option ObjectId) (traceId actor action : string)
    (meta : RouteMeta) : M unit :=
  Db.AuditLog_save (AuditLog_action this)
    (AuditLog.mk ticketId traceId actor action (mixed this meta)).

(** [router.post('/:id/reply', ...)] of [routes/tickets.js]. *)
Definition post_reply (this : t) (user : User.t) (ticketId : ObjectId)
    (content : string) (status : option Status) (req_traceId : string)
  : World -> Http.t Ticket.t * World :=
  handle (Auth.authorize [User.agent; User.admin] user)
    req_traceId "Reply failed" "Failed to send reply"
    (let content := Validator.trim content in
     if negb (Validator.isLength 1 5000 content
              && match status with
                 | Some st => existsb (Status_eqb st) [open; waiting_human; resolved; closed]
                 | None => true
                 end) then
       ret (Http.fail 400 "Validation failed")
     else
       ticket <- Db.Ticket_findById ticketId ;;
       match ticket with
       | None => ret (Http.fail 404 "Ticket not found")
       | Some ticket =>
           (* Add reply *)
           let ticket := Ticket.push_reply (Reply.mk (User._id user) content false) ticket in
           (* Update status if provided *)
           let ticket :=
             match status with
             | Some st => Ticket.set_status st ticket
             | None => ticket
             end in
           (* If resolving, ensure assignee is set *)
           let ticket :=
             match status, Ticket.assignee ticket with
             | Some resolved, None => Ticket.set_assignee (User._id user) ticket
             | _, _ => ticket
             end in
           Db.Ticket_save ticket ;;
           audit this (Some (Ticket._id ticket)) req_traceId "agent" "REPLY_SENT"
             (ReplySent (User._id user) (String.length content) (Ticket.status ticket)) ;;
           console_info req_traceId "Reply sent" ;;
           updatedTicket <- Db.Ticket_findById (Ticket._id ticket) ;;
           ret (Http.mk 200 None updatedTicket)
       end).

(** [router.post('/:id/assign', ...)] of [routes/tickets.js]; the
    [assigneeId] of the request is a well-formed id. *)
Definition post_assign (this : t) (user : User.t) (ticketId assigneeId : ObjectId)
    (req_traceId : string) : World -> Http.t Ticket.t * World :=
  handle (Auth.authorize [User.agent; User.admin] user)
    req_traceId "Assignment failed" "Failed to assign ticket"
    (ticket <- Db.Ticket_findById ticketId ;;
     match ticket with
     | None => ret (Http.fail 404 "Ticket not found")
     | Some ticket =>
         (* Verify assignee exists and is agent/admin *)
         assignee <- Store.User_findById assigneeId ;;
         if match assignee with
            | Some assignee =>
                negb (existsb (Auth.Role_eqb (User.role assignee)) [User.agent; User.admin])
            | None => true
            end then
           ret (Http.fail 400 "Invalid assignee")
         else
           let oldAssigneeId := Ticket.assignee ticket in
           let ticket := Ticket.set_assignee assigneeId ticket in
           let ticket := Ticket.set_status waiting_human ticket in
           Db.Ticket_save ticket ;;
           audit this (Some (Ticket._id ticket)) req_traceId "agent" "TICKET_ASSIGNED"
             (TicketAssigned (User._id user) oldAssigneeId assigneeId) ;;
           console_info req_traceId "Ticket assigned" ;;
           updatedTicket <- Db.Ticket_findById (Ticket._id ticket) ;;
           ret (Http.mk 200 None updatedTicket)
     end).

(** [router.post('/:id/reopen', ...)] of [routes/tickets.js]. *)
Definition post_reopen (this : t) (user : User.t) (ticketId : ObjectId)
    (req_traceId : string) : World -> Http.t Ticket.t * World :=
  handle (Auth.authorize [User.agent; User.admin; User.user] user)
    req_traceId "Reopen failed" "Failed to reopen ticket"
    (ticket <- Db.Ticket_findById ticketId ;;
     match ticket with
     | None => ret (Http.fail 404 "Ticket not found")
     | Some ticket =>
         (* Permission check for users *)
         if Auth.Role_eqb (User.role user) User.user
            && negb (Ticket.createdBy ticket =? User._id user) then
           ret (Http.fail 403 "Access denied")
         else if negb (existsb (Status_eqb (Ticket.status ticket)) [resolved; closed]) then
           ret (Http.fail 400 "Can only reopen resolved or closed tickets")
         else
           let ticket := Ticket.set_status waiting_human ticket in
           Db.Ticket_save ticket ;;
           audit this (Some (Ticket._id ticket)) req_traceId
             (if Auth.Role_eqb (User.role user) User.user then "user" else "agent")
             "TICKET_REOPENED"
             (TicketReopened (User._id user) resolved) ;;
           console_info req_traceId "Ticket reopened" ;;
           updatedTicket <- Db.Ticket_findById (Ticket._id ticket) ;;
           ret (Http.mk 200 None updatedTicket)
     end).

(** [router.post('/:id/close', ...)] of [routes/tickets.js]. *)
Definition post_close (this : t) (user : User.t) (ticketId : ObjectId)
    (req_traceId : string) : World -> Http.t Ticket.t * World :=
  handle (Auth.authorize [User.agent; User.admin] user)
    req_traceId "Close failed" "Failed to close ticket"
    (ticket <- Db.Ticket_findById ticketId ;;
     match ticket with
     | None => ret (Http.fail 404 "Ticket not found")
     | Some ticket =>
         let ticket := Ticket.set_status closed ticket in
         let ticket :=
           match Ticket.assignee ticket with
           | None => Ticket.set_assignee (User._id user) ticket
           | Some _ => ticket
           end in
         Db.Ticket_save ticket ;;
         audit this (Some (Ticket._id ticket)) req_traceId "agent" "TICKET_CLOSED"
           (TicketClosed (User._id user)) ;;
         console_info req_traceId "Ticket closed" ;;
         updatedTicket <- Db.Ticket_findById (Ticket._id ticket) ;;
         ret (Http.mk 200 None updatedTicket)
     end).

(** [router.put('/suggestion/:suggestionId', ...)] of [routes/agents.js]. *)
Definition put_suggestion (this : t) (user : User.t) (suggestionId : ObjectId)
    (draftReply : string) (req_traceId : string)
  : World -> Http.t AgentSuggestion.t * World :=
  handle (Auth.authorize [User.agent; User.admin] user)
    req_traceId "Edit suggestion failed" "Failed to update suggestion"
    (let draftReply := Validator.trim draftReply in
     if negb (Validator.isLength 1 5000 draftReply) then
       ret (Http.fail 400 "Validation failed")
     else
       suggestion <- Store.AgentSuggestion_findById suggestionId ;;
       match suggestion with
       | None => ret (Http.fail 404 "Suggestion not found")
       | Some suggestion =>
           (* Don't allow editing if already auto-closed *)
           if AgentSuggestion.autoClosed suggestion then
             ret (Http.fail 400 "Cannot edit suggestion for auto-closed ticket")
           else
             let originalDraft := AgentSuggestion.draftReply suggestion in
             let suggestion := Store.set_draftReply draftReply suggestion in
             Store.AgentSuggestion_update suggestion ;;
             audit this (Some (AgentSuggestion.ticketId suggestion)) req_traceId "agent"
               "SUGGESTION_EDITED"
               (SuggestionEdited (AgentSuggestion._id suggestion) (User._id user)
                  (String.length originalDraft) (String.length draftReply)) ;;
             console_info req_traceId "Agent suggestion edited" ;;
             ret (Http.ok suggestion)
       end).

(** The configuration that [router.get('/')] of [routes/config.js] creates
    when none is stored. *)
Definition createdConfig (this : t) : Config.t :=
  Config.mk
    (match AUTO_CLOSE_ENABLED this with
     | Some v => String.eqb v "true"
     | None => false
     end)
    (Js.num_or (CONFIDENCE_THRESHOLD this) 0.78)
    (Some 24).

(** [router.get('/', authenticate, ...)] of [routes/config.js]. *)
Definition get_config (this : t) (user : User.t) (req_traceId : string)
  : World -> Http.t Config.t * World :=
  handle None req_traceId "Get config failed" "Failed to fetch configuration"
    (found <- Db.Config_findOne ;;
     config <-
       match found with
       | Some config => ret config
       | None =>
           (* Create default config if none exists *)
           let config := createdConfig this in
           Store.Config_save false config ;;
           ret config
       end ;;
     console_info req_traceId "Config retrieved" ;;
     ret (Http.ok config)).

(** The document [new Config()] with the defaults of the schema. *)
Definition schemaDefaultConfig : Config.t := Config.mk true 0.78 (Some 24).

(** [router.put('/', ...)] of [routes/config.js]; an absent field of the
    request body is [None]. *)
Definition put_config (this : t) (user : User.t)
    (autoCloseEnabled : option bool) (confidenceThreshold : option float)
    (slaHours : option nat) (req_traceId : string)
  : World -> Http.t Config.t * World :=
  handle (Auth.authorize [User.admin] user)
    req_traceId "Config update failed" "Failed to update configuration"
    (if negb (match confidenceThreshold with
              | Some x => PrimFloat.leb 0 x && PrimFloat.leb x 1
              | None => true
              end
              && match slaHours with
                 | Some h => (1 <=? h) && (h <=? 168)
                 | None => true
                 end) then
       ret (Http.fail 400 "Validation failed")
     else
       found <- Db.Config_findOne ;;
       let config := match found with Some c => c | None => schemaDefaultConfig end in
       let oldConfig := config in
       (* Update fields *)
       let config :=
         Config.mk
           (match autoCloseEnabled with
            | Some v => v
            | None => Config.autoCloseEnabled config
            end)
           (match confidenceThreshold with
            | Some v => v
            | None => Config.confidenceThreshold config
            end)
           (match slaHours with
            | Some v => Some v
            | None => Config.slaHours config
            end) in
       Store.Config_save (match found with Some _ => true | None => false end) config ;;
       audit this None req_traceId "agent" "CONFIG_UPDATED"
         (ConfigUpdated (User._id user) oldConfig config) ;;
       console_info req_traceId "Config updated" ;;
       ret (Http.ok config)).

End Routes.

(** The routes loaded with the repository's [AuditLog] model and the
    environment of the fixture service; the [meta] objects of the routes
    are not inspected and are kept as the empty object. *)
Definition fixtureRoutes : Routes.t :=
  Routes.mk auditLogSchema_action (fun _ => MetaEmpty) (Some "true") PrimFloat.nan.

(** A status code from 400 to 499: the request was refused. *)
Definition clientError (statusCode : nat) : bool :=
  (400 <=? statusCode) && (statusCode <=? 499).

(** The collections of the database are the same in two worlds. *)
Definition sameCollections (w w' : World) : Prop :=
  tickets w' = tickets w
  /\ suggestions w' = suggestions w
  /\ auditLogs w' = auditLogs w
  /\ users w' = users w
  /\ configs w' = configs w
  /\ articles w' = articles w.

(** No stored ticket has the status [triaged]. *)
Definition neverTriaged (w : World) : Prop :=
  Forall (fun t => Ticket.status t <> triaged) (tickets w).

(** A computation keeps [neverTriaged], and what it returns is [good]. *)
Definition keeps {A} (m : M A) (good : A -> Prop) : Prop :=
  forall w, neverTriaged w ->
    neverTriaged (snd (m w)) /\ forall a, fst (m w) = Ok a -> good a.

(** The relation that the words "case-insensitive" of the classifier's
    description stand for, on characters: equal, or the same ASCII letter
    in its upper and its lower case (the codes of [A]-[Z] are 65-90, and
    the lower-case letter is 32 above). *)
Definition sameLetter (a b : ascii) : bool :=
  let x := nat_of_ascii a in
  let y := nat_of_ascii b in
  (x =? y)
  || ((65 <=? x) && (x <=? 90) && (y =? x + 32))
  || ((65 <=? y) && (y <=? 90) && (x =? y + 32)).

(** Two texts that differ at most in the case of their ASCII letters. *)
Fixpoint sameUpToCase (s t : string) : bool :=
  match s, t with
  | EmptyString, EmptyString => true
  | String a s', String b t' => sameLetter a b && sameUpToCase s' t'
  | _, _ => false
  end.

(* ===================================================================== *)
(** * Properties *)
(* ===================================================================== *)

(** ** Text helpers *)

Lemma lower_ascii_idempotent (c : ascii) :
  Js.lower_ascii (Js.lower_ascii c) = Js.lower_ascii c.
Proof.
  destruct c as [[] [] [] [] [] [] [] []]; reflexivity.
Qed.

Lemma toLowerCase_idempotent (s : string) :
  Js.toLowerCase (Js.toLowerCase s) = Js.toLowerCase s.
Proof.
  induction s as [|c s IH]; simpl.
  - reflexivity.
  - now rewrite lower_ascii_idempotent, IH.
Qed.

(** Two floats that a comparison tells apart are different. *)
Lemma float_neq_by_ltb (x y pivot : float) :
  PrimFloat.ltb x pivot = true -> PrimFloat.ltb y pivot = false -> x <> y.
Proof.
  intros Hx Hy E. rewrite E in Hx. rewrite Hx in Hy. discriminate.
Qed.

(** ** The deterministic classifier *)

Section StubClassify.

Variable text : string.
Variable latency : nat.

Let r := LLMProvider._stubClassify text latency.
Let b := LLMProvider.billingMatches text.
Let t := LLMProvider.techMatches text.
Let s := LLMProvider.shippingMatches text.

(** The four outcomes of the cascade of comparisons, by the counts. *)
Lemma stubClassify_cases :
  (Nat.max b (Nat.max t s) = 0 /\ predictedCategory r = other
     /\ confidence r = 0.5%float)
  \/ (0 < b /\ b = Nat.max b (Nat.max t s) /\ predictedCategory r = billing
     /\ confidence r = Js.Math_min 0.9 (0.6 + Js.num b * 0.1)%float)
  \/ (0 < t /\ b < t /\ t = Nat.max b (Nat.max t s) /\ predictedCategory r = tech
     /\ confidence r = Js.Math_min 0.9 (0.6 + Js.num t * 0.1)%float)
  \/ (0 < s /\ b < s /\ t < s /\ s = Nat.max b (Nat.max t s)
     /\ predictedCategory r = shipping
     /\ confidence r = Js.Math_min 0.9 (0.6 + Js.num s * 0.1)%float).
Proof.
  subst r. unfold LLMProvider._stubClassify.
  fold b t s.
  destruct (Nat.ltb_spec 0 (Nat.max b (Nat.max t s))) as [Hpos|Hzero].
  - destruct (Nat.eqb_spec b (Nat.max b (Nat.max t s))) as [Hb|Hb].
    + right; left. simpl. repeat split; try assumption; lia.
    + destruct (Nat.eqb_spec t (Nat.max b (Nat.max t s))) as [Ht|Ht].
      * right; right; left. simpl. repeat split; try assumption; lia.
      * destruct (Nat.eqb_spec s (Nat.max b (Nat.max t s))) as [Hs|Hs].
        -- right; right; right. simpl. repeat split; try assumption; lia.
        -- exfalso. lia.
  - left. simpl. repeat split. lia.
Qed.

End StubClassify.

(** C6, as stated, fails: on a text without any keyword the chosen
    category has zero matches and the confidence is 0.5, while
    [min(0.9, 0.6 + 0.1 * 0)] is 0.6. *)
Lemma stubClassify_confidence_no_match :
  ~ (forall text latency,
       let r := LLMProvider._stubClassify text latency in
       confidence r
       = Js.Math_min 0.9
           (0.6 + Js.num (LLMProvider.categoryMatches text (predictedCategory r)) * 0.1)%float).
Proof.
  intros H. specialize (H "hello" 0).
  revert H. vm_compute. intros H.
  refine (float_neq_by_ltb _ _ 0.55%float _ _ H); reflexivity.
Qed.

(** C6, amended: the confidence of the deterministic classifier is
    [min(0.9, 0.6 + 0.1 * matchCount)], [matchCount] being the number of
    keyword matches of the chosen category, whenever that number is
    positive; when no keyword matches, the confidence is 0.5. *)
Theorem stubClassify_confidence (text : string) (latency : nat) :
  let r := LLMProvider._stubClassify text latency in
  let matchCount := LLMProvider.categoryMatches text (predictedCategory r) in
  confidence r
  = if matchCount =? 0 then 0.5%float
    else Js.Math_min 0.9 (0.6 + Js.num matchCount * 0.1)%float.
Proof.
  intros r matchCount. subst r matchCount.
  destruct (stubClassify_cases text latency)
    as [(H0 & Hc & Hv) | [(Hp & Hm & Hc & Hv) | [(Hp & Hl & Hm & Hc & Hv)
       | (Hp & Hl1 & Hl2 & Hm & Hc & Hv)]]];
    rewrite Hc, Hv; simpl LLMProvider.categoryMatches.
  - reflexivity.
  - destruct (Nat.eqb_spec (LLMProvider.billingMatches text) 0); [lia | reflexivity].
  - destruct (Nat.eqb_spec (LLMProvider.techMatches text) 0); [lia | reflexivity].
  - destruct (Nat.eqb_spec (LLMProvider.shippingMatches text) 0); [lia | reflexivity].
Qed.

Lemma sameLetter_lower (a b : ascii) :
  sameLetter a b = true -> Js.lower_ascii a = Js.lower_ascii b.
Proof.
  unfold sameLetter, Js.lower_ascii.
  pose proof (ascii_nat_embedding a) as Ea.
  pose proof (ascii_nat_embedding b) as Eb.
  destruct (nat_of_ascii a =? nat_of_ascii b) eqn:Hxy.
  - intros _. apply Nat.eqb_eq in Hxy.
    assert (E : a = b) by congruence. subst b. reflexivity.
  - cbn [orb]. intros H. apply orb_prop in H. destruct H as [H|H];
      apply andb_prop in H; destruct H as [H Hy];
      apply andb_prop in H; destruct H as [H1 H2];
      apply Nat.leb_le in H1, H2; apply Nat.eqb_eq in Hy.
    + destruct (Nat.leb_spec 65 (nat_of_ascii a)); [|lia].
      destruct (Nat.leb_spec (nat_of_ascii a) 90); [|lia].
      destruct (Nat.leb_spec (nat_of_ascii b) 90); [lia|].
      rewrite andb_false_r. cbn [andb]. rewrite <- Hy. exact Eb.
    + destruct (Nat.leb_spec 65 (nat_of_ascii b)); [|lia].
      destruct (Nat.leb_spec (nat_of_ascii b) 90); [|lia].
      destruct (Nat.leb_spec (nat_of_ascii a) 90); [lia|].
      rewrite andb_false_r. cbn [andb]. rewrite <- Hy. symmetry. exact Ea.
Qed.

Lemma sameUpToCase_lower (s : string) :
  forall t, sameUpToCase s t = true -> Js.toLowerCase s = Js.toLowerCase t.
Proof.
  induction s as [|a s IH]; intros [|b t] H; try discriminate.
  - reflexivity.
  - cbn [sameUpToCase] in H. apply andb_prop in H. destruct H as [Hab Hst].
    cbn [Js.toLowerCase]. rewrite (sameLetter_lower _ _ Hab), (IH _ Hst). reflexivity.
Qed.

(** C7: the deterministic classifier counts keywords without regard to
    case: a text that differs from another at most in the case of its
    letters has the same match counts and the same classification.
    With no keyword match it answers [other]; otherwise it answers a
    category whose match count is the highest of the three, and among
    the categories that reach that count the first in the order billing,
    tech, shipping.  The text "refund invoice", in any case, is classified
    [billing] with confidence 0.8; of the texts "price ORDER" (one
    billing and one shipping keyword) and "Login tracking" (one tech and
    one shipping keyword) the first is [billing], the second [tech]. *)
Theorem stubClassify_category (text : string) (latency : nat) :
  let r := LLMProvider._stubClassify text latency in
  let count := LLMProvider.categoryMatches text in
  (forall text',
      sameUpToCase text text' = true ->
      (forall c, LLMProvider.categoryMatches text' c = count c)
      /\ LLMProvider._stubClassify text' latency = r)
  /\ LLMProvider._stubClassify (Js.toLowerCase text) latency = r
  /\ (LLMProvider.maxMatches text = 0 <-> predictedCategory r = other)
  /\ (forall c, count c <= count (predictedCategory r))
  /\ (forall c, 0 < count c -> count c = count (predictedCategory r) ->
        enumIndex (predictedCategory r) <= enumIndex c)
  /\ predictedCategory (LLMProvider._stubClassify "refund invoice" latency) = billing
  /\ confidence (LLMProvider._stubClassify "refund invoice" latency) = 0.8%float
  /\ predictedCategory (LLMProvider._stubClassify "REFUND Invoice" latency) = billing
  /\ confidence (LLMProvider._stubClassify "REFUND Invoice" latency) = 0.8%float
  /\ predictedCategory (LLMProvider._stubClassify "price ORDER" latency) = billing
  /\ predictedCategory (LLMProvider._stubClassify "Login tracking" latency) = tech.
Proof.
  intros r count. subst r count.
  split; [|split; [|split; [|split; [|split]]]].
  - intros text' Hsame. apply sameUpToCase_lower in Hsame.
    split.
    + intros c. destruct c as [[]|]; cbn [LLMProvider.categoryMatches];
        unfold LLMProvider.billingMatches, LLMProvider.techMatches,
          LLMProvider.shippingMatches; try rewrite Hsame; reflexivity.
    + unfold LLMProvider._stubClassify, LLMProvider.billingMatches,
        LLMProvider.techMatches, LLMProvider.shippingMatches.
      rewrite Hsame. reflexivity.
  - unfold LLMProvider._stubClassify, LLMProvider.billingMatches,
      LLMProvider.techMatches, LLMProvider.shippingMatches.
    now rewrite toLowerCase_idempotent.
  - unfold LLMProvider.maxMatches.
    destruct (stubClassify_cases text latency)
      as [(H0 & Hc & _) | [(Hp & Hm & Hc & _) | [(Hp & Hl & Hm & Hc & _)
         | (Hp & Hl1 & Hl2 & Hm & Hc & _)]]];
      rewrite Hc; split; intros H; try discriminate; try assumption; try reflexivity; lia.
  - intros c.
    destruct (stubClassify_cases text latency)
      as [(H0 & Hc & _) | [(Hp & Hm & Hc & _) | [(Hp & Hl & Hm & Hc & _)
         | (Hp & Hl1 & Hl2 & Hm & Hc & _)]]];
      rewrite Hc; destruct c as [[]|]; simpl; lia.
  - intros c Hpos Heq.
    destruct (stubClassify_cases text latency)
      as [(H0 & Hc & _) | [(Hp & Hm & Hc & _) | [(Hp & Hl & Hm & Hc & _)
         | (Hp & Hl1 & Hl2 & Hm & Hc & _)]]];
      rewrite Hc in *; destruct c as [[]|]; simpl in *; lia.
  - repeat split; vm_compute; reflexivity.
Qed.

(** The tie rule at a text with one billing and one shipping keyword in
    mixed case: the category chosen comes no later than [shipping], and
    it is [billing]. *)
Lemma stubClassify_category_witness :
  enumIndex (predictedCategory (LLMProvider._stubClassify "price ORDER" 0))
  <= enumIndex shipping
  /\ LLMProvider._stubClassify "PRICE order" 0 = LLMProvider._stubClassify "price ORDER" 0.
Proof.
  destruct (stubClassify_category "price ORDER" 0) as (Hcase & _ & _ & _ & Htie & _).
  split.
  - apply Htie.
    + apply Nat.ltb_lt. reflexivity.
    + reflexivity.
  - apply (Hcase "PRICE order"). reflexivity.
Defined.

(** ** Running a sequence *)

Lemma bind_Ok {A B} (m : M A) (k : A -> M B) w a w' :
  m w = (Ok a, w') -> bind m k w = k a w'.
Proof. intros H. unfold bind. rewrite H. reflexivity. Qed.

Lemma bind_Throw {A B} (m : M A) (k : A -> M B) w e w' :
  m w = (Throw e, w') -> bind m k w = (Throw e, w').
Proof. intros H. unfold bind. rewrite H. reflexivity. Qed.

(** ** Audit writes under the repository's schema *)

(** The three actions that only the pipeline writes are outside the enum of
    the [AuditLog] schema. *)
Lemma pipeline_actions_outside_enum :
  enum_has auditLogSchema_action "TRIAGE_STARTED" = false
  /\ enum_has auditLogSchema_action "DECISION_MADE" = false
  /\ enum_has auditLogSchema_action "TRIAGE_FAILED" = false.
Proof. repeat split. Qed.

Lemma logAudit_accepted (this : AgentService.t) ticketId traceId action meta w :
  enum_has (AgentService.AuditLog_action this) action = true ->
  AgentService._logAudit this ticketId traceId "system" action meta w
  = (Ok tt,
     set_auditLogs
       (auditLogs w ++ [AuditLog.mk (Some ticketId) traceId "system" action meta])%list w).
Proof.
  intros H. unfold AgentService._logAudit, Db.AuditLog_save. simpl. rewrite H. reflexivity.
Qed.

Lemma logAudit_rejected (this : AgentService.t) ticketId traceId action meta w :
  enum_has (AgentService.AuditLog_action this) action = false ->
  AgentService._logAudit this ticketId traceId "system" action meta w
  = (Throw (Db.enumError "AuditLog" "action" action), w).
Proof.
  intros H. unfold AgentService._logAudit, Db.AuditLog_save. simpl. rewrite H. reflexivity.
Qed.

(** ** The decision rule *)

(** On binary64 values [x >= x] holds unless [x] is [NaN]. *)
Lemma float_leb_refl (x : float) : PrimFloat.leb x x = negb (PrimFloat.is_nan x).
Proof.
  unfold PrimFloat.is_nan. rewrite Bool.negb_involutive.
  rewrite FloatAxioms.leb_spec, FloatAxioms.eqb_spec.
  unfold SpecFloat.SFleb, SpecFloat.SFeqb.
  destruct (Prim2SF x) as [sg|sg| |sg m e]; simpl.
  - reflexivity.
  - destruct sg; reflexivity.
  - reflexivity.
  - rewrite Z.compare_refl, Pos.compare_refl. destruct sg; reflexivity.
Qed.

(** C2, as stated, fails in its last clause: the decision is computed
    inside [_makeTriageDecision], which is not free of side effects.  With
    a schema that lists [DECISION_MADE] the step appends an audit entry and
    prints a console line before it returns the decision; with the
    repository's schema the audit write is rejected and the step throws
    instead of returning the decision. *)
Lemma makeTriageDecision_has_effects :
  let w := Fixture.world Fixture.passwordTicket in
  let classification := LLMProvider._stubClassify "Cannot reset my password" 0 in
  let draft := LLMProvider._stubDraft "Cannot reset my password" [] 0 in
  let d :=
    AgentService.decision (AgentService.defaultConfig Fixture.service)
      (confidence classification) in
  AgentService._makeTriageDecision Fixture.extendedService Fixture.passwordTicket
    classification draft "run-0" w
  = (Ok d,
     set_effects [Console "info" "run-0" "Triage decision made" None None]
       (set_auditLogs [AuditLog.mk (Some 21) "run-0" "system" "DECISION_MADE" (MetaDecision d)]
          w))
  /\ auditLogs w = []
  /\ effects w = []
  /\ AgentService._makeTriageDecision Fixture.service Fixture.passwordTicket
       classification draft "run-0" w
     = (Throw (Db.enumError "AuditLog" "action" "DECISION_MADE"), w).
Proof. vm_compute. repeat split. Qed.

(** C2, amended: the verdict of the decision step is [auto_close] exactly
    when auto-close is enabled and the confidence is at least the
    threshold (the comparison is inclusive: a confidence equal to the
    threshold closes), and [assign_human] otherwise, in particular
    whenever auto-close is disabled; the decision is a function of the
    confidence and of the configuration in force alone, whatever the
    ticket, the draft, the run id and the rest of the world are.  The step
    that computes it has effects: it submits the decision as a
    [DECISION_MADE] audit entry and then prints a console line, and it
    throws without returning the decision when the schema rejects the
    entry. *)
Theorem decision_rule (config : Config.t) (conf : float) :
  (Decision.action (AgentService.decision config conf) = auto_close
   <-> Config.autoCloseEnabled config = true
       /\ Js.ge conf (Config.confidenceThreshold config) = true)
  /\ (Decision.action (AgentService.decision config conf) = assign_human
      <-> ~ (Config.autoCloseEnabled config = true
             /\ Js.ge conf (Config.confidenceThreshold config) = true))
  /\ (Config.autoCloseEnabled config = false ->
      Decision.action (AgentService.decision config conf) = assign_human)
  /\ (PrimFloat.leb 0 conf = true -> Config.confidenceThreshold config = conf ->
      Config.autoCloseEnabled config = true ->
      Decision.action (AgentService.decision config conf) = auto_close)
  /\ (forall this ticket classification draft traceId w,
        confidence classification = conf ->
        effectiveConfig this w = config ->
        AgentService._makeTriageDecision this ticket classification draft traceId w
        = if enum_has (AgentService.AuditLog_action this) "DECISION_MADE"
          then
            (Ok (AgentService.decision config conf),
             set_effects
               (effects w ++ [Console "info" traceId "Triage decision made" None None])%list
               (set_auditLogs
                  (auditLogs w
                   ++ [AuditLog.mk (Some (Ticket._id ticket)) traceId "system"
                         "DECISION_MADE"
                         (MetaDecision (AgentService.decision config conf))])%list
                  w))
          else (Throw (Db.enumError "AuditLog" "action" "DECISION_MADE"), w)).
Proof.
  assert (Hact : Decision.action (AgentService.decision config conf)
                 = if Config.autoCloseEnabled config
                      && Js.ge conf (Config.confidenceThreshold config)
                   then auto_close else assign_human) by reflexivity.
  split; [|split; [|split; [|split]]].
  - rewrite Hact.
    destruct (Config.autoCloseEnabled config),
      (Js.ge conf (Config.confidenceThreshold config)); simpl;
      split; try discriminate; try (intros [? ?]; discriminate); auto.
  - rewrite Hact.
    destruct (Config.autoCloseEnabled config),
      (Js.ge conf (Config.confidenceThreshold config)); simpl;
      split; try discriminate; try reflexivity;
      try (intros _ [? ?]; discriminate).
    intros H. exfalso. apply H. split; reflexivity.
  - intros H. rewrite Hact, H. reflexivity.
  - intros Hpos Hthr Hen. rewrite Hact, Hen, Hthr. unfold Js.ge.
    rewrite float_leb_refl.
    assert (Hn : PrimFloat.is_nan conf = false).
    { unfold PrimFloat.is_nan.
      destruct (PrimFloat.eqb conf conf) eqn:E; [reflexivity|].
      exfalso. rewrite FloatAxioms.leb_spec in Hpos. rewrite FloatAxioms.eqb_spec in E.
      unfold SpecFloat.SFleb in Hpos. unfold SpecFloat.SFeqb in E.
      destruct (Prim2SF conf) as [sg|sg| |sg m e]; simpl in *; try discriminate.
      - destruct sg; discriminate.
      - rewrite Z.compare_refl, Pos.compare_refl in E. destruct sg; discriminate. }
    rewrite Hn. reflexivity.
  - intros this ticket classification draft traceId w Hc Hcfg.
    unfold AgentService._makeTriageDecision.
    unfold bind at 1. unfold Db.Config_findOne, gets.
    unfold effectiveConfig in Hcfg. rewrite Hcfg, Hc.
    destruct (enum_has (AgentService.AuditLog_action this) "DECISION_MADE") eqn:He.
    + unfold bind at 1. rewrite logAudit_accepted by exact He.
      unfold bind, console_info, emit, modify, ret. destruct w; reflexivity.
    + unfold bind at 1. rewrite logAudit_rejected by exact He. reflexivity.
Qed.

Lemma decision_rule_witness :
  Decision.action (AgentService.decision (Config.mk true 0.78 (Some 24)) 0.78) = auto_close
  /\ Decision.action (AgentService.decision (Config.mk false 0.78 (Some 24)) 0.9) = assign_human.
Proof.
  split.
  - apply (decision_rule (Config.mk true 0.78 (Some 24)) 0.78); reflexivity.
  - apply (decision_rule (Config.mk false 0.78 (Some 24)) 0.9); reflexivity.
Defined.

(** ** Runs under the repository's schema *)

(** Once the ticket is loaded, a service whose [AuditLog] model rejects
    [TRIAGE_STARTED] and [TRIAGE_FAILED] ends every run in the [catch]
    clause, and the [catch] clause ends in the validation error of its own
    audit write; no collection changes. *)
Lemma triageTicket_rejected (this : AgentService.t) ticketId trace w ticket :
  enum_has (AgentService.AuditLog_action this) "TRIAGE_STARTED" = false ->
  enum_has (AgentService.AuditLog_action this) "TRIAGE_FAILED" = false ->
  trace <> "" ->
  find (fun t => Ticket._id t =? ticketId) (tickets w) = Some ticket ->
  AgentService.triageTicket this ticketId (Some trace) w
  = (Throw (Db.enumError "AuditLog" "action" "TRIAGE_FAILED"),
     set_effects
       (effects w
        ++ [Console "info" trace "Starting ticket triage" None None;
            Console "error" trace "Triage failed"
              (Some (message (Db.enumError "AuditLog" "action" "TRIAGE_STARTED"))) None])%list
       w).
Proof.
  intros Hs Hf Ht Hfind.
  unfold AgentService.triageTicket.
  destruct (String.eqb_spec trace "") as [E|_]; [contradiction|].
  unfold bind at 1. unfold ret at 1.
  unfold bind at 1. unfold Db.Ticket_findById, gets. rewrite Hfind.
  unfold try_catch, AgentService.triageSteps.
  unfold bind at 1. unfold console_info, emit, modify.
  unfold bind at 1. rewrite logAudit_rejected by exact Hs.
  unfold bind at 1. unfold console_error, emit, modify.
  unfold bind at 1. rewrite logAudit_rejected by exact Hf.
  destruct w; unfold set_effects; simpl.
  rewrite <- app_assoc. reflexivity.
Qed.

(** C3 (the code departs from the claim): the plan step of a run on a
    loaded ticket raises the validation error of its [TRIAGE_STARTED]
    write; the [catch] clause then raises the validation error of its own
    [TRIAGE_FAILED] write, so the caller receives a different error from
    the one the step raised, and no failure entry is stored under the run
    id.  First on the ticket of the repository's test, then for every
    service loaded with the repository's schema, every stored ticket and
    every run id. *)
Theorem triage_failure_event_rejected :
  (let w := Fixture.world Fixture.passwordTicket in
   let stepError := Db.enumError "AuditLog" "action" "TRIAGE_STARTED" in
   let out := AgentService.triageTicket Fixture.service 21 (Some "run-0") w in
   fst (AgentService.triageSteps Fixture.service Fixture.passwordTicket "run-0" w)
     = Throw stepError
   /\ fst out = Throw (Db.enumError "AuditLog" "action" "TRIAGE_FAILED")
   /\ fst out <> Throw stepError
   /\ runEntries "run-0" (snd out) = []
   /\ auditLogs (snd out) = auditLogs w)
  /\ (forall llmProvider kbSearch autoClose threshold randomUUID ticket others c trace w,
        let this :=
          AgentService.mk llmProvider kbSearch auditLogSchema_action autoClose threshold
            randomUUID in
        let traceId := String c trace in
        let w0 := set_tickets (ticket :: others) w in
        let out := AgentService.triageTicket this (Ticket._id ticket) (Some traceId) w0 in
        fst (AgentService.triageSteps this ticket traceId w0)
          = Throw (Db.enumError "AuditLog" "action" "TRIAGE_STARTED")
        /\ fst out = Throw (Db.enumError "AuditLog" "action" "TRIAGE_FAILED")
        /\ auditLogs (snd out) = auditLogs w0).
Proof.
  split.
  - vm_compute. repeat split. intros H. discriminate H.
  - intros llmProvider kbSearch autoClose threshold randomUUID ticket others c trace w
      this traceId w0 out.
    split.
    + unfold AgentService.triageSteps.
      unfold bind at 1. unfold console_info, emit, modify.
      unfold bind at 1. rewrite logAudit_rejected by reflexivity. reflexivity.
    + subst out.
      rewrite (triageTicket_rejected this (Ticket._id ticket) traceId w0 ticket).
      * split; [reflexivity|]. destruct w; reflexivity.
      * reflexivity.
      * reflexivity.
      * subst traceId. discriminate.
      * subst w0. simpl. rewrite Nat.eqb_refl. reflexivity.
Qed.

(** ** The execute phase *)


(** ** The status guard *)

(** C8 (the code departs from the claim): for a resolved ticket the manual
    trigger answers 400 and touches nothing, but the retry route and the
    service itself have no such guard.  With the repository's schema the
    retry route runs the pipeline three times, with its two backoff
    timers, and answers 500 with the validation error of the audit write;
    a direct call ends in that same error.  With a schema that lists the
    pipeline's actions the retry route triages the resolved ticket again:
    it answers 200, stores a suggestion and appends a generated reply. *)
Theorem retry_route_has_no_status_guard :
  let w := Fixture.world (Fixture.refundTicket resolved) in
  AgentRoutes.post_triage Fixture.service 20 "req-1" w
    = (Response.mk 400 (Some "Ticket cannot be triaged in current status") None
         (Some resolved) None, w)
  /\ (let out := AgentRoutes.post_retry Fixture.service 20 "req-1" w in
      Response.statusCode (fst out) = 500
      /\ Response.details (fst out)
         = Some "Triage failed after 3 attempts: AuditLog validation failed: action: `TRIAGE_FAILED` is not a valid enum value for path `action`."
      /\ retryEffects (effects (snd out))
         = [ Console "info" "run-0" "Retrying triage" None (Some (1, 3));
             SetTimeout 2000;
             Console "info" "run-1" "Retrying triage" None (Some (2, 3));
             SetTimeout 4000;
             Console "info" "run-2" "Retrying triage" None (Some (3, 3)) ]
      /\ length (filter (fun e =>
                   match e with
                   | Console _ _ "Starting ticket triage" _ _ => true
                   | _ => false
                   end) (effects (snd out))) = 3)
  /\ fst (AgentService.triageTicket Fixture.service 20 (Some "run-0") w)
     = Throw (Db.enumError "AuditLog" "action" "TRIAGE_FAILED")
  /\ (let out := AgentRoutes.post_retry Fixture.extendedService 20 "req-1" w in
      Response.statusCode (fst out) = 200
      /\ length (suggestions (snd out)) = 1
      /\ map Ticket.replies (tickets (snd out))
         = [[Reply.mk 4 AgentService.fallbackDraft true]]
      /\ map AuditLog.action (auditLogs (snd out))
         = [ "TRIAGE_STARTED"; "AGENT_CLASSIFIED"; "KB_RETRIEVED"; "DRAFT_GENERATED";
             "DECISION_MADE"; "AUTO_CLOSED" ]).
Proof.
  vm_compute. repeat split.
Qed.

(** ** Knowledge-base retrieval *)

(** The search answers the empty list as soon as its [try] block raises. *)
Lemma search_catches (kb : KBSearchService.t) articles query category limit e :
  KBSearchService.search_try kb articles query category limit = inl e ->
  KBSearchService.search kb articles query category limit = [].
Proof.
  intros H. unfold KBSearchService.search. rewrite H. reflexivity.
Qed.

(** The [try] block raises exactly when a query it issues fails: the text
    search, or the looser query that follows an empty text search, or, for
    an empty query string, the query by category. *)
Lemma search_try_raises (kb : KBSearchService.t) articles query category limit e :
  let searchFilter := KBSearchService.tagFilter category in
  KBSearchService.search_try kb articles query category limit = inl e
  <-> if String.eqb query "" then
        KBSearchService.Article_find kb (KBSearchService.Recent searchFilter limit) articles
        = inl e
      else
        KBSearchService.Article_find kb
          (KBSearchService.TextSearch searchFilter query limit) articles = inl e
        \/ (KBSearchService.Article_find kb
              (KBSearchService.TextSearch searchFilter query limit) articles = inr []
            /\ KBSearchService.Article_find kb
                 (KBSearchService.TagOrTitle searchFilter
                    (Js.split_space (Js.toLowerCase query)) limit) articles = inl e).
Proof.
  intros searchFilter. unfold KBSearchService.search_try. fold searchFilter.
  destruct (String.eqb query ""); simpl.
  - destruct (KBSearchService.Article_find kb _ articles) as [e'|found];
      split; intros H; try discriminate; congruence.
  - destruct (KBSearchService.Article_find kb
                (KBSearchService.TextSearch searchFilter query limit) articles)
      as [e'|[|a found]].
    + split; [intros H; left; congruence|].
      intros [H|[H _]]; [congruence|discriminate].
    + destruct (KBSearchService.Article_find kb
                  (KBSearchService.TagOrTitle searchFilter _ limit) articles)
        as [e'|found'].
      * split; [intros H; right; split; [reflexivity|congruence]|].
        intros [H|[_ H]]; [discriminate|congruence].
      * split; [discriminate|]. intros [H|[_ H]]; discriminate.
    + split; [discriminate|]. intros [H|[H _]]; discriminate.
Qed.

(** C9: [search] never raises: for every query, category and limit, when
    its [try] block raises (that is, when an article query it issues
    fails) it returns the empty list; and when that happens to the search
    of the retrieval step, the step completes with zero articles: it
    returns the empty list and records a [KB_RETRIEVED] entry with
    [articlesFound = 0], leaving tickets and suggestions as they were. *)
Theorem search_failure_yields_no_articles
    (this : AgentService.t) (ticket : Ticket.t) (classification : Classification)
    (traceId : string) (w : World) (e : JsError) :
  let searchQuery :=
    Js.substring0 200 (Ticket.title ticket ++ " " ++ Ticket.description ticket) in
  KBSearchService.search_try (AgentService.kbSearch this) (articles w) searchQuery
    (Some (predictedCategory classification)) 3 = inl e ->
  enum_has (AgentService.AuditLog_action this) "KB_RETRIEVED" = true ->
  (forall kb articles query category limit e',
      KBSearchService.search_try kb articles query category limit = inl e' ->
      KBSearchService.search kb articles query category limit = [])
  /\ exists w',
       AgentService._retrieveKBArticles this ticket classification traceId w = (Ok [], w')
       /\ auditLogs w'
          = (auditLogs w
             ++ [AuditLog.mk (Some (Ticket._id ticket)) traceId "system" "KB_RETRIEVED"
                   (MetaKB (Js.substring0 100 searchQuery) 0 [] [])])%list
       /\ tickets w' = tickets w
       /\ suggestions w' = suggestions w.
Proof.
  intros searchQuery Hfail Henum.
  split; [intros kb arts query category limit e'; apply search_catches|].
  unfold AgentService._retrieveKBArticles. fold searchQuery.
  unfold bind at 1. unfold console_info at 1, emit, modify.
  unfold bind at 1. unfold gets at 1.
  cbn [articles set_effects]. rewrite (search_catches _ _ _ _ _ _ Hfail).
  unfold bind at 1. rewrite logAudit_accepted by exact Henum.
  unfold bind at 1. unfold console_info, emit, modify, ret.
  eexists. split; [reflexivity|].
  destruct w; simpl. repeat split.
Qed.

Lemma search_failure_yields_no_articles_witness :
  let ticket := Fixture.refundTicket open in
  exists w',
    AgentService._retrieveKBArticles Fixture.brokenKbService ticket
      (LLMProvider._stubClassify "Refund for double charge" 0) "run-0"
      (Fixture.world ticket) = (Ok [], w')
    /\ map AuditLog.action (auditLogs w') = ["KB_RETRIEVED"].
Proof.
  destruct (search_failure_yields_no_articles Fixture.brokenKbService
              (Fixture.refundTicket open)
              (LLMProvider._stubClassify "Refund for double charge" 0)
              "run-0" (Fixture.world (Fixture.refundTicket open))
              (mkError "MongoNetworkError" "connection lost") eq_refl eq_refl)
    as (_ & w' & Hrun & Hlogs & _).
  exists w'. split; [exact Hrun|]. rewrite Hlogs. reflexivity.
Defined.

(** ** Quiet computations: the pipeline sets no timer and draws no run id *)

Section Quiet.

Context {A B : Type}.

Lemma quiet_ret (a : A) : quiet (ret a).
Proof. intros w. exists []. simpl. rewrite app_nil_r. auto. Qed.

Lemma quiet_throw (e : JsError) : quiet (@throw A e).
Proof. intros w. exists []. simpl. rewrite app_nil_r. auto. Qed.

Lemma quiet_gets (f : World -> A) : quiet (gets f).
Proof. intros w. exists []. simpl. rewrite app_nil_r. auto. Qed.

Lemma quiet_bind (m : M A) (k : A -> M B) :
  quiet m -> (forall a, quiet (k a)) -> quiet (bind m k).
Proof.
  intros Hm Hk w. unfold bind.
  destruct (Hm w) as (d1 & E1 & R1 & U1).
  destruct (m w) as [[a|e] w1]; simpl in *.
  - destruct (Hk a w1) as (d2 & E2 & R2 & U2).
    exists (d1 ++ d2)%list. rewrite E2, E1, app_assoc. split; [reflexivity|].
    split; [|congruence].
    unfold retryEffects in *. rewrite filter_app, R1, R2. reflexivity.
  - exists d1. auto.
Qed.

Lemma quiet_try_catch (m : M A) (h : JsError -> M A) :
  quiet m -> (forall e, quiet (h e)) -> quiet (try_catch m h).
Proof.
  intros Hm Hh w. unfold try_catch.
  destruct (Hm w) as (d1 & E1 & R1 & U1).
  destruct (m w) as [[a|e] w1]; simpl in *.
  - exists d1. auto.
  - destruct (Hh e w1) as (d2 & E2 & R2 & U2).
    exists (d1 ++ d2)%list. rewrite E2, E1, app_assoc. split; [reflexivity|].
    split; [|congruence].
    unfold retryEffects in *. rewrite filter_app, R1, R2. reflexivity.
Qed.

End Quiet.

(** An update of the collections alone is quiet. *)
Lemma quiet_modify (f : World -> World) :
  (forall w, effects (f w) = effects w /\ uuidCount (f w) = uuidCount w) ->
  quiet (modify f).
Proof.
  intros H w. exists []. simpl. rewrite app_nil_r. destruct (H w). auto.
Qed.

Lemma quiet_console_info (traceId msg : string) : quiet (console_info traceId msg).
Proof. intros w. eexists. simpl. split; [reflexivity|]. auto. Qed.

Lemma quiet_console_error (traceId msg err : string) :
  quiet (console_error traceId msg err).
Proof. intros w. eexists. simpl. split; [reflexivity|]. auto. Qed.

Lemma quiet_newObjectId : quiet newObjectId.
Proof. intros w. exists []. simpl. rewrite app_nil_r. auto. Qed.

Create HintDb quiet.
#[local] Hint Resolve quiet_ret quiet_throw quiet_gets quiet_console_info
  quiet_console_error quiet_newObjectId : quiet.

(** Splits a computation along its binds and case distinctions. *)
Ltac quiet_step :=
  match goal with
  | |- quiet (bind _ _) => apply quiet_bind; [|intros]
  | |- quiet (try_catch _ _) => apply quiet_try_catch; [|intros]
  | |- quiet (modify _) => apply quiet_modify; intros; split; reflexivity
  | |- quiet (match ?x with _ => _ end) => destruct x
  | |- quiet (if ?b then _ else _) => destruct b
  | |- quiet (let _ := _ in _) => cbv zeta
  | |- quiet _ => solve [auto with quiet]
  end.

Ltac quiet_tac := repeat quiet_step.

Lemma quiet_logAudit this ticketId traceId actor action meta :
  quiet (AgentService._logAudit this ticketId traceId actor action meta).
Proof. unfold AgentService._logAudit, Db.AuditLog_save. quiet_tac. Qed.

Lemma quiet_Ticket_save ticket : quiet (Db.Ticket_save ticket).
Proof. unfold Db.Ticket_save. quiet_tac. Qed.

Lemma quiet_Ticket_save_category value ticket :
  quiet (Db.Ticket_save_category value ticket).
Proof. unfold Db.Ticket_save_category, Db.Ticket_save. quiet_tac. Qed.

#[local] Hint Resolve quiet_logAudit quiet_Ticket_save quiet_Ticket_save_category : quiet.

Lemma quiet_classifyTicket this ticket traceId :
  quiet (AgentService._classifyTicket this ticket traceId).
Proof. unfold AgentService._classifyTicket. quiet_tac. Qed.

Lemma quiet_retrieveKBArticles this ticket classification traceId :
  quiet (AgentService._retrieveKBArticles this ticket classification traceId).
Proof. unfold AgentService._retrieveKBArticles. quiet_tac. Qed.

Lemma quiet_draftReply this ticket articles traceId :
  quiet (AgentService._draftReply this ticket articles traceId).
Proof. unfold AgentService._draftReply. quiet_tac. Qed.

Lemma quiet_makeTriageDecision this ticket classification draft traceId :
  quiet (AgentService._makeTriageDecision this ticket classification draft traceId).
Proof.
  unfold AgentService._makeTriageDecision, Db.Config_findOne. quiet_tac.
Qed.

Lemma quiet_getSystemUserId : quiet AgentService._getSystemUserId.
Proof.
  unfold AgentService._getSystemUserId, Db.User_findByEmail, Db.User_save. quiet_tac.
Qed.

#[local] Hint Resolve quiet_classifyTicket quiet_retrieveKBArticles quiet_draftReply
  quiet_makeTriageDecision quiet_getSystemUserId : quiet.

Lemma quiet_executeDecision this ticket decision traceId :
  quiet (AgentService._executeDecision this ticket decision traceId).
Proof.
  unfold AgentService._executeDecision, AgentService._getClassificationFromLogs,
    AgentService._getArticlesFromLogs, AgentService._getDraftFromLogs,
    Db.AuditLog_findOne, Db.AgentSuggestion_latest, Db.Article_findByIds,
    Db.AgentSuggestion_save, Db.User_findAgent.
  quiet_tac.
Qed.

#[local] Hint Resolve quiet_executeDecision : quiet.

Lemma quiet_triageSteps this ticket trace :
  quiet (AgentService.triageSteps this ticket trace).
Proof. unfold AgentService.triageSteps. quiet_tac. Qed.

#[local] Hint Resolve quiet_triageSteps : quiet.


(** ** The retry loop *)

(** One attempt draws one run id, prints its retry line, and then is the
    pipeline run under that id. *)
Lemma retryAttempt_unfold this ticketId maxRetries attempt w :
  AgentService.retryAttempt this ticketId maxRetries attempt w
  = AgentService.triageTicket this ticketId
      (Some (AgentService.randomUUID this (uuidCount w)))
      (set_effects
         (effects w
          ++ [Console "info" (AgentService.randomUUID this (uuidCount w)) "Retrying triage"
                None (Some (attempt, maxRetries))])%list
         (set_uuidCount (S (uuidCount w)) w)).
Proof. reflexivity. Qed.


Section RetryLoop.

Variable this : AgentService.t.
Variable ticketId : ObjectId.
Variable maxRetries : nat.

Hypothesis uuid_not_empty : forall n, AgentService.randomUUID this n <> "".

Let uuid := AgentService.randomUUID this.

(** The error the loop ends with when its last attempt threw [lastError]. *)
Let exhausted (lastError : JsError) : JsError :=
  mkError "Error"
    ("Triage failed after " ++ Js.show_nat maxRetries ++ " attempts: " ++ message lastError).



End RetryLoop.








(** ** The classification step *)

(** C10, as stated, fails in its last clause: for a ticket created through
    the creation route with category [other] and then classified [billing]
    with confidence 0.8, the [AGENT_CLASSIFIED] entry names [billing] as
    the original category, yet the audit trail of the ticket still holds
    the category it had before classification, in the [TICKET_CREATED]
    entry that the creation route wrote. *)
Lemma classify_keeps_created_category :
  let created :=
    TicketRoutes.create Fixture.service "Refund for double charge"
      "I was charged twice. Please refund one of the charges." None 3
      (mkWorld [] [] [] Fixture.users [] Fixture.articles 100 0 []) in
  exists ticket traceId ticket' classification w',
    fst created = Ok (Http.mk 201 None (Some (Some ticket, traceId)))
    /\ Ticket.category ticket = other
    /\ AgentService._classifyTicket Fixture.service ticket traceId (snd created)
       = (Ok (ticket', classification), w')
    /\ Js.gt (confidence classification) 0.7 = true
    /\ Ticket.category ticket' = billing
    /\ map AuditLog.meta (auditLogs w')
       = [ MetaCreated "Refund for double charge" other 3;
           MetaClassified billing billing 0.8 (modelInfo classification) ]
    /\ trailMentions (Ticket._id ticket) (Ticket.category ticket) w' = true.
Proof.
  do 5 eexists.
  split; [vm_compute; reflexivity|].
  split; [reflexivity|].
  split; [vm_compute; reflexivity|].
  vm_compute. repeat split.
Qed.

Lemma set_category_twice (c0 c : Category) (ticket : Ticket.t) :
  Ticket.set_category c (Ticket.set_category c0 ticket) = Ticket.set_category c ticket.
Proof. destruct ticket; reflexivity. Qed.

(** What the amended claim leaves out: the provider hands on the category
    of a remote answer unchecked.  When the confidence exceeds 0.7 and
    the predicted category is a string outside the enumeration of the
    ticket schema, saving the ticket fails validation: the step throws,
    no ticket is stored and no [AGENT_CLASSIFIED] entry is written. *)
Lemma classifyTicket_category_outside_enum
    (this : AgentService.t) (ticket : Ticket.t) (traceId : string) (w : World) (s : string) :
  let classification :=
    LLMProvider.classify (AgentService.llmProvider this)
      (Ticket.title ticket ++ String "010" "" ++ Ticket.description ticket) in
  let out := AgentService._classifyTicket this ticket traceId w in
  Js.gt (confidence classification) 0.7 = true ->
  predictedCategory classification = outside s ->
  fst out = Throw (Db.enumError "Ticket" "category" s)
  /\ tickets (snd out) = tickets w
  /\ auditLogs (snd out) = auditLogs w.
Proof.
  intros classification out Hgt Hpred. subst out.
  unfold AgentService._classifyTicket. fold classification. rewrite Hgt, Hpred.
  unfold bind, console_info, emit, modify, Db.Ticket_save_category, throw.
  destruct w; repeat split.
Qed.

(** C10, amended: when the confidence of the classification exceeds 0.7
    and the predicted category is one of the four categories of the
    ticket schema, the classification step stores the ticket with the
    predicted category before it writes the [AGENT_CLASSIFIED] entry (the
    stored ticket is updated even when that write is rejected), so the
    entry names the predicted category both as [originalCategory] and as
    [predictedCategory]; and what the step writes to the audit log is the
    same whatever category the ticket had before: the step itself records
    that category nowhere. *)
Theorem classify_overwrites_before_audit
    (this : AgentService.t) (ticket : Ticket.t) (traceId : string) (w : World)
    (predicted : Category) :
  let classification :=
    LLMProvider.classify (AgentService.llmProvider this)
      (Ticket.title ticket ++ String "010" "" ++ Ticket.description ticket) in
  let saved := Ticket.set_category predicted ticket in
  let entry :=
    AuditLog.mk (Some (Ticket._id ticket)) traceId "system" "AGENT_CLASSIFIED"
      (MetaClassified predicted predicted (confidence classification)
         (modelInfo classification)) in
  let out := AgentService._classifyTicket this ticket traceId w in
  Js.gt (confidence classification) 0.7 = true ->
  predictedCategory classification = predicted ->
  tickets (snd out)
  = map (fun t => if Ticket._id t =? Ticket._id ticket then saved else t) (tickets w)
  /\ (enum_has (AgentService.AuditLog_action this) "AGENT_CLASSIFIED" = true ->
      fst out = Ok (saved, classification)
      /\ auditLogs (snd out) = (auditLogs w ++ [entry])%list)
  /\ (enum_has (AgentService.AuditLog_action this) "AGENT_CLASSIFIED" = false ->
      fst out = Throw (Db.enumError "AuditLog" "action" "AGENT_CLASSIFIED")
      /\ auditLogs (snd out) = auditLogs w)
  /\ (forall before,
        auditLogs
          (snd (AgentService._classifyTicket this (Ticket.set_category before ticket)
                  traceId w))
        = auditLogs (snd out)).
Proof.
  intros classification saved entry out Hgt Hpred.
  assert (Hrun : forall tk,
             Ticket.title tk = Ticket.title ticket ->
             Ticket.description tk = Ticket.description ticket ->
             Ticket._id tk = Ticket._id ticket ->
             Ticket.set_category predicted tk = saved ->
             AgentService._classifyTicket this tk traceId w
             = if enum_has (AgentService.AuditLog_action this) "AGENT_CLASSIFIED"
               then
                 (Ok (saved, classification),
                  set_effects
                    (effects w
                     ++ [Console "info" traceId "Starting classification" None None;
                         Console "info" traceId "Classification completed" None None])%list
                    (set_auditLogs (auditLogs w ++ [entry])%list
                       (set_tickets
                          (map (fun t => if Ticket._id t =? Ticket._id ticket
                                         then saved else t) (tickets w)) w)))
               else
                 (Throw (Db.enumError "AuditLog" "action" "AGENT_CLASSIFIED"),
                  set_effects
                    (effects w
                     ++ [Console "info" traceId "Starting classification" None None])%list
                    (set_tickets
                       (map (fun t => if Ticket._id t =? Ticket._id ticket
                                      then saved else t) (tickets w)) w))).
  { intros tk Ht Hd Hi Hs.
    unfold AgentService._classifyTicket. rewrite Ht, Hd.
    fold classification. rewrite Hgt, Hpred.
    unfold Db.Ticket_save_category. rewrite Hs.
    unfold bind, console_info, emit, modify, Db.Ticket_save, ret,
      AgentService._logAudit, Db.AuditLog_save, throw.
    cbn [AuditLog.actor AuditLog.action enum_has existsb auditLogSchema_actor].
    replace (Ticket.category saved) with predicted by (subst saved; destruct ticket; reflexivity).
    replace (Ticket._id saved) with (Ticket._id ticket) by (subst saved; destruct ticket; reflexivity).
    fold entry.
    change (String.eqb "system" "system") with true. cbn [orb negb].
    fold (enum_has (AgentService.AuditLog_action this) "AGENT_CLASSIFIED").
    destruct (enum_has (AgentService.AuditLog_action this) "AGENT_CLASSIFIED");
      cbn [negb]; destruct w; unfold set_effects, set_tickets, set_auditLogs; simpl.
    - rewrite <- app_assoc. reflexivity.
    - reflexivity. }
  assert (Hout : out = AgentService._classifyTicket this ticket traceId w) by reflexivity.
  rewrite (Hrun ticket eq_refl eq_refl eq_refl eq_refl) in Hout.
  split; [|split; [|split]].
  - rewrite Hout.
    destruct (enum_has (AgentService.AuditLog_action this) "AGENT_CLASSIFIED");
      destruct w; reflexivity.
  - intros He. rewrite Hout, He. destruct w; split; reflexivity.
  - intros He. rewrite Hout, He. destruct w; split; reflexivity.
  - intros before.
    rewrite (Hrun (Ticket.set_category before ticket)).
    + rewrite Hout. reflexivity.
    + destruct ticket; reflexivity.
    + destruct ticket; reflexivity.
    + destruct ticket; reflexivity.
    + apply set_category_twice.
Qed.

Lemma classify_overwrites_before_audit_witness :
  let ticket := Fixture.refundTicket open in
  let out :=
    AgentService._classifyTicket Fixture.service ticket "run-0" (Fixture.world ticket) in
  map Ticket.category (tickets (snd out)) = [billing]
  /\ map AuditLog.meta (auditLogs (snd out))
     = [MetaClassified billing billing 0.8 (mkModelInfo "stub" "rule-based" "1.0" 0)].
Proof.
  pose proof (classify_overwrites_before_audit Fixture.service (Fixture.refundTicket open)
                "run-0" (Fixture.world (Fixture.refundTicket open)) billing eq_refl eq_refl)
    as (Htickets & Haccepted & _).
  destruct (Haccepted eq_refl) as [_ Hlogs].
  cbv zeta. rewrite Htickets, Hlogs. vm_compute. split; reflexivity.
Defined.

(** ** Whole runs *)

Lemma bind_inv_Ok {A B} (m : M A) (k : A -> M B) w b w' :
  bind m k w = (Ok b, w') ->
  exists a w1, m w = (Ok a, w1) /\ k a w1 = (Ok b, w').
Proof.
  unfold bind. destruct (m w) as [[a|e] w1]; intros H.
  - exists a, w1. split; [reflexivity|exact H].
  - discriminate.
Qed.

(** With the repository's schema no run completes, whatever the ticket,
    the run id and the world: [triageTicket] throws, and tickets,
    suggestions and audit log are as they were. *)
Lemma triageTicket_never_completes (this : AgentService.t) ticketId traceId w :
  enum_has (AgentService.AuditLog_action this) "TRIAGE_STARTED" = false ->
  enum_has (AgentService.AuditLog_action this) "TRIAGE_FAILED" = false ->
  exists e w',
    AgentService.triageTicket this ticketId traceId w = (Throw e, w')
    /\ tickets w' = tickets w
    /\ suggestions w' = suggestions w
    /\ auditLogs w' = auditLogs w.
Proof.
  intros Hs Hf.
  unfold AgentService.triageTicket.
  set (pick := match traceId with
               | Some given =>
                   if String.eqb given "" then AgentService.crypto_randomUUID this
                   else ret given
               | None => AgentService.crypto_randomUUID this
               end).
  assert (Hpick : exists trace w0,
             pick w = (Ok trace, w0) /\ tickets w0 = tickets w
             /\ suggestions w0 = suggestions w /\ auditLogs w0 = auditLogs w).
  { subst pick. destruct traceId as [given|]; [destruct (String.eqb given "")|];
      eexists; eexists; (split; [reflexivity|]); destruct w; auto. }
  destruct Hpick as (trace & w0 & Hp & T0 & S0 & L0).
  rewrite (bind_Ok _ _ _ _ _ Hp).
  unfold bind at 1. unfold Db.Ticket_findById, gets.
  destruct (find (fun t => Ticket._id t =? ticketId) (tickets w0)) as [ticket|].
  - unfold try_catch, AgentService.triageSteps.
    unfold bind at 1. unfold console_info, emit, modify.
    unfold bind at 1. rewrite logAudit_rejected by exact Hs.
    unfold bind at 1. unfold console_error, emit, modify.
    unfold bind at 1. rewrite logAudit_rejected by exact Hf.
    eexists. eexists. split; [reflexivity|]. destruct w0; simpl in *. auto.
  - unfold try_catch, throw, bind, console_error, emit, modify, ret.
    eexists. eexists. split; [reflexivity|]. destruct w0; simpl in *. auto.
Qed.

(** The [catch] clause as it is meant to work: under a schema that lists
    [TRIAGE_FAILED], a run whose steps throw [e] stores a failure entry
    with the message of [e] under the run id and throws [e] itself. *)
Lemma triageTicket_failure_logged (this : AgentService.t) ticketId trace w ticket e w1 :
  enum_has (AgentService.AuditLog_action this) "TRIAGE_FAILED" = true ->
  trace <> "" ->
  find (fun t => Ticket._id t =? ticketId) (tickets w) = Some ticket ->
  AgentService.triageSteps this ticket trace w = (Throw e, w1) ->
  exists w2,
    AgentService.triageTicket this ticketId (Some trace) w = (Throw e, w2)
    /\ auditLogs w2
       = (auditLogs w1
          ++ [AuditLog.mk (Some (Ticket._id ticket)) trace "system" "TRIAGE_FAILED"
                (MetaFailed (message e))])%list.
Proof.
  intros Hf Ht Hfind Hsteps.
  unfold AgentService.triageTicket.
  destruct (String.eqb_spec trace "") as [E|_]; [contradiction|].
  unfold bind at 1. unfold ret at 1.
  unfold bind at 1. unfold Db.Ticket_findById, gets. rewrite Hfind.
  unfold try_catch. rewrite Hsteps.
  unfold bind at 1. unfold console_error, emit, modify.
  unfold bind at 1. rewrite logAudit_accepted by exact Hf.
  unfold throw. eexists. split; [reflexivity|]. destruct w1; reflexivity.
Qed.

(** What a step that returns has written.  [entry] is the audit entry of
    the pipeline for a ticket and a run. *)
Lemma logAudit_inv_Ok this ticketId traceId action meta w w' :
  AgentService._logAudit this ticketId traceId "system" action meta w = (Ok tt, w') ->
  w' = set_auditLogs
         (auditLogs w ++ [AuditLog.mk (Some ticketId) traceId "system" action meta])%list w.
Proof.
  unfold AgentService._logAudit, Db.AuditLog_save. simpl.
  destruct (enum_has (AgentService.AuditLog_action this) action); simpl; intros H.
  - unfold modify in H. inversion H. reflexivity.
  - discriminate.
Qed.

(** Splits a hypothesis on a sequence that returned into its first step
    and the rest. *)
Tactic Notation "split_run" hyp(H) "as" ident(a) ident(w) ident(H1) :=
  apply bind_inv_Ok in H; destruct H as (a & w & H1 & H).

(** A step that only prints, reads or returns. *)
Ltac plain_step H :=
  unfold console_info, console_error, emit, modify, gets, ret in H;
  inversion H; subst; clear H.

Lemma classifyTicket_inv_Ok this ticket traceId w ticket' classification w' :
  AgentService._classifyTicket this ticket traceId w = (Ok (ticket', classification), w') ->
  Ticket._id ticket' = Ticket._id ticket
  /\ suggestions w' = suggestions w
  /\ exists meta,
       auditLogs w'
       = (auditLogs w
          ++ [AuditLog.mk (Some (Ticket._id ticket)) traceId "system" "AGENT_CLASSIFIED"
                meta])%list.
Proof.
  unfold AgentService._classifyTicket. intros H.
  split_run H as u1 w1 H1. plain_step H1.
  split_run H as tk w2 H2.
  assert (Hid : Ticket._id tk = Ticket._id ticket
                /\ suggestions w2 = suggestions w /\ auditLogs w2 = auditLogs w).
  { destruct (Js.gt _ _).
    - unfold Db.Ticket_save_category in H2.
      destruct (predictedCategory _) as [c|s]; [|discriminate].
      split_run H2 as u3 w3 H3. unfold Db.Ticket_save in H3. plain_step H3. plain_step H2.
      destruct ticket, w; auto.
    - plain_step H2. destruct w; auto. }
  destruct Hid as (Hid & Hs & Hl).
  split_run H as u4 w4 H4. destruct u4. apply logAudit_inv_Ok in H4. subst w4.
  split_run H as u5 w5 H5. plain_step H5. plain_step H.
  split; [exact Hid|]. split; [destruct w2; simpl in *; exact Hs|].
  eexists. rewrite Hid. destruct w2; simpl in *. rewrite Hl. reflexivity.
Qed.

Lemma retrieveKBArticles_inv_Ok this ticket classification traceId w articles w' :
  AgentService._retrieveKBArticles this ticket classification traceId w = (Ok articles, w') ->
  suggestions w' = suggestions w
  /\ exists meta,
       auditLogs w'
       = (auditLogs w
          ++ [AuditLog.mk (Some (Ticket._id ticket)) traceId "system" "KB_RETRIEVED"
                meta])%list.
Proof.
  unfold AgentService._retrieveKBArticles. intros H.
  split_run H as u1 w1 H1. plain_step H1.
  split_run H as hits w2 H2. plain_step H2.
  split_run H as u3 w3 H3. destruct u3. apply logAudit_inv_Ok in H3. subst w3.
  split_run H as u4 w4 H4. plain_step H4. plain_step H.
  destruct w; simpl. split; [reflexivity|]. eexists. reflexivity.
Qed.

Lemma draftReply_inv_Ok this ticket articles traceId w draft w' :
  AgentService._draftReply this ticket articles traceId w = (Ok draft, w') ->
  suggestions w' = suggestions w
  /\ exists meta,
       auditLogs w'
       = (auditLogs w
          ++ [AuditLog.mk (Some (Ticket._id ticket)) traceId "system" "DRAFT_GENERATED"
                meta])%list.
Proof.
  unfold AgentService._draftReply. intros H.
  split_run H as u1 w1 H1. plain_step H1.
  split_run H as u2 w2 H2. destruct u2. apply logAudit_inv_Ok in H2. subst w2.
  split_run H as u3 w3 H3. plain_step H3. plain_step H.
  destruct w; simpl. split; [reflexivity|]. eexists. reflexivity.
Qed.

Lemma makeTriageDecision_inv_Ok this ticket classification draft traceId w decision w' :
  AgentService._makeTriageDecision this ticket classification draft traceId w
  = (Ok decision, w') ->
  suggestions w' = suggestions w
  /\ decision = AgentService.decision (effectiveConfig this w) (confidence classification)
  /\ auditLogs w'
     = (auditLogs w
        ++ [AuditLog.mk (Some (Ticket._id ticket)) traceId "system" "DECISION_MADE"
              (MetaDecision decision)])%list.
Proof.
  unfold AgentService._makeTriageDecision. intros H.
  split_run H as cfg w1 H1. unfold Db.Config_findOne in H1. plain_step H1.
  split_run H as u2 w2 H2. destruct u2. apply logAudit_inv_Ok in H2. subst w2.
  split_run H as u3 w3 H3. plain_step H3. plain_step H.
  destruct w1; simpl. split; [reflexivity|]. split; reflexivity.
Qed.

(** The text [_getDraftFromLogs] answers in a world: the reply of the
    latest suggestion stored for the ticket when the run has a
    [DRAFT_GENERATED] entry and such a suggestion exists, the fixed text
    otherwise. *)
Lemma getDraftFromLogs_run ticketId traceId w :
  AgentService._getDraftFromLogs ticketId traceId w
  = (Ok match
          find (fun log =>
                  match AuditLog.ticketId log with
                  | Some i => i =? ticketId
                  | None => false
                  end
                  && String.eqb (AuditLog.traceId log) traceId
                  && String.eqb (AuditLog.action log) "DRAFT_GENERATED") (auditLogs w),
          find (fun s => AgentSuggestion.ticketId s =? ticketId) (rev (suggestions w))
        with
        | Some _, Some suggestion => AgentSuggestion.draftReply suggestion
        | _, _ => AgentService.fallbackDraft
        end, w).
Proof.
  unfold AgentService._getDraftFromLogs, bind, Db.AuditLog_findOne,
    Db.AgentSuggestion_latest, gets, ret.
  destruct (find _ (auditLogs w)); [|reflexivity].
  destruct (find _ (rev (suggestions w))); reflexivity.
Qed.

Lemma getSystemUserId_inv_Ok w author w' :
  AgentService._getSystemUserId w = (Ok author, w') ->
  suggestions w' = suggestions w /\ auditLogs w' = auditLogs w.
Proof.
  unfold AgentService._getSystemUserId. intros H.
  split_run H as found w1 Ea. unfold Db.User_findByEmail, gets in Ea.
  injection Ea as Efound Ew. subst w1.
  destruct found as [systemUser|].
  - plain_step H. split; reflexivity.
  - split_run H as j w2 Eb. unfold newObjectId in Eb. injection Eb as Ej Ew. subst j w2.
    split_run H as u3 w3 Ec. unfold Db.User_save in Ec. plain_step Ec.
    plain_step H. destruct w; split; reflexivity.
Qed.

(** What the execute phase has done when it returns: one suggestion for
    the ticket, linked from the ticket, holding the text that
    [_getDraftFromLogs] answered; one terminal audit entry; and on
    [auto_close] the status [resolved] with one more reply, generated,
    whose content is that same text. *)
Lemma executeDecision_inv_Ok this ticket decision traceId w ticket' w' :
  AgentService._executeDecision this ticket decision traceId w = (Ok ticket', w') ->
  Ticket._id ticket' = Ticket._id ticket
  /\ exists suggestion meta,
       suggestions w' = (suggestions w ++ [suggestion])%list
       /\ AgentSuggestion.ticketId suggestion = Ticket._id ticket
       /\ Ticket.agentSuggestionId ticket' = Some (AgentSuggestion._id suggestion)
       /\ fst (AgentService._getDraftFromLogs (Ticket._id ticket) traceId w)
          = Ok (AgentSuggestion.draftReply suggestion)
       /\ auditLogs w'
          = (auditLogs w
             ++ [AuditLog.mk (Some (Ticket._id ticket)) traceId "system"
                   match Decision.action decision with
                   | auto_close => "AUTO_CLOSED"
                   | assign_human => "ASSIGNED_TO_HUMAN"
                   end meta])%list
       /\ match Decision.action decision with
          | auto_close =>
              Ticket.status ticket' = resolved
              /\ exists author,
                   Ticket.replies ticket'
                   = (Ticket.replies ticket
                      ++ [Reply.mk author (AgentSuggestion.draftReply suggestion) true])%list
          | assign_human =>
              Ticket.status ticket' = waiting_human
              /\ Ticket.replies ticket' = Ticket.replies ticket
          end.
Proof.
  unfold AgentService._executeDecision. intros H.
  split_run H as cls w1 H1.
  unfold AgentService._getClassificationFromLogs in H1.
  split_run H1 as log1 w1' H1'. unfold Db.AuditLog_findOne in H1'. plain_step H1'. plain_step H1.
  split_run H as ids w2 H2.
  assert (Hw2 : w2 = w1).
  { unfold AgentService._getArticlesFromLogs in H2.
    split_run H2 as log2 w2' H2'. unfold Db.AuditLog_findOne in H2'. plain_step H2'.
    match type of H2 with
    | context [option_map AuditLog.meta ?x] =>
        destruct (option_map AuditLog.meta x) as [[]|]
    end; unfold bind, Db.Article_findByIds in H2; plain_step H2; reflexivity. }
  subst w2. clear H2.
  split_run H as text w3 H3.
  assert (Hdraft : fst (AgentService._getDraftFromLogs (Ticket._id ticket) traceId w1)
                   = Ok text) by (rewrite H3; reflexivity).
  assert (Hw3 : w3 = w1).
  { rewrite getDraftFromLogs_run in H3. inversion H3. reflexivity. }
  subst w3. clear H3.
  match type of H with
  | context [option_map AuditLog.meta ?x] =>
      destruct (option_map AuditLog.meta x) as [[]|]
  end; try (unfold throw in H; discriminate).
  match type of H with
  | context [match ?c with inEnum _ => _ | outside _ => _ end] => destruct c
  end; try (unfold throw in H; discriminate).
  split_run H as i w4 H4. unfold newObjectId in H4. inversion H4; subst i w4; clear H4.
  split_run H as u5 w5 H5. unfold Db.AgentSuggestion_save in H5.
  destruct (Db.AgentSuggestion_validate _); [unfold throw in H5; discriminate|].
  plain_step H5.
  split_run H as tk w6 H6.
  split_run H as u7 w7 H7. unfold Db.Ticket_save in H7. plain_step H7. plain_step H.
  destruct (Decision.action decision).
  - (* auto_close *)
    split_run H6 as author w8 H8.
    apply getSystemUserId_inv_Ok in H8. destruct H8 as [Hs8 Hl8].
    split_run H6 as u12 w12 H12. destruct u12. apply logAudit_inv_Ok in H12. subst w12.
    split_run H6 as u13 w13 H13. plain_step H13. plain_step H6.
    split; [destruct ticket; reflexivity|].
    eexists. eexists.
    split; [destruct w8; simpl in *; rewrite Hs8; destruct w1; reflexivity|].
    split; [reflexivity|]. split; [destruct ticket; reflexivity|].
    split; [exact Hdraft|].
    split; [destruct w8; simpl in *; rewrite Hl8; destruct w1, ticket; reflexivity|].
    split; [destruct ticket; reflexivity|].
    exists author. destruct ticket; reflexivity.
  - (* assign_human *)
    split_run H6 as agent w8 H8. unfold Db.User_findAgent, gets in H8.
    injection H8 as Eagent Ew8. subst w8. clear Eagent.
    split_run H6 as u12 w12 H12. destruct u12. apply logAudit_inv_Ok in H12. subst w12.
    split_run H6 as u13 w13 H13. plain_step H13. plain_step H6.
    split; [destruct agent, ticket; reflexivity|].
    eexists. eexists.
    split; [destruct w1; reflexivity|].
    split; [reflexivity|]. split; [destruct agent, ticket; reflexivity|].
    split; [exact Hdraft|].
    split; [destruct w1, agent, ticket; reflexivity|].
    split; destruct agent, ticket; reflexivity.
Qed.

(** What the claim on audit entries describes, for any [AuditLog] schema:
    a run of the steps that returns has appended exactly six entries for
    the ticket under the run id, in the order of the pipeline and ending
    with the terminal entry of the verdict, and has stored exactly one
    suggestion, for that ticket. *)
Lemma triageSteps_inv_Ok this ticket trace w result w' :
  AgentService.triageSteps this ticket trace w = (Ok result, w') ->
  TriageResult.traceId result = trace
  /\ TriageResult.ticketId result = Ticket._id ticket
  /\ (exists m1 m2 m3 m4 m5 m6,
        auditLogs w'
        = (auditLogs w
           ++ pipelineEntries (Ticket._id ticket) trace
                [ ("TRIAGE_STARTED", m1); ("AGENT_CLASSIFIED", m2); ("KB_RETRIEVED", m3);
                  ("DRAFT_GENERATED", m4); ("DECISION_MADE", m5);
                  (terminalAction (TriageResult.decision result), m6) ])%list)
  /\ (exists suggestion,
        suggestions w' = (suggestions w ++ [suggestion])%list
        /\ AgentSuggestion.ticketId suggestion = Ticket._id ticket).
Proof.
  unfold AgentService.triageSteps. intros H.
  split_run H as u1 w1 E1. plain_step E1.
  split_run H as u2 w2 E2. destruct u2. apply logAudit_inv_Ok in E2. subst w2.
  split_run H as tc w3 E3. destruct tc as [ticket3 classification].
  apply classifyTicket_inv_Ok in E3. destruct E3 as (Hid3 & Hs3 & meta3 & Hl3).
  split_run H as articles w4 E4.
  apply retrieveKBArticles_inv_Ok in E4. destruct E4 as (Hs4 & meta4 & Hl4).
  split_run H as draft w5 E5.
  apply draftReply_inv_Ok in E5. destruct E5 as (Hs5 & meta5 & Hl5).
  split_run H as decision w6 E6.
  apply makeTriageDecision_inv_Ok in E6. destruct E6 as (Hs6 & _ & Hl6).
  split_run H as ticket7 w7 E7.
  apply executeDecision_inv_Ok in E7.
  destruct E7 as (Hid7 & suggestion & meta7 & Hs7 & Hst & _ & _ & Hl7 & _).
  unfold ret in H. injection H as Hres Hw. subst w7 result. simpl.
  split; [reflexivity|]. split; [congruence|].
  split.
  - do 6 eexists. rewrite Hl7, Hl6, Hl5, Hl4, Hl3, Hid3. simpl.
    unfold pipelineEntries. simpl. rewrite <- !app_assoc. simpl.
    destruct (Decision.action decision); reflexivity.
  - exists suggestion. split; [|congruence].
    rewrite Hs7, Hs6, Hs5, Hs4, Hs3. reflexivity.
Qed.

(** The [catch] clause of [triageTicket] always ends in a throw: a run
    that returns has loaded the ticket and gone through the steps under
    the run id, which is the id it was given or, when that is absent or
    empty, the next identifier of [crypto.randomUUID]. *)
Lemma triageTicket_inv_Ok this ticketId traceId w result w' :
  AgentService.triageTicket this ticketId traceId w = (Ok result, w') ->
  exists ticket w0,
    find (fun t => Ticket._id t =? ticketId) (tickets w) = Some ticket
    /\ auditLogs w0 = auditLogs w
    /\ suggestions w0 = suggestions w
    /\ AgentService.triageSteps this ticket
         match traceId with
         | Some given =>
             if String.eqb given "" then AgentService.randomUUID this (uuidCount w)
             else given
         | None => AgentService.randomUUID this (uuidCount w)
         end w0
       = (Ok result, w').
Proof.
  unfold AgentService.triageTicket.
  set (trace := match traceId with
                | Some given =>
                    if String.eqb given "" then AgentService.randomUUID this (uuidCount w)
                    else given
                | None => AgentService.randomUUID this (uuidCount w)
                end).
  assert (Hpick : exists w0,
             match traceId with
             | Some given =>
                 if String.eqb given "" then AgentService.crypto_randomUUID this
                 else ret given
             | None => AgentService.crypto_randomUUID this
             end w = (Ok trace, w0)
             /\ tickets w0 = tickets w /\ auditLogs w0 = auditLogs w
             /\ suggestions w0 = suggestions w).
  { subst trace. destruct traceId as [given|]; [destruct (String.eqb given "")|];
      eexists; (split; [reflexivity|]); destruct w; auto. }
  destruct Hpick as (w0 & Hpick & T0 & L0 & S0).
  rewrite (bind_Ok _ _ _ _ _ Hpick).
  unfold bind at 1. unfold Db.Ticket_findById, gets. rewrite T0.
  destruct (find (fun t => Ticket._id t =? ticketId) (tickets w)) as [ticket|].
  - unfold try_catch.
    destruct (AgentService.triageSteps this ticket trace w0) as [[r|e] w1] eqn:Hsteps.
    + intros H. exists ticket, w0. repeat (split; [assumption || reflexivity|]). congruence.
    + unfold bind at 1. unfold console_error, emit, modify.
      unfold bind at 1.
      match goal with
      | |- context [AgentService._logAudit ?a ?b ?c ?d ?e ?f ?g] =>
          destruct (AgentService._logAudit a b c d e f g) as [[[]|e2] w2]
      end; unfold throw; discriminate.
  - unfold try_catch, throw, bind, console_error, emit, modify, ret. discriminate.
Qed.

(** C1: whenever [triageTicket] completes, whatever the [AuditLog] schema
    the service is loaded with and whether a run id was given, the run
    has appended exactly six audit entries to the log, all for the ticket
    and under the one run id that the result names, in the order
    [TRIAGE_STARTED], [AGENT_CLASSIFIED], [KB_RETRIEVED],
    [DRAFT_GENERATED], [DECISION_MADE] and then the one terminal action
    of its verdict ([AUTO_CLOSED] or [ASSIGNED_TO_HUMAN]), and it has
    stored exactly one new suggestion, for that ticket. *)
Theorem triage_run_writes_six_entries
    (this : AgentService.t) (ticketId : ObjectId) (traceId : option string)
    (w : World) (result : TriageResult.t) (w' : World) :
  AgentService.triageTicket this ticketId traceId w = (Ok result, w') ->
  let runId := TriageResult.traceId result in
  runId = match traceId with
          | Some given =>
              if String.eqb given "" then AgentService.randomUUID this (uuidCount w)
              else given
          | None => AgentService.randomUUID this (uuidCount w)
          end
  /\ TriageResult.ticketId result = ticketId
  /\ (exists m1 m2 m3 m4 m5 m6,
        auditLogs w'
        = (auditLogs w
           ++ pipelineEntries ticketId runId
                [ ("TRIAGE_STARTED", m1); ("AGENT_CLASSIFIED", m2); ("KB_RETRIEVED", m3);
                  ("DRAFT_GENERATED", m4); ("DECISION_MADE", m5);
                  (terminalAction (TriageResult.decision result), m6) ])%list)
  /\ (terminalAction (TriageResult.decision result) = "AUTO_CLOSED"
      \/ terminalAction (TriageResult.decision result) = "ASSIGNED_TO_HUMAN")
  /\ (exists suggestion,
        suggestions w' = (suggestions w ++ [suggestion])%list
        /\ AgentSuggestion.ticketId suggestion = ticketId).
Proof.
  intros H runId.
  destruct (triageTicket_inv_Ok _ _ _ _ _ _ H) as (ticket & w0 & Hfind & L0 & S0 & Hsteps).
  apply find_some in Hfind. destruct Hfind as [_ Hid].
  apply Nat.eqb_eq in Hid. subst ticketId.
  destruct (triageSteps_inv_Ok _ _ _ _ _ _ Hsteps) as (Htrace & Hticket & Hlogs & Hsug).
  subst runId. rewrite Htrace, <- L0, <- S0.
  split; [reflexivity|]. split; [exact Hticket|]. split; [exact Hlogs|].
  split; [destruct (TriageResult.decision result); [left|right]; reflexivity|exact Hsug].
Qed.

(** The premise can be met: a service whose [AuditLog] model lists the
    actions of the pipeline completes the run on the first ticket of the
    seed script. *)
Lemma triage_run_writes_six_entries_witness :
  let out :=
    AgentService.triageTicket Fixture.extendedService 20 None
      (Fixture.world (Fixture.refundTicket open)) in
  exists result,
    fst out = Ok result
    /\ map AuditLog.traceId (auditLogs (snd out)) = repeat (TriageResult.traceId result) 6
    /\ map AuditLog.action (auditLogs (snd out))
       = [ "TRIAGE_STARTED"; "AGENT_CLASSIFIED"; "KB_RETRIEVED"; "DRAFT_GENERATED";
           "DECISION_MADE"; terminalAction (TriageResult.decision result) ]
    /\ length (suggestions (snd out)) = 1.
Proof.
  cbv zeta.
  assert (Hrun : exists result w',
             AgentService.triageTicket Fixture.extendedService 20 None
               (Fixture.world (Fixture.refundTicket open)) = (Ok result, w')).
  { eexists. eexists. vm_compute. reflexivity. }
  destruct Hrun as (result & w' & Hrun).
  destruct (triage_run_writes_six_entries _ _ _ _ _ _ Hrun)
    as (_ & _ & (m1 & m2 & m3 & m4 & m5 & m6 & Hlogs) & _ & (suggestion & Hsug & _)).
  exists result. rewrite Hrun. cbn [fst snd].
  split; [reflexivity|]. rewrite Hlogs, Hsug. repeat split.
Defined.

(** Where the stored draft comes from: whenever the execute phase returns,
    the reply text of the suggestion it stores is the fixed text or the
    reply text of a suggestion that was already stored before the phase
    began; the draft of the run in progress is not among its inputs. *)
Lemma executeDecision_draft_source this ticket decision traceId w ticket' w' :
  AgentService._executeDecision this ticket decision traceId w = (Ok ticket', w') ->
  exists suggestion,
    suggestions w' = (suggestions w ++ [suggestion])%list
    /\ (AgentSuggestion.draftReply suggestion = AgentService.fallbackDraft
        \/ exists earlier,
             In earlier (suggestions w)
             /\ AgentSuggestion.draftReply suggestion = AgentSuggestion.draftReply earlier).
Proof.
  intros H. apply executeDecision_inv_Ok in H.
  destruct H as (_ & suggestion & meta & Hs & _ & _ & Hdraft & _).
  exists suggestion. split; [exact Hs|].
  rewrite getDraftFromLogs_run in Hdraft. simpl in Hdraft.
  injection Hdraft as Hdraft. rewrite <- Hdraft.
  destruct (find _ (auditLogs w)); [|left; reflexivity].
  destruct (find _ (rev (suggestions w))) as [earlier|] eqn:Hfind; [|left; reflexivity].
  right. exists earlier. split; [|reflexivity].
  apply find_some in Hfind. destruct Hfind as [Hin _].
  apply in_rev. exact Hin.
Qed.

(* ===================================================================== *)
(** * Further properties of the code *)
(* ===================================================================== *)

(** ** The template drafter *)

Lemma stubDraftLines_from_two (articles : list Hit.t) :
  forall index, 2 <= index -> LLMProvider.stubDraftLines index articles = ("", []).
Proof.
  induction articles as [|a rest IH]; intros index Hi; simpl.
  - reflexivity.
  - rewrite IH by lia.
    destruct (Nat.ltb_spec index 2); [lia|reflexivity].
Qed.

(** X1: the template drafter cites the titles of the first two articles
    it is given, in their order, and nothing else; its whole result
    depends on those two articles only: neither a third article nor the
    text of the ticket has any influence on the draft. *)
Theorem stubDraft_first_two (ticketText ticketText' : string) (articles : list Hit.t)
    (latency : nat) :
  Draft.citations (LLMProvider._stubDraft ticketText articles latency)
  = map Hit.title (firstn 2 articles)
  /\ LLMProvider._stubDraft ticketText articles latency
     = LLMProvider._stubDraft ticketText' (firstn 2 articles) latency.
Proof.
  destruct articles as [|a [|b rest]].
  - split; reflexivity.
  - split; reflexivity.
  - unfold LLMProvider._stubDraft.
    cbn [firstn length Nat.ltb Nat.leb LLMProvider.stubDraftLines].
    rewrite (stubDraftLines_from_two rest 2) by lia.
    split; reflexivity.
Qed.

(** ** The classifier against the thresholds of the pipeline *)

Lemma matches_le (words : list string) (lowerText : string) :
  LLMProvider.matches words lowerText <= length words.
Proof.
  unfold LLMProvider.matches. apply filter_length_le.
Qed.

Lemma maxMatches_le (text : string) : LLMProvider.maxMatches text <= 10.
Proof.
  unfold LLMProvider.maxMatches, LLMProvider.billingMatches, LLMProvider.techMatches,
    LLMProvider.shippingMatches.
  pose proof (matches_le LLMProvider.billingWords (Js.toLowerCase text)) as Hb.
  pose proof (matches_le LLMProvider.techWords (Js.toLowerCase text)) as Ht.
  pose proof (matches_le LLMProvider.shippingWords (Js.toLowerCase text)) as Hs.
  simpl length in Hb, Ht, Hs. lia.
Qed.

(** The confidence formula at each count a keyword list can reach. *)
Lemma confidence_formula_thresholds (n : nat) :
  1 <= n <= 10 ->
  let c := Js.Math_min 0.9 (0.6 + Js.num n * 0.1)%float in
  Js.gt c 0.7 = (2 <=? n)
  /\ Js.ge c 0.78 = (2 <=? n)
  /\ PrimFloat.leb 0.5 c = true
  /\ PrimFloat.leb c 0.9 = true.
Proof.
  intros [H1 H10].
  do 11 (destruct n as [|n]; [try lia; vm_compute; repeat split|]).
  lia.
Qed.

(** The confidence of the stub against the two thresholds, by the number
    of keyword matches. *)
Lemma stubClassify_confidence_thresholds (text : string) (latency : nat) :
  let r := LLMProvider._stubClassify text latency in
  Js.gt (confidence r) 0.7 = (2 <=? LLMProvider.maxMatches text)
  /\ Js.ge (confidence r) 0.78 = (2 <=? LLMProvider.maxMatches text)
  /\ PrimFloat.leb 0.5 (confidence r) = true
  /\ PrimFloat.leb (confidence r) 0.9 = true.
Proof.
  cbv zeta.
  pose proof (maxMatches_le text) as Hmax.
  unfold LLMProvider.maxMatches in *.
  destruct (stubClassify_cases text latency)
    as [(Hz & _ & Hc)|[(Hp & Hm & _ & Hc)|[(Hp & _ & Hm & _ & Hc)|(Hp & _ & _ & Hm & _ & Hc)]]];
    rewrite Hc.
  - rewrite Hz. vm_compute. repeat split.
  - rewrite <- Hm. apply confidence_formula_thresholds. lia.
  - rewrite <- Hm. apply confidence_formula_thresholds. lia.
  - rewrite <- Hm. apply confidence_formula_thresholds. lia.
Qed.

(** X2: for every text, the confidence of the rule-based classifier lies
    between 0.5 and 0.9, and it exceeds 0.7 (the bound above which the
    classification step overwrites the category of the ticket) and
    reaches 0.78 (the default auto-close threshold) exactly when the
    chosen category has at least two keyword matches: one match gives
    0.7, which is not above 0.7. *)
Theorem stubClassify_thresholds (text : string) (latency : nat) :
  let r := LLMProvider._stubClassify text latency in
  let matchCount := LLMProvider.categoryMatches text (predictedCategory r) in
  Js.gt (confidence r) 0.7 = (2 <=? matchCount)
  /\ Js.ge (confidence r) 0.78 = (2 <=? matchCount)
  /\ PrimFloat.leb 0.5 (confidence r) = true
  /\ PrimFloat.leb (confidence r) 0.9 = true
  /\ (matchCount = 1 -> confidence r = 0.7%float).
Proof.
  cbv zeta.
  assert (Hcount : LLMProvider.categoryMatches text
                     (predictedCategory (LLMProvider._stubClassify text latency))
                   = LLMProvider.maxMatches text).
  { unfold LLMProvider.maxMatches.
    destruct (stubClassify_cases text latency)
      as [(Hz & Hcat & _)|[(_ & Hm & Hcat & _)|[(_ & _ & Hm & Hcat & _)|(_ & _ & _ & Hm & Hcat & _)]]];
      rewrite Hcat; simpl; congruence. }
  rewrite Hcount.
  destruct (stubClassify_confidence_thresholds text latency) as (H1 & H2 & H3 & H4).
  repeat (split; [assumption|]).
  intros Hone.
  unfold LLMProvider.maxMatches in Hone.
  destruct (stubClassify_cases text latency)
    as [(Hz & _ & _)|[(_ & Hm & _ & Hc)|[(_ & _ & Hm & _ & Hc)|(_ & _ & _ & Hm & _ & Hc)]]].
  - lia.
  - rewrite Hc, Hm, Hone. vm_compute. reflexivity.
  - rewrite Hc, Hm, Hone. vm_compute. reflexivity.
  - rewrite Hc, Hm, Hone. vm_compute. reflexivity.
Qed.

(** ** The classification step below the overwrite bound *)

(** X3: in stub mode, a ticket whose text has fewer than two keyword
    matches in every category keeps its category: the classification
    step stores nothing in the ticket collection, hands the ticket back
    as it received it, and the [originalCategory] of its audit entry is
    the category the ticket had. *)
Theorem classifyTicket_keeps_category_below_two_matches
    (this : AgentService.t) (ticket : Ticket.t) (traceId : string) (w : World) :
  let text := Ticket.title ticket ++ String "010" "" ++ Ticket.description ticket in
  let classification := LLMProvider._stubClassify text
                          (LLMProvider.latency (AgentService.llmProvider this)) in
  let out := AgentService._classifyTicket this ticket traceId w in
  LLMProvider.stubMode (AgentService.llmProvider this) = true ->
  LLMProvider.maxMatches text <= 1 ->
  tickets (snd out) = tickets w
  /\ (enum_has (AgentService.AuditLog_action this) "AGENT_CLASSIFIED" = true ->
      fst out = Ok (ticket, classification)
      /\ auditLogs (snd out)
         = (auditLogs w
            ++ [AuditLog.mk (Some (Ticket._id ticket)) traceId "system" "AGENT_CLASSIFIED"
                  (MetaClassified (Ticket.category ticket)
                     (predictedCategory classification) (confidence classification)
                     (modelInfo classification))])%list).
Proof.
  intros text classification out Hstub Hmax.
  assert (Hgt : Js.gt (confidence classification) 0.7 = false).
  { subst classification.
    destruct (stubClassify_confidence_thresholds text
                (LLMProvider.latency (AgentService.llmProvider this))) as (H & _).
    rewrite H. apply Nat.leb_gt. lia. }
  subst out. unfold AgentService._classifyTicket.
  fold text. unfold LLMProvider.classify. rewrite Hstub. fold classification.
  rewrite Hgt.
  unfold bind at 1. unfold console_info, emit, modify.
  unfold bind at 1. unfold ret at 1.
  unfold AgentService._logAudit, Db.AuditLog_save.
  cbn [AuditLog.actor AuditLog.action enum_has auditLogSchema_actor existsb String.eqb
       Ascii.eqb Bool.eqb orb negb].
  fold (enum_has (AgentService.AuditLog_action this) "AGENT_CLASSIFIED").
  destruct (enum_has (AgentService.AuditLog_action this) "AGENT_CLASSIFIED").
  - cbn [negb]. unfold bind, modify, ret. simpl.
    split; [reflexivity|]. intros _. split; reflexivity.
  - cbn [negb]. unfold bind, throw. simpl.
    split; [reflexivity|]. intros H; discriminate.
Qed.

Lemma classifyTicket_keeps_category_below_two_matches_witness :
  let out :=
    AgentService._classifyTicket Fixture.service Fixture.passwordTicket "run-0"
      (Fixture.world Fixture.passwordTicket) in
  tickets (snd out) = [Fixture.passwordTicket]
  /\ map AuditLog.meta (auditLogs (snd out))
     = [MetaClassified other tech 0.7 (mkModelInfo "stub" "rule-based" "1.0" 0)].
Proof.
  pose proof (classifyTicket_keeps_category_below_two_matches Fixture.service
                Fixture.passwordTicket "run-0" (Fixture.world Fixture.passwordTicket)
                eq_refl) as H.
  cbv zeta in H.
  assert (Hmax : LLMProvider.maxMatches
                   (Ticket.title Fixture.passwordTicket ++ String "010" ""
                      ++ Ticket.description Fixture.passwordTicket) <= 1)
    by (vm_compute; apply le_n).
  destruct (H Hmax) as [Htickets Haccepted].
  destruct (Haccepted eq_refl) as [_ Hlogs].
  cbv zeta. rewrite Htickets, Hlogs. vm_compute. split; reflexivity.
Defined.

(** ** A run on a ticket that does not exist *)

(** X4: for a ticket id that no stored ticket has, [triageTicket] throws
    the error [Ticket not found] whatever the schema and the run id: no
    step runs, no audit entry is written (the [catch] clause has no
    ticket to attach a failure event to), the collections are as they
    were, and all that happens is the console line of the [catch]
    clause. *)
Theorem triageTicket_missing_ticket
    (this : AgentService.t) (ticketId : ObjectId) (traceId : option string) (w : World) :
  find (fun t => Ticket._id t =? ticketId) (tickets w) = None ->
  exists trace w',
    AgentService.triageTicket this ticketId traceId w
    = (Throw (mkError "Error" "Ticket not found"), w')
    /\ tickets w' = tickets w
    /\ suggestions w' = suggestions w
    /\ auditLogs w' = auditLogs w
    /\ users w' = users w
    /\ effects w'
       = (effects w
          ++ [Console "error" trace "Triage failed" (Some "Ticket not found") None])%list.
Proof.
  intros Hfind.
  unfold AgentService.triageTicket.
  set (pick := match traceId with
               | Some given =>
                   if String.eqb given "" then AgentService.crypto_randomUUID this
                   else ret given
               | None => AgentService.crypto_randomUUID this
               end).
  assert (Hpick : exists trace w0,
             pick w = (Ok trace, w0) /\ tickets w0 = tickets w
             /\ suggestions w0 = suggestions w /\ auditLogs w0 = auditLogs w
             /\ users w0 = users w /\ effects w0 = effects w).
  { subst pick. destruct traceId as [given|]; [destruct (String.eqb given "")|];
      eexists; eexists; (split; [reflexivity|]); destruct w; simpl; auto. }
  destruct Hpick as (trace & w0 & Hp & T0 & S0 & L0 & U0 & E0).
  rewrite (bind_Ok _ _ _ _ _ Hp).
  unfold bind at 1. unfold Db.Ticket_findById, gets.
  rewrite T0, Hfind.
  unfold try_catch, throw, bind, console_error, emit, modify, ret.
  exists trace. eexists. split; [reflexivity|].
  destruct w0; simpl in *. subst. auto.
Qed.

Lemma triageTicket_missing_ticket_witness :
  exists trace w',
    AgentService.triageTicket Fixture.service 99 None (Fixture.world Fixture.passwordTicket)
    = (Throw (mkError "Error" "Ticket not found"), w')
    /\ auditLogs w' = []
    /\ effects w'
       = [Console "error" trace "Triage failed" (Some "Ticket not found") None].
Proof.
  destruct (triageTicket_missing_ticket Fixture.service 99 None
              (Fixture.world Fixture.passwordTicket) eq_refl)
    as (trace & w' & Hrun & _ & _ & Hlogs & _ & Heff).
  exists trace, w'. split; [exact Hrun|]. split; [exact Hlogs|exact Heff].
Defined.

(** ** What the execute phase reads back from the audit log *)

Lemma find_app_l {A} (p : A -> bool) (l1 l2 : list A) (x : A) :
  find p l1 = Some x -> find p (l1 ++ l2)%list = Some x.
Proof.
  induction l1 as [|a l1 IH]; simpl; intros H.
  - discriminate.
  - destruct (p a); [exact H|apply IH; exact H].
Qed.

Lemma find_app_None {A} (p : A -> bool) (l1 l2 : list A) :
  find p l1 = None -> find p (l1 ++ l2)%list = find p l2.
Proof.
  induction l1 as [|a l1 IH]; simpl; intros H.
  - reflexivity.
  - destruct (p a); [discriminate|apply IH; exact H].
Qed.

(** The entry of a ticket and a run with a given action, as
    [AuditLog.findOne] selects it. *)
Lemma AuditLog_findOne_some ticketId traceId action w log :
  Db.AuditLog_findOne ticketId traceId action w = (Ok (Some log), w) ->
  In log (auditLogs w)
  /\ AuditLog.ticketId log = Some ticketId
  /\ AuditLog.traceId log = traceId
  /\ AuditLog.action log = action.
Proof.
  unfold Db.AuditLog_findOne, gets. intros H.
  injection H as H. apply find_some in H. destruct H as [Hin Hp].
  apply andb_prop in Hp. destruct Hp as [Hp Ha].
  apply andb_prop in Hp. destruct Hp as [Hi Ht].
  apply String.eqb_eq in Ha, Ht.
  destruct (AuditLog.ticketId log) as [i|]; [|discriminate].
  apply Nat.eqb_eq in Hi. subst i. auto.
Qed.

(** X5: the article ids that the execute phase reads back for a run are
    exactly the ids recorded in the [KB_RETRIEVED] entry that
    [AuditLog.findOne] answers for the ticket and the run which still
    belong to a stored article; without such an entry there are none.
    Reading them changes nothing. *)
Theorem getArticlesFromLogs_ids (ticketId : ObjectId) (traceId : string) (w : World) :
  exists ids,
    AgentService._getArticlesFromLogs ticketId traceId w = (Ok ids, w)
    /\ match fst (Db.AuditLog_findOne ticketId traceId "KB_RETRIEVED" w) with
       | Ok (Some log) =>
           In log (auditLogs w)
           /\ match AuditLog.meta log with
              | MetaKB _ _ articleIds _ =>
                  forall i, In i ids
                            <-> In i articleIds
                                /\ exists a, In a (articles w) /\ Article._id a = i
              | _ => ids = []
              end
       | _ => ids = []
       end.
Proof.
  unfold AgentService._getArticlesFromLogs.
  unfold bind at 1.
  destruct (Db.AuditLog_findOne ticketId traceId "KB_RETRIEVED" w) as [r w0] eqn:Hfind.
  assert (Hw : w0 = w) by (unfold Db.AuditLog_findOne, gets in Hfind; congruence).
  subst w0.
  destruct r as [[log|]|e].
  - destruct (AuditLog_findOne_some _ _ _ _ _ Hfind) as (Hin & _).
    cbn [option_map fst].
    destruct (AuditLog.meta log) as [| | q n articleIds titles | | | | | | |];
      try (exists []; split; [reflexivity|split; [exact Hin|reflexivity]]).
    unfold bind, Db.Article_findByIds, gets, ret.
    eexists. split; [reflexivity|]. split; [exact Hin|].
    intros i. rewrite in_map_iff. split.
    + intros (a & Hid & Hf). apply filter_In in Hf. destruct Hf as [Hf Hex].
      apply existsb_exists in Hex. destruct Hex as (j & Hj & Hjj).
      apply Nat.eqb_eq in Hjj. split.
      * rewrite <- Hid, Hjj. exact Hj.
      * exists a. split; [exact Hf|exact Hid].
    + intros (Hi & a & Ha & Hid). exists a. split; [exact Hid|].
      apply filter_In. split; [exact Ha|].
      apply existsb_exists. exists i. split; [exact Hi|].
      apply Nat.eqb_eq. exact Hid.
  - exists []. split; reflexivity.
  - unfold Db.AuditLog_findOne, gets in Hfind. discriminate.
Qed.

(** The articles read back, as a run of the method. *)
Lemma getArticlesFromLogs_reads ticketId traceId w :
  exists ids, AgentService._getArticlesFromLogs ticketId traceId w = (Ok ids, w).
Proof.
  unfold AgentService._getArticlesFromLogs, bind, Db.AuditLog_findOne, gets.
  destruct (option_map AuditLog.meta _) as [[| | q n articleIds titles | | | | | | |]|];
    eexists; reflexivity.
Qed.

(** X6: without an [AGENT_CLASSIFIED] entry for the ticket under the run
    id, the execute phase throws the type error of reading a property of
    [null], and it has changed nothing: no suggestion is stored and the
    ticket is not saved. *)
Theorem executeDecision_without_classification
    (this : AgentService.t) (ticket : Ticket.t) (decision : Decision.t)
    (traceId : string) (w : World) :
  Db.AuditLog_findOne (Ticket._id ticket) traceId "AGENT_CLASSIFIED" w = (Ok None, w) ->
  AgentService._executeDecision this ticket decision traceId w
  = (Throw (mkError "TypeError"
              "Cannot read properties of null (reading 'predictedCategory')"), w).
Proof.
  intros Hfind.
  unfold AgentService._executeDecision.
  unfold AgentService._getClassificationFromLogs.
  unfold bind at 1. unfold bind at 1. rewrite Hfind. unfold ret at 1.
  destruct (getArticlesFromLogs_reads (Ticket._id ticket) traceId w) as [ids Hids].
  unfold bind at 1. rewrite Hids.
  unfold bind at 1. rewrite getDraftFromLogs_run.
  reflexivity.
Qed.

Lemma executeDecision_without_classification_witness :
  AgentService._executeDecision Fixture.service Fixture.passwordTicket
    (AgentService.decision (Config.mk true 0.78 None) 0.9) "run-0"
    (Fixture.world Fixture.passwordTicket)
  = (Throw (mkError "TypeError"
              "Cannot read properties of null (reading 'predictedCategory')"),
     Fixture.world Fixture.passwordTicket).
Proof.
  apply executeDecision_without_classification. reflexivity.
Defined.

(** ** The system user *)

(** X8: [_getSystemUserId] creates the system user at most once: it
    always returns, the user it names is stored under the address
    [system@helpdesk.local], and a second call returns the same id and
    stores nothing more. *)
Theorem getSystemUserId_idempotent (w : World) :
  exists i w1,
    AgentService._getSystemUserId w = (Ok i, w1)
    /\ AgentService._getSystemUserId w1 = (Ok i, w1)
    /\ (exists u, In u (users w1) /\ User._id u = i
                  /\ User.email u = "system@helpdesk.local")
    /\ (users w1 = users w
        \/ users w1
           = (users w ++ [User.mk i "AI Assistant" "system@helpdesk.local" User.agent])%list).
Proof.
  destruct (find (fun u => String.eqb (User.email u) "system@helpdesk.local") (users w))
    as [u|] eqn:Hfind.
  - assert (Hrun : AgentService._getSystemUserId w = (Ok (User._id u), w)).
    { unfold AgentService._getSystemUserId, bind, Db.User_findByEmail, gets.
      rewrite Hfind. reflexivity. }
    exists (User._id u), w.
    split; [exact Hrun|]. split; [exact Hrun|].
    split; [|left; reflexivity].
    apply find_some in Hfind. destruct Hfind as [Hin He].
    apply String.eqb_eq in He. exists u. auto.
  - set (su := User.mk (nextId w) "AI Assistant" "system@helpdesk.local" User.agent).
    exists (nextId w), (set_users (users w ++ [su])%list (set_nextId (S (nextId w)) w)).
    split.
    { unfold AgentService._getSystemUserId, bind, Db.User_findByEmail, gets.
      rewrite Hfind. reflexivity. }
    split.
    { unfold AgentService._getSystemUserId, bind, Db.User_findByEmail, gets.
      cbn [users set_users set_nextId].
      rewrite (find_app_None _ _ _ Hfind). reflexivity. }
    split; [|right; reflexivity].
    exists su. split; [apply in_or_app; right; left; reflexivity|]. split; reflexivity.
Qed.

(** X9: the system user is created with the role [agent].  In a
    deployment with no agent-role user and no system user yet, the user
    that [_getSystemUserId] creates is from then on the one that
    [User.findOne({ role: 'agent' })] returns, that is, the one the
    execute phase assigns tickets to. *)
Theorem system_user_becomes_the_agent (w : World) :
  find (fun u => String.eqb (User.email u) "system@helpdesk.local") (users w) = None ->
  find User.is_agent (users w) = None ->
  exists i w1,
    AgentService._getSystemUserId w = (Ok i, w1)
    /\ Db.User_findAgent w1
       = (Ok (Some (User.mk i "AI Assistant" "system@helpdesk.local" User.agent)), w1).
Proof.
  intros Hmail Hagent.
  unfold AgentService._getSystemUserId.
  unfold bind at 1. unfold Db.User_findByEmail, gets. rewrite Hmail.
  unfold bind, newObjectId, Db.User_save, modify, ret.
  eexists. eexists. split; [reflexivity|].
  unfold Db.User_findAgent, gets. cbn [users set_users set_nextId].
  rewrite (find_app_None _ _ _ Hagent). reflexivity.
Qed.

Lemma system_user_becomes_the_agent_witness :
  let w :=
    mkWorld [] [] []
      [ User.mk 1 "Admin User" "admin@helpdesk.local" User.admin;
        User.mk 3 "Regular User" "user@helpdesk.local" User.user ]
      [] [] 100 0 [] in
  exists i w1,
    AgentService._getSystemUserId w = (Ok i, w1)
    /\ Db.User_findAgent w1
       = (Ok (Some (User.mk i "AI Assistant" "system@helpdesk.local" User.agent)), w1).
Proof.
  cbv zeta. apply system_user_becomes_the_agent; reflexivity.
Defined.

(** ** The execute phase on the verdict [assign_human] *)

Lemma fallbackDraft_not_empty : String.eqb AgentService.fallbackDraft "" = false.
Proof. reflexivity. Qed.

(** The draft read back is not empty when no stored draft is. *)
Lemma getDraftFromLogs_not_empty ticketId traceId w :
  Forall (fun s => AgentSuggestion.draftReply s <> "") (suggestions w) ->
  exists draft,
    AgentService._getDraftFromLogs ticketId traceId w = (Ok draft, w)
    /\ String.eqb draft "" = false.
Proof.
  intros Hall. rewrite getDraftFromLogs_run.
  eexists. split; [reflexivity|].
  destruct (find _ (auditLogs w)); [|reflexivity].
  destruct (find _ (rev (suggestions w))) as [s|] eqn:Hfind; [|reflexivity].
  apply find_some in Hfind. destruct Hfind as [Hin _].
  apply in_rev in Hin. rewrite Forall_forall in Hall.
  apply String.eqb_neq. apply Hall. exact Hin.
Qed.

(** X10: on the verdict [assign_human], with the classification of the
    run on record, the execute phase returns: the ticket waits for a
    human, it is assigned to the first agent-role user of the collection
    (and keeps its assignee when there is none), no reply is added and no
    user is created; the suggestion it stores carries the recorded
    category and confidence, is not marked auto-closed, and is linked
    from the ticket. *)
Theorem executeDecision_assign_human
    (this : AgentService.t) (ticket : Ticket.t) (decision : Decision.t)
    (traceId : string) (w : World) (log : AuditLog.t)
    (original predicted : Category) (conf : float) (info : ModelInfo) :
  Decision.action decision = assign_human ->
  Db.AuditLog_findOne (Ticket._id ticket) traceId "AGENT_CLASSIFIED" w = (Ok (Some log), w) ->
  AuditLog.meta log = MetaClassified original predicted conf info ->
  PrimFloat.leb 0 conf && PrimFloat.leb conf 1 = true ->
  Forall (fun s => AgentSuggestion.draftReply s <> "") (suggestions w) ->
  enum_has (AgentService.AuditLog_action this) "ASSIGNED_TO_HUMAN" = true ->
  exists ticket' suggestion w',
    AgentService._executeDecision this ticket decision traceId w = (Ok ticket', w')
    /\ Ticket.status ticket' = waiting_human
    /\ Ticket.assignee ticket'
       = match find User.is_agent (users w) with
         | Some agent => Some (User._id agent)
         | None => Ticket.assignee ticket
         end
    /\ Ticket.replies ticket' = Ticket.replies ticket
    /\ Ticket.agentSuggestionId ticket' = Some (AgentSuggestion._id suggestion)
    /\ users w' = users w
    /\ suggestions w' = (suggestions w ++ [suggestion])%list
    /\ AgentSuggestion.autoClosed suggestion = false
    /\ AgentSuggestion.predictedCategory suggestion = predicted
    /\ AgentSuggestion.confidence suggestion = conf
    /\ tickets w'
       = map (fun t => if Ticket._id t =? Ticket._id ticket then ticket' else t) (tickets w).
Proof.
  intros Hact Hfind Hmeta Hconf Hdrafts Henum.
  unfold AgentService._executeDecision, AgentService._getClassificationFromLogs.
  unfold bind at 1. unfold bind at 1. rewrite Hfind. unfold ret at 1.
  cbn [option_map]. rewrite Hmeta.
  destruct (getArticlesFromLogs_reads (Ticket._id ticket) traceId w) as [ids Hids].
  unfold bind at 1. rewrite Hids.
  destruct (getDraftFromLogs_not_empty (Ticket._id ticket) traceId w Hdrafts)
    as (draft & Hdraft & Hne).
  unfold bind at 1. rewrite Hdraft.
  unfold bind at 1. unfold newObjectId.
  unfold bind at 1. unfold Db.AgentSuggestion_save, Db.AgentSuggestion_validate.
  cbn [AgentSuggestion.draftReply AgentSuggestion.confidence].
  rewrite Hne, Hconf. cbn [negb]. unfold modify.
  rewrite Hact.
  unfold bind at 1. unfold bind at 1. unfold bind at 1.
  unfold Db.User_findAgent, gets.
  rewrite logAudit_accepted by exact Henum.
  unfold bind at 1. unfold console_info, emit, modify. unfold ret at 1.
  unfold bind, Db.Ticket_save, modify, ret.
  eexists.
  exists (AgentSuggestion.mk (nextId w) (Ticket._id ticket) predicted ids draft conf false
            info).
  eexists. split; [reflexivity|].
  cbn [users suggestions tickets set_users set_suggestions set_nextId set_auditLogs
       set_effects set_tickets].
  destruct (find User.is_agent (users w)) as [agent|];
    destruct ticket; cbn; repeat split; reflexivity.
Qed.

Lemma executeDecision_assign_human_witness :
  let ticket := Fixture.passwordTicket in
  let w :=
    set_auditLogs
      [AuditLog.mk (Some 21) "run-0" "system" "AGENT_CLASSIFIED"
         (MetaClassified other tech 0.7 (mkModelInfo "stub" "rule-based" "1.0" 0))]
      (Fixture.world ticket) in
  exists ticket' suggestion w',
    AgentService._executeDecision Fixture.service ticket
      (AgentService.decision (Config.mk true 0.78 None) 0.7) "run-0" w = (Ok ticket', w')
    /\ Ticket.status ticket' = waiting_human
    /\ Ticket.assignee ticket' = Some 2
    /\ AgentSuggestion.autoClosed suggestion = false
    /\ suggestions w' = [suggestion].
Proof.
  cbv zeta.
  destruct (executeDecision_assign_human Fixture.service Fixture.passwordTicket
              (AgentService.decision (Config.mk true 0.78 None) 0.7) "run-0"
              (set_auditLogs
                 [AuditLog.mk (Some 21) "run-0" "system" "AGENT_CLASSIFIED"
                    (MetaClassified other tech 0.7 (mkModelInfo "stub" "rule-based" "1.0" 0))]
                 (Fixture.world Fixture.passwordTicket))
              _ other tech 0.7%float (mkModelInfo "stub" "rule-based" "1.0" 0)
              eq_refl eq_refl eq_refl eq_refl (Forall_nil _) eq_refl)
    as (ticket' & suggestion & w' & Hrun & Hst & Has & _ & _ & _ & Hsug & Hauto & _).
  exists ticket', suggestion, w'.
  split; [exact Hrun|]. split; [exact Hst|]. split; [exact Has|].
  split; [exact Hauto|exact Hsug].
Defined.

(** ** The background triage of a new ticket *)

(** X11: the callback that the creation route schedules never throws,
    whatever the service, the ticket and the world: an error of the
    triage ends as one [Auto-triage failed] console line.  With an
    [AuditLog] schema that lists neither [TRIAGE_STARTED] nor
    [TRIAGE_FAILED], as the repository's, that is all it does: tickets,
    suggestions and audit log are as they were. *)
Theorem autoTriage_never_throws
    (agentService : AgentService.t) (ticket : Ticket.t) (traceId : string) (w : World) :
  exists w',
    TicketRoutes.autoTriage agentService ticket traceId w = (Ok tt, w')
    /\ (forall e w1,
          AgentService.triageTicket agentService (Ticket._id ticket) (Some traceId) w
          = (Throw e, w1) ->
          w' = set_effects
                 (effects w1
                  ++ [Console "error" traceId "Auto-triage failed" (Some (message e)) None])%list
                 w1)
    /\ (enum_has (AgentService.AuditLog_action agentService) "TRIAGE_STARTED" = false ->
        enum_has (AgentService.AuditLog_action agentService) "TRIAGE_FAILED" = false ->
        tickets w' = tickets w /\ suggestions w' = suggestions w
        /\ auditLogs w' = auditLogs w
        /\ exists e, last (effects w') (SetTimeout 0)
                     = Console "error" traceId "Auto-triage failed" (Some e) None).
Proof.
  unfold TicketRoutes.autoTriage, try_catch.
  unfold bind at 1.
  destruct (AgentService.triageTicket agentService (Ticket._id ticket) (Some traceId) w)
    as [[result|e] w1] eqn:Hrun.
  - exists w1. unfold ret. split; [reflexivity|]. split.
    + intros e w2 H. discriminate.
    + intros Hs Hf.
      destruct (triageTicket_never_completes agentService (Ticket._id ticket)
                  (Some traceId) w Hs Hf) as (e & w2 & H & _).
      rewrite H in Hrun. discriminate.
  - unfold console_error, emit, modify.
    eexists. split; [reflexivity|]. split.
    + intros e' w2 H. injection H as He Hw. subst. reflexivity.
    + intros Hs Hf.
      destruct (triageTicket_never_completes agentService (Ticket._id ticket)
                  (Some traceId) w Hs Hf) as (e' & w2 & H & Ht & Hsg & Hl).
      rewrite H in Hrun. injection Hrun as He Hw. subst.
      destruct w1; cbn in *. repeat (split; [assumption|]).
      exists (message e). apply last_last.
Qed.

(** ** Routes: running a handler *)

Lemma authorize_allows {A} (roles : list User.Role) (user : User.t) :
  existsb (Auth.Role_eqb (User.role user)) roles = true ->
  @Auth.authorize A roles user = None.
Proof.
  unfold Auth.authorize. intros H. rewrite H. reflexivity.
Qed.

Lemma handle_Ok {A} traceId failureLog failure (body : M (Http.t A)) w response w' :
  body w = (Ok response, w') ->
  Routes.handle None traceId failureLog failure body w = (response, w').
Proof.
  unfold Routes.handle. intros H. rewrite H. reflexivity.
Qed.

Lemma handle_Throw {A} traceId failureLog failure (body : M (Http.t A)) w e w' :
  body w = (Throw e, w') ->
  Routes.handle None traceId failureLog failure body w
  = (Http.fail 500 failure,
     set_effects
       (effects w' ++ [Console "error" traceId failureLog (Some (message e)) None])%list w').
Proof.
  unfold Routes.handle. intros H. rewrite H. reflexivity.
Qed.

Lemma audit_accepted (this : Routes.t) ticketId traceId actor action meta w :
  enum_has auditLogSchema_actor actor = true ->
  enum_has (Routes.AuditLog_action this) action = true ->
  Routes.audit this ticketId traceId actor action meta w
  = (Ok tt,
     set_auditLogs
       (auditLogs w
        ++ [AuditLog.mk ticketId traceId actor action (Routes.mixed this meta)])%list w).
Proof.
  intros Hactor Haction. unfold Routes.audit, Db.AuditLog_save.
  cbn [AuditLog.actor AuditLog.action]. rewrite Hactor, Haction. reflexivity.
Qed.

Lemma audit_rejected (this : Routes.t) ticketId traceId actor action meta w :
  enum_has auditLogSchema_actor actor = true ->
  enum_has (Routes.AuditLog_action this) action = false ->
  Routes.audit this ticketId traceId actor action meta w
  = (Throw (Db.enumError "AuditLog" "action" action), w).
Proof.
  intros Hactor Haction. unfold Routes.audit, Db.AuditLog_save.
  cbn [AuditLog.actor AuditLog.action]. rewrite Hactor, Haction. reflexivity.
Qed.

(** Loading a ticket again after it was saved. *)
Lemma find_saved_ticket (saved : Ticket.t) (l : list Ticket.t) (stored : Ticket.t) :
  find (fun t => Ticket._id t =? Ticket._id saved) l = Some stored ->
  find (fun t => Ticket._id t =? Ticket._id saved)
    (map (fun t => if Ticket._id t =? Ticket._id saved then saved else t) l)
  = Some saved.
Proof.
  induction l as [|a l IH]; simpl; intros H.
  - discriminate.
  - destruct (Ticket._id a =? Ticket._id saved) eqn:E.
    + simpl. rewrite Nat.eqb_refl. reflexivity.
    + simpl. rewrite E. apply IH. exact H.
Qed.

(** ** Routes whose audit action the schema does not list *)

(** X12: with an [AuditLog] schema that does not list [TICKET_ASSIGNED]
    (the repository's does not), an assignment request that passes every
    check is answered 500 [Failed to assign ticket], yet the assignment
    has been stored: the ticket has the new assignee and the status
    [waiting_human].  No audit entry records it. *)
Theorem post_assign_stored_but_answered_500
    (this : Routes.t) (user : User.t) (ticketId assigneeId : ObjectId)
    (req_traceId : string) (w : World) (ticket : Ticket.t) (assignee : User.t) :
  existsb (Auth.Role_eqb (User.role user)) [User.agent; User.admin] = true ->
  find (fun t => Ticket._id t =? ticketId) (tickets w) = Some ticket ->
  find (fun u => User._id u =? assigneeId) (users w) = Some assignee ->
  existsb (Auth.Role_eqb (User.role assignee)) [User.agent; User.admin] = true ->
  enum_has (Routes.AuditLog_action this) "TICKET_ASSIGNED" = false ->
  let out := Routes.post_assign this user ticketId assigneeId req_traceId w in
  let saved := Ticket.set_status waiting_human (Ticket.set_assignee assigneeId ticket) in
  fst out = Http.fail 500 "Failed to assign ticket"
  /\ tickets (snd out)
     = map (fun t => if Ticket._id t =? Ticket._id ticket then saved else t) (tickets w)
  /\ find (fun t => Ticket._id t =? ticketId) (tickets (snd out)) = Some saved
  /\ auditLogs (snd out) = auditLogs w
  /\ enum_has auditLogSchema_action "TICKET_ASSIGNED" = false.
Proof.
  intros Hauth Hfind Hassignee Hrole Henum out saved.
  assert (Hid : Ticket._id ticket = ticketId).
  { apply find_some in Hfind. destruct Hfind as [_ H]. apply Nat.eqb_eq. exact H. }
  subst out. unfold Routes.post_assign.
  rewrite (authorize_allows _ _ Hauth).
  erewrite handle_Throw.
  2:{ unfold bind at 1. unfold Db.Ticket_findById, gets. rewrite Hfind.
      unfold bind at 1. unfold Store.User_findById, gets. rewrite Hassignee, Hrole.
      cbn [negb].
      unfold bind at 1. unfold Db.Ticket_save, modify.
      unfold bind at 1. rewrite audit_rejected by (exact Henum || reflexivity).
      reflexivity. }
  cbn [fst snd]. split; [reflexivity|].
  split; [destruct w; reflexivity|].
  split.
  - cbn [tickets set_effects set_tickets].
    rewrite <- Hid.
    change (Ticket._id ticket) with (Ticket._id saved).
    apply find_saved_ticket with (stored := ticket).
    cbn [Ticket._id saved Ticket.set_status Ticket.set_assignee].
    rewrite Hid. exact Hfind.
  - split; [destruct w; reflexivity|reflexivity].
Qed.

Lemma post_assign_stored_but_answered_500_witness :
  let w := Fixture.world (Fixture.refundTicket open) in
  let out := Routes.post_assign fixtureRoutes (User.mk 1 "Admin User" "admin@helpdesk.local" User.admin)
               20 2 "req-1" w in
  fst out = Http.fail 500 "Failed to assign ticket"
  /\ map Ticket.assignee (tickets (snd out)) = [Some 2]
  /\ map Ticket.status (tickets (snd out)) = [waiting_human]
  /\ auditLogs (snd out) = [].
Proof.
  cbv zeta.
  destruct (post_assign_stored_but_answered_500 fixtureRoutes
              (User.mk 1 "Admin User" "admin@helpdesk.local" User.admin) 20 2 "req-1"
              (Fixture.world (Fixture.refundTicket open)) (Fixture.refundTicket open)
              (User.mk 2 "Support Agent" "agent@helpdesk.local" User.agent)
              eq_refl eq_refl eq_refl eq_refl eq_refl)
    as (Hres & Htickets & _ & Hlogs & _).
  split; [exact Hres|]. rewrite Htickets, Hlogs. repeat split.
Defined.

(** The configuration the update route works on, and the one it saves. *)
Lemma put_config_body_run (this : Routes.t) (user : User.t)
    (autoCloseEnabled : option bool) (confidenceThreshold : option float)
    (slaHours : option nat) (req_traceId : string) (w : World) :
  let old := match hd_error (configs w) with
             | Some c => c
             | None => Routes.schemaDefaultConfig
             end in
  let updated :=
    Config.mk
      (match autoCloseEnabled with Some v => v | None => Config.autoCloseEnabled old end)
      (match confidenceThreshold with
       | Some v => v
       | None => Config.confidenceThreshold old
       end)
      (match slaHours with Some v => Some v | None => Config.slaHours old end) in
  existsb (Auth.Role_eqb (User.role user)) [User.admin] = true ->
  match confidenceThreshold with
  | Some x => PrimFloat.leb 0 x && PrimFloat.leb x 1
  | None => true
  end = true ->
  match slaHours with
  | Some h => (1 <=? h) && (h <=? 168)
  | None => true
  end = true ->
  Store.Config_validate old = None ->
  Store.Config_validate updated = None
  /\ Routes.put_config this user autoCloseEnabled confidenceThreshold slaHours req_traceId w
     = Routes.handle None req_traceId "Config update failed" "Failed to update configuration"
         (Routes.audit this None req_traceId "agent" "CONFIG_UPDATED"
            (ConfigUpdated (User._id user) old updated) ;;
          console_info req_traceId "Config updated" ;;
          ret (Http.ok updated))
         (set_configs (updated :: tl (configs w)) w).
Proof.
  intros old updated Hauth Hthreshold Hsla Hold.
  assert (Hvalid : Store.Config_validate updated = None).
  { unfold Store.Config_validate in *. subst updated. cbn [Config.confidenceThreshold].
    destruct confidenceThreshold as [x|]; [rewrite Hthreshold; reflexivity|exact Hold]. }
  split; [exact Hvalid|].
  unfold Routes.put_config. rewrite (authorize_allows _ _ Hauth).
  unfold Routes.handle. rewrite Hthreshold, Hsla. cbn [andb negb].
  unfold bind at 1. unfold Db.Config_findOne, gets.
  fold old. fold updated.
  unfold bind at 1. unfold Store.Config_save. rewrite Hvalid. unfold modify.
  assert (Hstore : (if match hd_error (configs w) with Some _ => true | None => false end
                    then updated :: tl (configs w)
                    else (configs w ++ [updated])%list)
                   = updated :: tl (configs w)).
  { destruct (configs w); reflexivity. }
  rewrite Hstore. reflexivity.
Qed.

(** X13: with an [AuditLog] schema that does not list [CONFIG_UPDATED]
    (the repository's does not), a configuration update by an
    administrator that passes validation is answered 500 [Failed to
    update configuration], yet the new configuration has been stored and
    is the one the decision step reads from then on.  A field that the
    request leaves out keeps its stored value, or its schema default
    (auto-close enabled, threshold 0.78, 24 hours) when nothing was
    stored. *)
Theorem put_config_stored_but_answered_500
    (this : Routes.t) (user : User.t)
    (autoCloseEnabled : option bool) (confidenceThreshold : option float)
    (slaHours : option nat) (req_traceId : string) (w : World) :
  let old := match hd_error (configs w) with
             | Some c => c
             | None => Routes.schemaDefaultConfig
             end in
  let updated :=
    Config.mk
      (match autoCloseEnabled with Some v => v | None => Config.autoCloseEnabled old end)
      (match confidenceThreshold with
       | Some v => v
       | None => Config.confidenceThreshold old
       end)
      (match slaHours with Some v => Some v | None => Config.slaHours old end) in
  let out :=
    Routes.put_config this user autoCloseEnabled confidenceThreshold slaHours req_traceId w in
  existsb (Auth.Role_eqb (User.role user)) [User.admin] = true ->
  match confidenceThreshold with
  | Some x => PrimFloat.leb 0 x && PrimFloat.leb x 1
  | None => true
  end = true ->
  match slaHours with
  | Some h => (1 <=? h) && (h <=? 168)
  | None => true
  end = true ->
  Store.Config_validate old = None ->
  enum_has (Routes.AuditLog_action this) "CONFIG_UPDATED" = false ->
  fst out = Http.fail 500 "Failed to update configuration"
  /\ configs (snd out) = updated :: tl (configs w)
  /\ auditLogs (snd out) = auditLogs w
  /\ (forall agentService, effectiveConfig agentService (snd out) = updated)
  /\ enum_has auditLogSchema_action "CONFIG_UPDATED" = false.
Proof.
  intros old updated out Hauth Hthreshold Hsla Hold Henum.
  destruct (put_config_body_run this user autoCloseEnabled confidenceThreshold slaHours
              req_traceId w Hauth Hthreshold Hsla Hold) as [_ Hrun].
  fold old in Hrun. fold updated in Hrun.
  subst out. rewrite Hrun.
  erewrite handle_Throw.
  2:{ unfold bind at 1. rewrite audit_rejected by (exact Henum || reflexivity).
      reflexivity. }
  cbn [fst snd]. split; [reflexivity|].
  split; [destruct w; reflexivity|].
  split; [destruct w; reflexivity|].
  split; [|reflexivity].
  intros agentService. unfold effectiveConfig. destruct w; reflexivity.
Qed.

Lemma put_config_stored_but_answered_500_witness :
  let w := Fixture.world (Fixture.refundTicket open) in
  let out :=
    Routes.put_config fixtureRoutes (User.mk 1 "Admin User" "admin@helpdesk.local" User.admin)
      (Some false) None None "req-1" w in
  fst out = Http.fail 500 "Failed to update configuration"
  /\ configs (snd out) = [Config.mk false 0.78 (Some 24)].
Proof.
  cbv zeta.
  destruct (put_config_stored_but_answered_500 fixtureRoutes
              (User.mk 1 "Admin User" "admin@helpdesk.local" User.admin)
              (Some false) None None "req-1" (Fixture.world (Fixture.refundTicket open))
              eq_refl eq_refl eq_refl eq_refl eq_refl)
    as (Hres & Hconfigs & _).
  split; [exact Hres|]. rewrite Hconfigs. reflexivity.
Defined.

(** ** Reading the configuration *)

(** X14: when no configuration is stored, the route that reads it
    creates one from the environment, the same values the decision step
    falls back to, so that for a service with the same environment every
    decision is what it was before; a second read stores nothing more.
    When the threshold of the environment lies outside [0, 1], the
    validation of the schema rejects the document: the route answers 500
    and nothing is stored. *)
Theorem get_config_creates_environment_defaults
    (this : Routes.t) (agentService : AgentService.t) (user : User.t)
    (req_traceId : string) (w : World) :
  let out := Routes.get_config this user req_traceId w in
  configs w = [] ->
  Routes.AUTO_CLOSE_ENABLED this = AgentService.AUTO_CLOSE_ENABLED agentService ->
  Routes.CONFIDENCE_THRESHOLD this = AgentService.CONFIDENCE_THRESHOLD agentService ->
  match Store.Config_validate (Routes.createdConfig this) with
  | None =>
      fst out = Http.ok (Routes.createdConfig this)
      /\ configs (snd out) = [Routes.createdConfig this]
      /\ (forall confidence,
            AgentService.decision (effectiveConfig agentService (snd out)) confidence
            = AgentService.decision (effectiveConfig agentService w) confidence)
      /\ configs (snd (Routes.get_config this user req_traceId (snd out)))
         = configs (snd out)
  | Some e =>
      fst out = Http.fail 500 "Failed to fetch configuration"
      /\ configs (snd out) = []
  end.
Proof.
  intros out Hnone Henable Hthreshold.
  subst out. unfold Routes.get_config.
  destruct (Store.Config_validate (Routes.createdConfig this)) as [e|] eqn:Hvalid.
  - erewrite handle_Throw.
    2:{ unfold bind at 1. unfold Db.Config_findOne, gets. rewrite Hnone. cbn [hd_error].
        unfold bind at 1. unfold bind at 1. unfold Store.Config_save. rewrite Hvalid.
        reflexivity. }
    cbn [fst snd]. split; [reflexivity|]. destruct w; cbn in *. exact Hnone.
  - erewrite handle_Ok.
    2:{ unfold bind at 1. unfold Db.Config_findOne, gets. rewrite Hnone. cbn [hd_error].
        unfold bind at 1. unfold bind at 1. unfold Store.Config_save. rewrite Hvalid.
        unfold modify. unfold ret at 1.
        unfold bind at 1. unfold console_info, emit, modify. unfold ret.
        reflexivity. }
    cbn [fst snd]. split; [reflexivity|].
    split; [destruct w; cbn in *; subst; reflexivity|].
    split.
    + intros confidence. unfold effectiveConfig.
      rewrite Hnone.
      replace (configs _) with [Routes.createdConfig this]
        by (destruct w; cbn in *; subst; reflexivity).
      cbn [hd_error].
      unfold AgentService.decision, AgentService.shouldAutoClose, Routes.createdConfig,
        AgentService.defaultConfig.
      cbn [Config.autoCloseEnabled Config.confidenceThreshold].
      rewrite Henable, Hthreshold. reflexivity.
    + erewrite handle_Ok.
      2:{ unfold bind at 1. unfold Db.Config_findOne, gets.
          replace (configs _) with [Routes.createdConfig this]
            by (destruct w; cbn in *; subst; reflexivity).
          cbn [hd_error].
          unfold bind at 1. unfold ret at 1.
          unfold bind at 1. unfold console_info, emit, modify. unfold ret.
          reflexivity. }
      destruct w; reflexivity.
Qed.

Lemma get_config_creates_environment_defaults_witness :
  let out :=
    Routes.get_config fixtureRoutes (User.mk 3 "Regular User" "user@helpdesk.local" User.user)
      "req-1" (Fixture.world (Fixture.refundTicket open)) in
  fst out = Http.ok (Config.mk true 0.78 (Some 24))
  /\ configs (snd out) = [Config.mk true 0.78 (Some 24)].
Proof.
  cbv zeta.
  pose proof (get_config_creates_environment_defaults fixtureRoutes Fixture.service
                (User.mk 3 "Regular User" "user@helpdesk.local" User.user) "req-1"
                (Fixture.world (Fixture.refundTicket open)) eq_refl eq_refl eq_refl) as H.
  cbv zeta in H.
  change (Store.Config_validate (Routes.createdConfig fixtureRoutes))
    with (@None JsError) in H.
  destruct H as (Hres & Hconfigs & _).
  split; [exact Hres|exact Hconfigs].
Defined.

(** ** Reopening a ticket *)

(** X15: a resolved or closed ticket is reopened by staff or by its
    creator: the stored ticket gets the status [waiting_human] and
    nothing else about it changes, the response carries it, and one
    [TICKET_REOPENED] entry is written whose [previousStatus] is
    [resolved] even when the ticket was closed.  After that the manual
    triage route accepts the ticket again: its status guard no longer
    answers 400. *)
Theorem post_reopen_then_triage_allowed
    (this : Routes.t) (agentService : AgentService.t) (user : User.t)
    (ticketId : ObjectId) (req_traceId next_traceId : string) (w : World)
    (ticket : Ticket.t) :
  let out := Routes.post_reopen this user ticketId req_traceId w in
  let reopened := Ticket.set_status waiting_human ticket in
  find (fun t => Ticket._id t =? ticketId) (tickets w) = Some ticket ->
  (User.role user = User.user -> Ticket.createdBy ticket = User._id user) ->
  Ticket.status ticket = resolved \/ Ticket.status ticket = closed ->
  enum_has (Routes.AuditLog_action this) "TICKET_REOPENED" = true ->
  fst out = Http.ok reopened
  /\ tickets (snd out)
     = map (fun t => if Ticket._id t =? ticketId then reopened else t) (tickets w)
  /\ auditLogs (snd out)
     = (auditLogs w
        ++ [AuditLog.mk (Some ticketId) req_traceId
              (match User.role user with User.user => "user" | _ => "agent" end)
              "TICKET_REOPENED"
              (Routes.mixed this (TicketReopened (User._id user) resolved))])%list
  /\ (let next := AgentRoutes.post_triage agentService ticketId next_traceId (snd out) in
      Response.statusCode (fst next) = 200 \/ Response.statusCode (fst next) = 500).
Proof.
  intros out reopened Hfind Hperm Hstatus Henum.
  assert (Hid : Ticket._id ticket = ticketId).
  { apply find_some in Hfind. destruct Hfind as [_ H]. apply Nat.eqb_eq. exact H. }
  assert (Hguard : Auth.Role_eqb (User.role user) User.user
                   && negb (Ticket.createdBy ticket =? User._id user) = false).
  { destruct (User.role user) eqn:Hrole; try reflexivity.
    rewrite (Hperm eq_refl), Nat.eqb_refl. reflexivity. }
  assert (Hst : negb (existsb (Status_eqb (Ticket.status ticket)) [resolved; closed]) = false).
  { destruct Hstatus as [H|H]; rewrite H; reflexivity. }
  assert (Hactor : (if Auth.Role_eqb (User.role user) User.user then "user" else "agent")
                   = match User.role user with User.user => "user" | _ => "agent" end).
  { destruct (User.role user); reflexivity. }
  assert (Hreload :
            find (fun t => Ticket._id t =? Ticket._id reopened)
              (map (fun t => if Ticket._id t =? Ticket._id reopened then reopened else t)
                 (tickets w))
            = Some reopened).
  { apply find_saved_ticket with (stored := ticket).
    subst reopened. cbn [Ticket._id Ticket.set_status]. rewrite Hid. exact Hfind. }
  assert (Hrid : Ticket._id reopened = ticketId) by exact Hid.
  assert (Hout : out
                 = (Http.ok reopened,
                    set_effects
                      (effects w ++ [Console "info" req_traceId "Ticket reopened" None None])%list
                      (set_auditLogs
                         (auditLogs w
                          ++ [AuditLog.mk (Some ticketId) req_traceId
                                (match User.role user with
                                 | User.user => "user"
                                 | _ => "agent"
                                 end)
                                "TICKET_REOPENED"
                                (Routes.mixed this (TicketReopened (User._id user) resolved))])%list
                         (set_tickets
                            (map (fun t => if Ticket._id t =? ticketId then reopened else t)
                               (tickets w)) w)))).
  { subst out. unfold Routes.post_reopen.
    rewrite authorize_allows by (destruct (User.role user); reflexivity).
    apply handle_Ok.
    unfold bind at 1. unfold Db.Ticket_findById, gets. rewrite Hfind.
    rewrite Hguard, Hst.
    fold reopened.
    unfold bind at 1. unfold Db.Ticket_save, modify.
    unfold bind at 1. rewrite Hactor.
    rewrite audit_accepted by (exact Henum || (destruct (User.role user); reflexivity)).
    unfold bind at 1. unfold console_info, emit, modify.
    unfold bind at 1. unfold gets.
    cbn [tickets set_tickets set_auditLogs set_effects].
    rewrite Hreload. rewrite Hrid. unfold ret. destruct w; reflexivity. }
  rewrite Hout. cbn [fst snd].
  split; [reflexivity|]. split; [destruct w; reflexivity|]. split; [destruct w; reflexivity|].
  cbv zeta.
  match goal with
  | |- context [AgentRoutes.post_triage ?a ?b ?c ?d] =>
      assert (Hnext : exists response w1,
                 AgentRoutes.post_triage a b c d = (response, w1)
                 /\ (Response.statusCode response = 200
                     \/ Response.statusCode response = 500))
  end.
  { unfold AgentRoutes.post_triage, AgentRoutes.handle.
    unfold bind at 1. unfold Db.Ticket_findById, gets.
    cbn [tickets set_tickets set_auditLogs set_effects].
    rewrite Hrid in Hreload. rewrite Hreload.
    cbn [Ticket.status reopened Ticket.set_status existsb Status_eqb orb negb].
    match goal with
    | |- context [bind ?m ?k ?w0] => destruct (bind m k w0) as [[response|e] w1] eqn:Hnext
    end.
    - exists response, w1. split; [reflexivity|]. left.
      unfold bind at 1 in Hnext. unfold console_info, emit, modify in Hnext.
      unfold bind in Hnext.
      match type of Hnext with
      | context [AgentService.triageTicket ?a ?b ?c ?d] =>
          destruct (AgentService.triageTicket a b c d) as [[r|e] w2]
      end; [|discriminate].
      unfold ret in Hnext. injection Hnext as Hr _. subst response. reflexivity.
    - eexists. eexists. split; [reflexivity|]. right. reflexivity. }
  destruct Hnext as (response & w1 & Hnext & Hcode).
  rewrite Hnext. exact Hcode.
Qed.

Lemma post_reopen_then_triage_allowed_witness :
  let w := Fixture.world (Fixture.refundTicket closed) in
  let out :=
    Routes.post_reopen fixtureRoutes (User.mk 3 "Regular User" "user@helpdesk.local" User.user)
      20 "req-1" w in
  fst out = Http.ok (Fixture.refundTicket waiting_human)
  /\ map AuditLog.action (auditLogs (snd out)) = ["TICKET_REOPENED"]
  /\ Response.statusCode (fst (AgentRoutes.post_triage Fixture.service 20 "req-2" (snd out)))
     = 500.
Proof.
  cbv zeta.
  destruct (post_reopen_then_triage_allowed fixtureRoutes Fixture.service
              (User.mk 3 "Regular User" "user@helpdesk.local" User.user) 20 "req-1" "req-2"
              (Fixture.world (Fixture.refundTicket closed)) (Fixture.refundTicket closed)
              eq_refl (fun _ => eq_refl) (or_intror eq_refl) eq_refl)
    as (Hres & _ & Hlogs & _).
  split; [exact Hres|]. split; [rewrite Hlogs; reflexivity|].
  vm_compute. reflexivity.
Defined.

(** ** Editing a suggestion *)

Lemma find_map_stable {A} (p : A -> bool) (f : A -> A) (l : list A) :
  (forall x, In x l -> p (f x) = p x) ->
  find p (map f l) = option_map f (find p l).
Proof.
  induction l as [|a l IH]; intros H; simpl.
  - reflexivity.
  - rewrite (H a (or_introl eq_refl)).
    destruct (p a); [reflexivity|].
    apply IH. intros x Hx. apply H. right. exact Hx.
Qed.

Lemma isLength_not_empty (max : nat) (s : string) :
  Validator.isLength 1 max s = true -> String.eqb s "" = false.
Proof.
  destruct s; [discriminate|reflexivity].
Qed.

(** X16: an agent's edit of a suggestion that is not auto-closed
    replaces the stored draft by the trimmed text of the request and
    writes one [SUGGESTION_EDITED] entry with both lengths; no ticket is
    touched.  When the suggestion is the latest of its ticket, the edited
    text is what the execute phase of a later run reads back as the draft
    of that run, for every run that has recorded a draft. *)
Theorem put_suggestion_edit_is_read_back
    (this : Routes.t) (user : User.t) (suggestionId : ObjectId) (draftReply : string)
    (req_traceId : string) (w : World) (s : AgentSuggestion.t) :
  let edited := Validator.trim draftReply in
  let s' := Store.set_draftReply edited s in
  let out := Routes.put_suggestion this user suggestionId draftReply req_traceId w in
  existsb (Auth.Role_eqb (User.role user)) [User.agent; User.admin] = true ->
  Validator.isLength 1 5000 edited = true ->
  find (fun x => AgentSuggestion._id x =? suggestionId) (suggestions w) = Some s ->
  (forall x, In x (suggestions w) -> AgentSuggestion._id x = suggestionId -> x = s) ->
  AgentSuggestion.autoClosed s = false ->
  PrimFloat.leb 0 (AgentSuggestion.confidence s)
  && PrimFloat.leb (AgentSuggestion.confidence s) 1 = true ->
  enum_has (Routes.AuditLog_action this) "SUGGESTION_EDITED" = true ->
  fst out = Http.ok s'
  /\ suggestions (snd out)
     = map (fun x => if AgentSuggestion._id x =? suggestionId then s' else x) (suggestions w)
  /\ auditLogs (snd out)
     = (auditLogs w
        ++ [AuditLog.mk (Some (AgentSuggestion.ticketId s)) req_traceId "agent"
              "SUGGESTION_EDITED"
              (Routes.mixed this
                 (SuggestionEdited suggestionId (User._id user)
                    (String.length (AgentSuggestion.draftReply s))
                    (String.length edited)))])%list
  /\ tickets (snd out) = tickets w
  /\ (forall traceId,
        fst (Db.AgentSuggestion_latest (AgentSuggestion.ticketId s) w) = Ok (Some s) ->
        fst (Db.AuditLog_findOne (AgentSuggestion.ticketId s) traceId "DRAFT_GENERATED" w)
        <> Ok None ->
        fst (AgentService._getDraftFromLogs (AgentSuggestion.ticketId s) traceId (snd out))
        = Ok edited).
Proof.
  intros edited s' out Hauth Hlen Hfind Huniq Hopen Hconf Henum.
  assert (Hid : AgentSuggestion._id s = suggestionId).
  { apply find_some in Hfind. destruct Hfind as [_ H]. apply Nat.eqb_eq. exact H. }
  assert (Hout : out
                 = (Http.ok s',
                    set_effects
                      (effects w
                       ++ [Console "info" req_traceId "Agent suggestion edited" None None])%list
                      (set_auditLogs
                         (auditLogs w
                          ++ [AuditLog.mk (Some (AgentSuggestion.ticketId s)) req_traceId
                                "agent" "SUGGESTION_EDITED"
                                (Routes.mixed this
                                   (SuggestionEdited suggestionId (User._id user)
                                      (String.length (AgentSuggestion.draftReply s))
                                      (String.length edited)))])%list
                         (set_suggestions
                            (map (fun x => if AgentSuggestion._id x =? suggestionId
                                           then s' else x) (suggestions w)) w)))).
  { subst out. unfold Routes.put_suggestion.
    rewrite (authorize_allows _ _ Hauth).
    apply handle_Ok.
    fold edited. rewrite Hlen. cbn [negb].
    unfold bind at 1. unfold Store.AgentSuggestion_findById, gets. rewrite Hfind.
    rewrite Hopen. fold s'.
    unfold bind at 1. unfold Store.AgentSuggestion_update, Db.AgentSuggestion_validate.
    cbn [AgentSuggestion.draftReply AgentSuggestion.confidence s' Store.set_draftReply].
    rewrite (isLength_not_empty _ _ Hlen), Hconf. cbn [negb]. unfold modify.
    unfold bind at 1.
    rewrite audit_accepted by (exact Henum || reflexivity).
    unfold bind at 1. unfold console_info, emit, modify. unfold ret.
    cbn [AgentSuggestion._id AgentSuggestion.ticketId s' Store.set_draftReply].
    rewrite Hid. destruct w; reflexivity. }
  rewrite Hout. cbn [fst snd].
  split; [reflexivity|]. split; [destruct w; reflexivity|]. split; [destruct w; reflexivity|].
  split; [destruct w; reflexivity|].
  intros traceId Hlatest Hlog.
  rewrite getDraftFromLogs_run. cbn [fst].
  cbn [auditLogs suggestions set_effects set_auditLogs set_suggestions].
  unfold Db.AuditLog_findOne, gets in Hlog. cbn [fst] in Hlog.
  destruct (find _ (auditLogs w)) as [log|] eqn:Hl; [|contradiction Hlog; reflexivity].
  rewrite (find_app_l _ _ _ _ Hl).
  unfold Db.AgentSuggestion_latest, gets in Hlatest. cbn [fst] in Hlatest.
  injection Hlatest as Hlatest.
  rewrite <- map_rev. rewrite find_map_stable.
  - rewrite Hlatest. cbn [option_map]. rewrite Hid, Nat.eqb_refl. reflexivity.
  - intros x Hx. apply in_rev in Hx.
    destruct (AgentSuggestion._id x =? suggestionId) eqn:E; [|reflexivity].
    apply Nat.eqb_eq in E. rewrite (Huniq x Hx E). reflexivity.
Qed.

Lemma put_suggestion_edit_is_read_back_witness :
  let s :=
    AgentSuggestion.mk 50 21 tech [] AgentService.fallbackDraft 0.7 false
      (mkModelInfo "stub" "rule-based" "1.0" 0) in
  let w :=
    set_auditLogs [AuditLog.mk (Some 21) "run-1" "system" "DRAFT_GENERATED" (MetaDraft 63 0
                     (mkModelInfo "stub" "template-based" "1.0" 0))]
      (set_suggestions [s] (Fixture.world Fixture.passwordTicket)) in
  let out :=
    Routes.put_suggestion fixtureRoutes
      (User.mk 2 "Support Agent" "agent@helpdesk.local" User.agent) 50
      "  Please use the reset link we just sent.  " "req-1" w in
  map AgentSuggestion.draftReply (suggestions (snd out))
  = ["Please use the reset link we just sent."]
  /\ fst (AgentService._getDraftFromLogs 21 "run-1" (snd out))
     = Ok "Please use the reset link we just sent.".
Proof.
  cbv zeta.
  set (s := AgentSuggestion.mk 50 21 tech [] AgentService.fallbackDraft 0.7 false
              (mkModelInfo "stub" "rule-based" "1.0" 0)).
  set (w := set_auditLogs _ _).
  assert (Huniq : forall x, In x (suggestions w) -> AgentSuggestion._id x = 50 -> x = s).
  { intros x [Hx|[]] _. symmetry. exact Hx. }
  destruct (put_suggestion_edit_is_read_back fixtureRoutes
              (User.mk 2 "Support Agent" "agent@helpdesk.local" User.agent) 50
              "  Please use the reset link we just sent.  " "req-1" w s
              eq_refl eq_refl eq_refl Huniq eq_refl eq_refl eq_refl)
    as (_ & Hsug & _ & _ & Hread).
  split.
  - rewrite Hsug. reflexivity.
  - apply (Hread "run-1"); [reflexivity|discriminate].
Defined.

(** ** Refused requests *)

Lemma handle_refusal {A} guard traceId failureLog failure (body : M (Http.t A)) w :
  (forall response w', body w = (Ok response, w') ->
                       clientError (Http.statusCode response) = true -> w' = w) ->
  let out := Routes.handle guard traceId failureLog failure body w in
  clientError (Http.statusCode (fst out)) = true -> snd out = w.
Proof.
  intros Hbody. unfold Routes.handle.
  destruct guard as [refusal|]; [reflexivity|].
  destruct (body w) as [[response|e] w'] eqn:Hrun; cbn [fst snd].
  - apply Hbody. reflexivity.
  - intros H. discriminate.
Qed.

(** A sequence that returned and ends in a response with status 200 was
    not refused. *)
Ltac ends_200 H Hc :=
  repeat (let a := fresh "a" in
          let w := fresh "w" in
          let H1 := fresh "H" in
          apply bind_inv_Ok in H; destruct H as (a & w & H1 & H));
  let Hr := fresh "Hr" in
  let Hw := fresh "Hw" in
  unfold ret in H; injection H as Hr Hw; rewrite <- Hr in Hc;
  vm_compute in Hc; discriminate Hc.

(** A guard that answered without doing anything. *)
Ltac answered H :=
  let Hr := fresh "Hr" in
  let Hw := fresh "Hw" in
  unfold ret in H; injection H as Hr Hw; symmetry; exact Hw.

Lemma authenticated_refusal {A} token (route : User.t -> World -> Http.t A * World) w :
  (forall user,
      clientError (Http.statusCode (fst (route user w))) = true -> snd (route user w) = w) ->
  let out := Routes.authenticated token route w in
  clientError (Http.statusCode (fst out)) = true -> sameCollections w (snd out).
Proof.
  intros Hroute. unfold Routes.authenticated.
  destruct (Auth.authenticate token w) as [refusal|user]; cbn [fst snd].
  - intros _. repeat split.
  - intros H. rewrite (Hroute user H). repeat split.
Qed.

(** X17: a request to the reply, assignment, reopening, closing,
    suggestion-edit or configuration-update route that is answered with a
    status code from 400 to 499 leaves every collection as it was: no
    document is stored or modified and no audit entry is written.  Such
    an answer comes from [authenticate] (401), from the role check
    (403), from the validation of the text, the status, the threshold or
    the hours of the request (400), from a document that is not found
    (404), or from a check of the ticket's owner or state or of the
    assignee (403, 400); each of them comes before the first write of its
    route.  Identifiers in the request are well-formed. *)
Theorem refused_requests_change_nothing
    (this : Routes.t) (token : Auth.Token) (req_traceId : string) (w : World) :
  (forall ticketId content status,
      let out :=
        Routes.authenticated token
          (fun user => Routes.post_reply this user ticketId content status req_traceId) w in
      clientError (Http.statusCode (fst out)) = true -> sameCollections w (snd out))
  /\ (forall ticketId assigneeId,
        let out :=
          Routes.authenticated token
            (fun user => Routes.post_assign this user ticketId assigneeId req_traceId) w in
        clientError (Http.statusCode (fst out)) = true -> sameCollections w (snd out))
  /\ (forall ticketId,
        let out :=
          Routes.authenticated token
            (fun user => Routes.post_reopen this user ticketId req_traceId) w in
        clientError (Http.statusCode (fst out)) = true -> sameCollections w (snd out))
  /\ (forall ticketId,
        let out :=
          Routes.authenticated token
            (fun user => Routes.post_close this user ticketId req_traceId) w in
        clientError (Http.statusCode (fst out)) = true -> sameCollections w (snd out))
  /\ (forall suggestionId draftReply,
        let out :=
          Routes.authenticated token
            (fun user => Routes.put_suggestion this user suggestionId draftReply
                           req_traceId) w in
        clientError (Http.statusCode (fst out)) = true -> sameCollections w (snd out))
  /\ (forall autoCloseEnabled confidenceThreshold slaHours,
        let out :=
          Routes.authenticated token
            (fun user => Routes.put_config this user autoCloseEnabled confidenceThreshold
                           slaHours req_traceId) w in
        clientError (Http.statusCode (fst out)) = true -> sameCollections w (snd out)).
Proof.
  split; [|split; [|split; [|split; [|split]]]].
  - intros ticketId content status. apply authenticated_refusal. intros user.
    unfold Routes.post_reply.
    apply handle_refusal. intros response w' H Hc.
    destruct (negb _); [answered H|].
    unfold bind at 1 in H. unfold Db.Ticket_findById, gets in H.
    destruct (find _ (tickets w)) as [ticket|]; [ends_200 H Hc|answered H].
  - intros ticketId assigneeId. apply authenticated_refusal. intros user.
    unfold Routes.post_assign.
    apply handle_refusal. intros response w' H Hc.
    unfold bind at 1 in H. unfold Db.Ticket_findById, gets in H.
    destruct (find _ (tickets w)) as [ticket|]; [|answered H].
    unfold bind at 1 in H. unfold Store.User_findById, gets in H.
    match type of H with
    | context [if ?b then _ else _] => destruct b
    end; [answered H|ends_200 H Hc].
  - intros ticketId. apply authenticated_refusal. intros user.
    unfold Routes.post_reopen.
    apply handle_refusal. intros response w' H Hc.
    unfold bind at 1 in H. unfold Db.Ticket_findById, gets in H.
    destruct (find _ (tickets w)) as [ticket|]; [|answered H].
    destruct (_ && _); [answered H|].
    destruct (negb _); [answered H|ends_200 H Hc].
  - intros ticketId. apply authenticated_refusal. intros user.
    unfold Routes.post_close.
    apply handle_refusal. intros response w' H Hc.
    unfold bind at 1 in H. unfold Db.Ticket_findById, gets in H.
    destruct (find _ (tickets w)) as [ticket|]; [ends_200 H Hc|answered H].
  - intros suggestionId draftReply. apply authenticated_refusal. intros user.
    unfold Routes.put_suggestion.
    apply handle_refusal. intros response w' H Hc.
    destruct (negb _); [answered H|].
    unfold bind at 1 in H. unfold Store.AgentSuggestion_findById, gets in H.
    destruct (find _ (suggestions w)) as [suggestion|]; [|answered H].
    destruct (AgentSuggestion.autoClosed suggestion); [answered H|ends_200 H Hc].
  - intros autoCloseEnabled confidenceThreshold slaHours.
    apply authenticated_refusal. intros user.
    unfold Routes.put_config.
    apply handle_refusal. intros response w' H Hc.
    destruct (negb _); [answered H|ends_200 H Hc].
Qed.

(** ** The status [triaged] *)

Section Keeps.

Context {A B : Type}.

Lemma keeps_ret (a : A) (good : A -> Prop) : good a -> keeps (ret a) good.
Proof.
  intros Ha w Hw. split; [exact Hw|]. intros a' H. injection H as <-. exact Ha.
Qed.

Lemma keeps_throw (e : JsError) (good : A -> Prop) : keeps (@throw A e) good.
Proof.
  intros w Hw. split; [exact Hw|]. intros a H. discriminate.
Qed.

Lemma keeps_bind (m : M A) (k : A -> M B) (good : A -> Prop) (good' : B -> Prop) :
  keeps m good -> (forall a, good a -> keeps (k a) good') -> keeps (bind m k) good'.
Proof.
  intros Hm Hk w Hw. unfold bind.
  destruct (Hm w Hw) as [Hw1 Hgood].
  destruct (m w) as [[a|e] w1]; cbn [fst snd] in *.
  - apply Hk; [apply Hgood; reflexivity|exact Hw1].
  - split; [exact Hw1|]. intros b H. discriminate.
Qed.

Lemma keeps_try_catch (m : M A) (h : JsError -> M A) (good : A -> Prop) :
  keeps m good -> (forall e, keeps (h e) good) -> keeps (try_catch m h) good.
Proof.
  intros Hm Hh w Hw. unfold try_catch.
  destruct (Hm w Hw) as [Hw1 Hgood].
  destruct (m w) as [[a|e] w1]; cbn [fst snd] in *.
  - split; [exact Hw1|exact Hgood].
  - apply Hh. exact Hw1.
Qed.

(** A computation that leaves the ticket collection alone. *)
Lemma keeps_frame (m : M A) :
  (forall w, tickets (snd (m w)) = tickets w) -> keeps m (fun _ => True).
Proof.
  intros H w Hw. split; [|trivial].
  unfold neverTriaged in *. rewrite H. exact Hw.
Qed.

Lemma keeps_weaken (m : M A) (good good' : A -> Prop) :
  keeps m good -> (forall a, good a -> good' a) -> keeps m good'.
Proof.
  intros Hm Himp w Hw. destruct (Hm w Hw) as [Hw1 Hgood].
  split; [exact Hw1|]. intros a Ha. apply Himp, Hgood, Ha.
Qed.

End Keeps.

Lemma keeps_Ticket_findById ticketId :
  keeps (Db.Ticket_findById ticketId)
    (fun found => forall t, found = Some t -> Ticket.status t <> triaged).
Proof.
  intros w Hw. split; [exact Hw|].
  unfold Db.Ticket_findById, gets. cbn [fst]. intros a H t Ht.
  injection H as H. subst a. apply find_some in Ht. destruct Ht as [Hin _].
  unfold neverTriaged in Hw. rewrite Forall_forall in Hw. apply Hw. exact Hin.
Qed.

Lemma keeps_Ticket_save ticket :
  Ticket.status ticket <> triaged -> keeps (Db.Ticket_save ticket) (fun _ => True).
Proof.
  intros Hst w Hw. split; [|trivial].
  unfold Db.Ticket_save, modify, neverTriaged in *. cbn [snd].
  replace (tickets (set_tickets _ w))
    with (map (fun t => if Ticket._id t =? Ticket._id ticket then ticket else t) (tickets w))
    by (destruct w; reflexivity).
  rewrite Forall_forall in *. intros t Ht.
  apply in_map_iff in Ht. destruct Ht as (t0 & Ht0 & Hin).
  destruct (Ticket._id t0 =? Ticket._id ticket); subst t; [exact Hst|apply Hw; exact Hin].
Qed.

Lemma keeps_AuditLog_save actions log : keeps (Db.AuditLog_save actions log) (fun _ => True).
Proof.
  apply keeps_frame. intros w. unfold Db.AuditLog_save.
  destruct (negb _); [reflexivity|]. destruct (negb _); [reflexivity|].
  destruct w; reflexivity.
Qed.

Lemma keeps_console_info traceId msg : keeps (console_info traceId msg) (fun _ => True).
Proof. apply keeps_frame. intros w. destruct w; reflexivity. Qed.

Lemma keeps_console_error traceId msg err :
  keeps (console_error traceId msg err) (fun _ => True).
Proof. apply keeps_frame. intros w. destruct w; reflexivity. Qed.

Lemma keeps_gets {A} (f : World -> A) : keeps (gets f) (fun _ => True).
Proof. apply keeps_frame. reflexivity. Qed.

Lemma keeps_logAudit this ticketId traceId actor action meta :
  keeps (AgentService._logAudit this ticketId traceId actor action meta) (fun _ => True).
Proof. apply keeps_AuditLog_save. Qed.

Lemma keeps_audit this ticketId traceId actor action meta :
  keeps (Routes.audit this ticketId traceId actor action meta) (fun _ => True).
Proof. apply keeps_AuditLog_save. Qed.

(** One step of a sequence whose value does not matter. *)
Ltac keeps_step lemma :=
  eapply keeps_bind; [apply lemma|intros ? _].

Lemma keeps_classifyTicket this ticket traceId :
  Ticket.status ticket <> triaged ->
  keeps (AgentService._classifyTicket this ticket traceId)
    (fun tc => Ticket.status (fst tc) <> triaged).
Proof.
  intros Hst. unfold AgentService._classifyTicket.
  keeps_step keeps_console_info.
  eapply keeps_bind with (good := fun t => Ticket.status t <> triaged).
  - destruct (Js.gt _ 0.7).
    + unfold Db.Ticket_save_category. destruct (predictedCategory _) as [c|s].
      * keeps_step keeps_Ticket_save; [exact Hst|]. apply keeps_ret. exact Hst.
      * apply keeps_throw.
    + apply keeps_ret. exact Hst.
  - intros ticket' Hst'.
    keeps_step keeps_logAudit. keeps_step keeps_console_info.
    apply keeps_ret. exact Hst'.
Qed.

Lemma keeps_retrieveKBArticles this ticket classification traceId :
  keeps (AgentService._retrieveKBArticles this ticket classification traceId)
    (fun _ => True).
Proof.
  unfold AgentService._retrieveKBArticles.
  keeps_step keeps_console_info. keeps_step @keeps_gets.
  keeps_step keeps_logAudit. keeps_step keeps_console_info.
  apply keeps_ret. trivial.
Qed.

Lemma keeps_draftReply this ticket articles traceId :
  keeps (AgentService._draftReply this ticket articles traceId) (fun _ => True).
Proof.
  unfold AgentService._draftReply.
  keeps_step keeps_console_info. keeps_step keeps_logAudit.
  keeps_step keeps_console_info. apply keeps_ret. trivial.
Qed.

Lemma keeps_makeTriageDecision this ticket classification draft traceId :
  keeps (AgentService._makeTriageDecision this ticket classification draft traceId)
    (fun _ => True).
Proof.
  unfold AgentService._makeTriageDecision, Db.Config_findOne.
  keeps_step @keeps_gets. keeps_step keeps_logAudit.
  keeps_step keeps_console_info. apply keeps_ret. trivial.
Qed.

Lemma keeps_getSystemUserId : keeps AgentService._getSystemUserId (fun _ => True).
Proof.
  apply keeps_frame. intros w.
  unfold AgentService._getSystemUserId, bind, Db.User_findByEmail, gets.
  destruct (find _ (users w)); [reflexivity|].
  unfold newObjectId, Db.User_save, modify, ret. destruct w; reflexivity.
Qed.

(** The execute phase sets the status itself, whatever it was. *)
Lemma keeps_executeDecision this ticket decision traceId :
  keeps (AgentService._executeDecision this ticket decision traceId) (fun _ => True).
Proof.
  unfold AgentService._executeDecision, AgentService._getClassificationFromLogs,
    AgentService._getArticlesFromLogs, AgentService._getDraftFromLogs,
    Db.AuditLog_findOne, Db.AgentSuggestion_latest, Db.Article_findByIds.
  eapply keeps_bind with (good := fun _ => True).
  { keeps_step @keeps_gets. apply keeps_ret. trivial. }
  intros classification _.
  eapply keeps_bind with (good := fun _ => True).
  { keeps_step @keeps_gets.
    match goal with
    | |- keeps match ?x with _ => _ end _ =>
        destruct x as [[| | q n articleIds titles | | | | | | |]|];
          try (apply keeps_ret; trivial)
    end.
    keeps_step @keeps_gets. apply keeps_ret. trivial. }
  intros articleIds _.
  eapply keeps_bind with (good := fun _ => True).
  { keeps_step @keeps_gets.
    match goal with
    | |- keeps match ?x with _ => _ end _ => destruct x; [|apply keeps_ret; trivial]
    end.
    keeps_step @keeps_gets.
    match goal with
    | |- keeps match ?x with _ => _ end _ => destruct x; apply keeps_ret; trivial
    end. }
  intros draftReply _.
  destruct classification as [[| original [predicted|s] conf info | | | | | | | |]|];
    try apply keeps_throw.
  eapply keeps_bind with (good := fun _ => True).
  { apply keeps_frame. intros w. destruct w; reflexivity. }
  intros i _.
  eapply keeps_bind with (good := fun _ => True).
  { apply keeps_frame. intros w. unfold Db.AgentSuggestion_save.
    destruct (Db.AgentSuggestion_validate _); [reflexivity|]. destruct w; reflexivity. }
  intros _ _.
  eapply keeps_bind with (good := fun t => Ticket.status t <> triaged).
  { destruct (Decision.action decision).
    - keeps_step keeps_getSystemUserId. keeps_step keeps_logAudit.
      keeps_step keeps_console_info. apply keeps_ret. cbn. discriminate.
    - unfold Db.User_findAgent. keeps_step @keeps_gets. keeps_step keeps_logAudit.
      keeps_step keeps_console_info. apply keeps_ret.
      match goal with
      | |- context [match ?x with _ => _ end] => destruct x
      end; cbn; discriminate. }
  intros ticket' Hst.
  keeps_step keeps_Ticket_save; [exact Hst|]. apply keeps_ret. trivial.
Qed.

Lemma keeps_triageSteps this ticket trace :
  Ticket.status ticket <> triaged ->
  keeps (AgentService.triageSteps this ticket trace) (fun _ => True).
Proof.
  intros Hst. unfold AgentService.triageSteps.
  keeps_step keeps_console_info. keeps_step keeps_logAudit.
  eapply keeps_bind; [apply keeps_classifyTicket; exact Hst|].
  intros [ticket' classification] _.
  keeps_step keeps_retrieveKBArticles. keeps_step keeps_draftReply.
  keeps_step keeps_makeTriageDecision. keeps_step keeps_executeDecision.
  apply keeps_ret. trivial.
Qed.

Lemma keeps_triageTicket this ticketId traceId :
  keeps (AgentService.triageTicket this ticketId traceId) (fun _ => True).
Proof.
  unfold AgentService.triageTicket.
  eapply keeps_bind with (good := fun _ => True).
  { apply keeps_frame. intros w.
    destruct traceId as [given|]; [destruct (String.eqb given "")|];
      destruct w; reflexivity. }
  intros trace _.
  eapply keeps_bind; [apply keeps_Ticket_findById|].
  intros [ticket|] Hfound.
  - apply keeps_try_catch.
    + apply keeps_triageSteps. apply Hfound. reflexivity.
    + intros e. keeps_step keeps_console_error. keeps_step keeps_logAudit.
      apply keeps_throw.
  - apply keeps_try_catch.
    + apply keeps_throw.
    + intros e. keeps_step keeps_console_error.
      eapply keeps_bind with (good := fun _ => True); [apply keeps_ret; exact I|intros ? _].
      apply keeps_throw.
Qed.

Lemma keeps_retryLoop this ticketId maxRetries remaining :
  forall attempt lastError,
    keeps (AgentService.retryLoop this ticketId maxRetries remaining attempt lastError)
      (fun _ => True).
Proof.
  assert (Hexit : forall lastError,
             keeps (AgentService.retryExit maxRetries lastError) (fun _ => True)).
  { intros [e|]; apply keeps_throw. }
  induction remaining as [|remaining IH]; intros attempt lastError; cbn [AgentService.retryLoop].
  - apply Hexit.
  - destruct (attempt <? maxRetries); [|apply Hexit].
    apply keeps_try_catch.
    + unfold AgentService.retryAttempt.
      eapply keeps_bind with (good := fun _ => True).
      { apply keeps_frame. intros w. destruct w; reflexivity. }
      intros trace _.
      eapply keeps_bind with (good := fun _ => True).
      { apply keeps_frame. intros w. destruct w; reflexivity. }
      intros _ _. apply keeps_triageTicket.
    + intros e.
      eapply keeps_bind with (good := fun _ => True).
      { apply keeps_frame. intros w. unfold AgentService.retryBackoff.
        destruct (S attempt <? maxRetries); [destruct w|]; reflexivity. }
      intros _ _. apply IH.
Qed.

Lemma handle_keeps {A} guard traceId failureLog failure (body : M (Http.t A))
    (good : Http.t A -> Prop) w :
  keeps body good -> neverTriaged w ->
  neverTriaged (snd (Routes.handle guard traceId failureLog failure body w)).
Proof.
  intros Hbody Hw. unfold Routes.handle.
  destruct guard as [refusal|]; [exact Hw|].
  destruct (Hbody w Hw) as [Hw1 _].
  destruct (body w) as [[response|e] w1]; cbn [fst snd] in *; [exact Hw1|].
  unfold neverTriaged in *. destruct w1; exact Hw1.
Qed.

Lemma agent_handle_keeps traceId failureLog failure (body : M Response.t)
    (good : Response.t -> Prop) w :
  keeps body good -> neverTriaged w ->
  neverTriaged (snd (AgentRoutes.handle traceId failureLog failure body w)).
Proof.
  intros Hbody Hw. unfold AgentRoutes.handle.
  destruct (Hbody w Hw) as [Hw1 _].
  destruct (body w) as [[response|e] w1]; cbn [fst snd] in *; [exact Hw1|].
  unfold neverTriaged in *. destruct w1; exact Hw1.
Qed.

(** X18: the status [triaged] of the ticket schema is never assigned.
    When no stored ticket has it, none has it after a triage run, a retry
    or the background triage, whether they return or throw, after the
    creation of a ticket, or after a reply, an assignment, a reopening or
    a closing: the reply route refuses it as a requested status, and
    every other write sets [open], [resolved], [waiting_human] or
    [closed]. *)
Theorem status_triaged_is_never_assigned
    (this : Routes.t) (agentService : AgentService.t) (user : User.t)
    (req_traceId : string) (w : World) :
  neverTriaged w ->
  (forall ticketId traceId,
      neverTriaged (snd (AgentService.triageTicket agentService ticketId traceId w)))
  /\ (forall ticketId maxRetries,
        neverTriaged (snd (AgentService.retryTriage agentService ticketId maxRetries w)))
  /\ (forall ticket traceId,
        neverTriaged (snd (TicketRoutes.autoTriage agentService ticket traceId w)))
  /\ (forall title description category userId,
        neverTriaged (snd (TicketRoutes.create agentService title description category
                             userId w)))
  /\ (forall ticketId,
        neverTriaged (snd (AgentRoutes.post_triage agentService ticketId req_traceId w)))
  /\ (forall ticketId,
        neverTriaged (snd (AgentRoutes.post_retry agentService ticketId req_traceId w)))
  /\ (forall ticketId content status,
        neverTriaged (snd (Routes.post_reply this user ticketId content status
                             req_traceId w)))
  /\ (forall ticketId assigneeId,
        neverTriaged (snd (Routes.post_assign this user ticketId assigneeId req_traceId w)))
  /\ (forall ticketId,
        neverTriaged (snd (Routes.post_reopen this user ticketId req_traceId w)))
  /\ (forall ticketId,
        neverTriaged (snd (Routes.post_close this user ticketId req_traceId w))).
Proof.
  intros Hw.
  split; [|split; [|split; [|split; [|split; [|split; [|split; [|split; [|split]]]]]]]].
  - intros ticketId traceId. apply keeps_triageTicket. exact Hw.
  - intros ticketId maxRetries. apply keeps_retryLoop. exact Hw.
  - intros ticket traceId.
    refine (proj1 (_ w Hw)). unfold TicketRoutes.autoTriage.
    apply keeps_try_catch with (good := fun _ => True).
    + keeps_step keeps_triageTicket. apply keeps_ret. trivial.
    + intros e. apply keeps_console_error.
  - intros title description category userId.
    assert (Hk : keeps (TicketRoutes.create agentService title description category userId)
                   (fun _ => True)); [|exact (proj1 (Hk w Hw))].
    unfold TicketRoutes.create. cbv zeta.
    match goal with
    | |- keeps (if ?b then _ else _) _ => destruct b
    end; [apply keeps_ret with (good := fun _ => True); trivial|].
    eapply keeps_bind with (good := fun _ => True).
    { apply keeps_frame. intros w0. destruct w0; reflexivity. }
    intros traceId _.
    eapply keeps_bind with (good := fun _ => True).
    { apply keeps_frame. intros w0. destruct w0; reflexivity. }
    intros i _.
    eapply keeps_bind with (good := fun _ => True).
    { intros w0 Hw0. split; [|trivial].
      unfold modify, neverTriaged in *. cbn [snd].
      destruct w0; cbn in *.
      apply Forall_app. split; [exact Hw0|].
      constructor; [cbn; discriminate|constructor]. }
    intros _ _.
    keeps_step keeps_AuditLog_save. keeps_step keeps_console_info.
    keeps_step keeps_Ticket_findById.
    apply keeps_ret with (good := fun _ => True). trivial.
  - intros ticketId. unfold AgentRoutes.post_triage.
    apply agent_handle_keeps with (good := fun _ => True); [|exact Hw].
    keeps_step keeps_Ticket_findById.
    match goal with
    | |- keeps match ?x with _ => _ end _ => destruct x as [ticket|]
    end; [|apply keeps_ret; trivial].
    destruct (negb _); [apply keeps_ret; trivial|].
    keeps_step keeps_console_info. keeps_step keeps_triageTicket.
    apply keeps_ret. trivial.
  - intros ticketId. unfold AgentRoutes.post_retry.
    apply agent_handle_keeps with (good := fun _ => True); [|exact Hw].
    keeps_step keeps_Ticket_findById.
    match goal with
    | |- keeps match ?x with _ => _ end _ => destruct x as [ticket|]
    end; [|apply keeps_ret; trivial].
    keeps_step keeps_console_info.
    eapply keeps_bind with (good := fun _ => True); [apply keeps_retryLoop|].
    intros result _. apply keeps_ret. trivial.
  - intros ticketId content status. unfold Routes.post_reply.
    apply handle_keeps with (good := fun _ => True); [|exact Hw].
    destruct (Validator.isLength 1 5000 (Validator.trim content)) eqn:Hlen;
      [|apply keeps_ret; trivial].
    cbn [andb].
    destruct (negb _) eqn:Hvalid; [apply keeps_ret; trivial|].
    eapply keeps_bind; [apply keeps_Ticket_findById|].
    intros [ticket|] Hfound; [|apply keeps_ret; trivial].
    specialize (Hfound ticket eq_refl).
    keeps_step keeps_Ticket_save.
    { destruct status as [st|].
      - destruct st; try discriminate Hvalid; cbn; try discriminate;
          match goal with
          | |- context [match ?x with _ => _ end] => destruct x
          end; cbn; discriminate.
      - destruct ticket; cbn in *. exact Hfound. }
    keeps_step keeps_audit. keeps_step keeps_console_info.
    keeps_step keeps_Ticket_findById. apply keeps_ret. trivial.
  - intros ticketId assigneeId. unfold Routes.post_assign.
    apply handle_keeps with (good := fun _ => True); [|exact Hw].
    keeps_step keeps_Ticket_findById.
    match goal with
    | |- keeps match ?x with _ => _ end _ => destruct x as [ticket|]
    end; [|apply keeps_ret; trivial].
    unfold Store.User_findById. keeps_step @keeps_gets.
    match goal with
    | |- keeps (if ?b then _ else _) _ => destruct b
    end; [apply keeps_ret; trivial|].
    keeps_step keeps_Ticket_save; [cbn; discriminate|].
    keeps_step keeps_audit. keeps_step keeps_console_info.
    keeps_step keeps_Ticket_findById. apply keeps_ret. trivial.
  - intros ticketId. unfold Routes.post_reopen.
    apply handle_keeps with (good := fun _ => True); [|exact Hw].
    keeps_step keeps_Ticket_findById.
    match goal with
    | |- keeps match ?x with _ => _ end _ => destruct x as [ticket|]
    end; [|apply keeps_ret; trivial].
    destruct (_ && _); [apply keeps_ret; trivial|].
    destruct (negb _); [apply keeps_ret; trivial|].
    keeps_step keeps_Ticket_save; [cbn; discriminate|].
    keeps_step keeps_audit. keeps_step keeps_console_info.
    keeps_step keeps_Ticket_findById. apply keeps_ret. trivial.
  - intros ticketId. unfold Routes.post_close.
    apply handle_keeps with (good := fun _ => True); [|exact Hw].
    keeps_step keeps_Ticket_findById.
    match goal with
    | |- keeps match ?x with _ => _ end _ => destruct x as [ticket|]
    end; [|apply keeps_ret; trivial].
    keeps_step keeps_Ticket_save.
    { destruct (Ticket.assignee _); cbn; discriminate. }
    keeps_step keeps_audit. keeps_step keeps_console_info.
    keeps_step keeps_Ticket_findById. apply keeps_ret. trivial.
Qed.

Lemma status_triaged_is_never_assigned_witness :
  let w := Fixture.world (Fixture.refundTicket open) in
  neverTriaged (snd (AgentService.triageTicket Fixture.extendedService 20 (Some "run-0") w))
  /\ neverTriaged
       (snd (Routes.post_reply fixtureRoutes
               (User.mk 2 "Support Agent" "agent@helpdesk.local" User.agent) 20
               "We refunded the second charge." (Some resolved) "req-1" w)).
Proof.
  cbv zeta.
  assert (Hw : neverTriaged (Fixture.world (Fixture.refundTicket open))).
  { constructor; [discriminate|constructor]. }
  destruct (status_triaged_is_never_assigned fixtureRoutes Fixture.extendedService
              (User.mk 2 "Support Agent" "agent@helpdesk.local" User.agent) "req-1"
              (Fixture.world (Fixture.refundTicket open)) Hw)
    as (Htriage & _ & _ & _ & _ & _ & Hreply & _).
  split; [apply Htriage|apply Hreply].
Defined.

(** ** Replying to and closing a ticket *)

(** X19: a reply by staff that passes validation appends one reply with
    the trimmed text, not marked as generated, and sets the status the
    request names, whatever the status of the ticket was (the request
    may name any status but [triaged]; without one the status stays).
    The replier becomes the assignee only when the request sets
    [resolved] and the ticket had no assignee.  One [REPLY_SENT] entry
    records the length of the trimmed text and the resulting status. *)
Theorem post_reply_effect
    (this : Routes.t) (user : User.t) (ticketId : ObjectId) (content : string)
    (status : option Status) (req_traceId : string) (w : World) (ticket : Ticket.t) :
  let text := Validator.trim content in
  let out := Routes.post_reply this user ticketId content status req_traceId w in
  existsb (Auth.Role_eqb (User.role user)) [User.agent; User.admin] = true ->
  Validator.isLength 1 5000 text = true ->
  status <> Some triaged ->
  find (fun t => Ticket._id t =? ticketId) (tickets w) = Some ticket ->
  enum_has (Routes.AuditLog_action this) "REPLY_SENT" = true ->
  exists saved,
    fst out = Http.ok saved
    /\ tickets (snd out)
       = map (fun t => if Ticket._id t =? ticketId then saved else t) (tickets w)
    /\ Ticket.replies saved
       = (Ticket.replies ticket ++ [Reply.mk (User._id user) text false])%list
    /\ Ticket.status saved
       = match status with Some st => st | None => Ticket.status ticket end
    /\ Ticket.assignee saved
       = match status, Ticket.assignee ticket with
         | Some resolved, None => Some (User._id user)
         | _, assignee => assignee
         end
    /\ Ticket.category saved = Ticket.category ticket
    /\ auditLogs (snd out)
       = (auditLogs w
          ++ [AuditLog.mk (Some ticketId) req_traceId "agent" "REPLY_SENT"
                (Routes.mixed this
                   (ReplySent (User._id user) (String.length text) (Ticket.status saved)))])%list.
Proof.
  intros text out Hauth Hlen Hstatus Hfind Henum.
  assert (Hid : Ticket._id ticket = ticketId).
  { apply find_some in Hfind. destruct Hfind as [_ H]. apply Nat.eqb_eq. exact H. }
  assert (Hvalid : match status with
                   | Some st => existsb (Status_eqb st) [open; waiting_human; resolved; closed]
                   | None => true
                   end = true).
  { destruct status as [[]|]; try reflexivity. contradiction Hstatus. reflexivity. }
  set (replied := Ticket.push_reply (Reply.mk (User._id user) text false) ticket).
  set (moved := match status with
                | Some st => Ticket.set_status st replied
                | None => replied
                end).
  set (saved := match status, Ticket.assignee moved with
                | Some resolved, None => Ticket.set_assignee (User._id user) moved
                | _, _ => moved
                end).
  assert (Hsid : Ticket._id saved = ticketId).
  { subst saved moved replied.
    destruct status as [[]|]; try exact Hid;
      destruct (Ticket.assignee _); exact Hid. }
  assert (Hreload :
            find (fun t => Ticket._id t =? Ticket._id saved)
              (map (fun t => if Ticket._id t =? Ticket._id saved then saved else t)
                 (tickets w))
            = Some saved).
  { apply find_saved_ticket with (stored := ticket). rewrite Hsid. exact Hfind. }
  exists saved.
  assert (Hout : out
                 = (Http.ok saved,
                    set_effects
                      (effects w ++ [Console "info" req_traceId "Reply sent" None None])%list
                      (set_auditLogs
                         (auditLogs w
                          ++ [AuditLog.mk (Some ticketId) req_traceId "agent" "REPLY_SENT"
                                (Routes.mixed this
                                   (ReplySent (User._id user) (String.length text)
                                      (Ticket.status saved)))])%list
                         (set_tickets
                            (map (fun t => if Ticket._id t =? ticketId then saved else t)
                               (tickets w)) w)))).
  { subst out. unfold Routes.post_reply.
    rewrite (authorize_allows _ _ Hauth).
    apply handle_Ok.
    fold text. rewrite Hlen, Hvalid. cbn [andb negb].
    unfold bind at 1. unfold Db.Ticket_findById, gets. rewrite Hfind.
    fold replied. fold moved. fold saved.
    unfold bind at 1. unfold Db.Ticket_save, modify.
    unfold bind at 1.
    rewrite audit_accepted by (exact Henum || reflexivity).
    unfold bind at 1. unfold console_info, emit, modify.
    unfold bind at 1. unfold gets.
    cbn [tickets set_tickets set_auditLogs set_effects].
    rewrite Hreload. rewrite Hsid. unfold ret. destruct w; reflexivity. }
  rewrite Hout. cbn [fst snd].
  split; [reflexivity|]. split; [destruct w; reflexivity|].
  assert (Hfields :
            Ticket.replies saved
            = (Ticket.replies ticket ++ [Reply.mk (User._id user) text false])%list
            /\ Ticket.status saved
               = match status with Some st => st | None => Ticket.status ticket end
            /\ Ticket.assignee saved
               = match status, Ticket.assignee ticket with
                 | Some resolved, None => Some (User._id user)
                 | _, assignee => assignee
                 end
            /\ Ticket.category saved = Ticket.category ticket).
  { subst saved moved replied. clear.
    destruct ticket as [i t d c st cb [a|] sg r]; destruct status as [[]|]; cbn;
      repeat split; reflexivity. }
  destruct Hfields as (H1 & H2 & H3 & H4).
  repeat (split; [assumption|]).
  destruct w; reflexivity.
Qed.

Lemma post_reply_effect_witness :
  let w := Fixture.world (Fixture.refundTicket closed) in
  let out :=
    Routes.post_reply fixtureRoutes
      (User.mk 2 "Support Agent" "agent@helpdesk.local" User.agent) 20
      " We are looking into it again. " (Some open) "req-1" w in
  map Ticket.status (tickets (snd out)) = [open]
  /\ map Ticket.assignee (tickets (snd out)) = [None]
  /\ map Ticket.replies (tickets (snd out))
     = [[Reply.mk 2 "We are looking into it again." false]].
Proof.
  cbv zeta.
  assert (Hstatus : Some open <> Some triaged) by discriminate.
  destruct (post_reply_effect fixtureRoutes
              (User.mk 2 "Support Agent" "agent@helpdesk.local" User.agent) 20
              " We are looking into it again. " (Some open) "req-1"
              (Fixture.world (Fixture.refundTicket closed)) (Fixture.refundTicket closed)
              eq_refl eq_refl Hstatus eq_refl eq_refl)
    as (saved & _ & Htickets & Hreplies & Hst & Hassignee & _).
  rewrite Htickets. cbn.
  rewrite Hreplies, Hst, Hassignee. repeat split.
Defined.

(** X20: staff can close a ticket in any status, a closed one included:
    the stored ticket gets the status [closed], the closer becomes the
    assignee only when the ticket had none, replies and category stay,
    and one [TICKET_CLOSED] entry is written.  A closed ticket thus
    always has an assignee. *)
Theorem post_close_effect
    (this : Routes.t) (user : User.t) (ticketId : ObjectId) (req_traceId : string)
    (w : World) (ticket : Ticket.t) :
  let out := Routes.post_close this user ticketId req_traceId w in
  let assignee :=
    match Ticket.assignee ticket with
    | Some assignee => assignee
    | None => User._id user
    end in
  let saved :=
    Ticket.mk ticketId (Ticket.title ticket) (Ticket.description ticket)
      (Ticket.category ticket) closed (Ticket.createdBy ticket) (Some assignee)
      (Ticket.agentSuggestionId ticket) (Ticket.replies ticket) in
  existsb (Auth.Role_eqb (User.role user)) [User.agent; User.admin] = true ->
  find (fun t => Ticket._id t =? ticketId) (tickets w) = Some ticket ->
  enum_has (Routes.AuditLog_action this) "TICKET_CLOSED" = true ->
  fst out = Http.ok saved
  /\ tickets (snd out)
     = map (fun t => if Ticket._id t =? ticketId then saved else t) (tickets w)
  /\ auditLogs (snd out)
     = (auditLogs w
        ++ [AuditLog.mk (Some ticketId) req_traceId "agent" "TICKET_CLOSED"
              (Routes.mixed this (TicketClosed (User._id user)))])%list
  /\ suggestions (snd out) = suggestions w.
Proof.
  intros out assignee saved Hauth Hfind Henum.
  assert (Hid : Ticket._id ticket = ticketId).
  { apply find_some in Hfind. destruct Hfind as [_ H]. apply Nat.eqb_eq. exact H. }
  assert (Hsaved : match Ticket.assignee (Ticket.set_status closed ticket) with
                   | None => Ticket.set_assignee (User._id user)
                               (Ticket.set_status closed ticket)
                   | Some _ => Ticket.set_status closed ticket
                   end = saved).
  { subst saved assignee. rewrite <- Hid.
    destruct ticket as [i t d c st cb [a|] sg r]; reflexivity. }
  assert (Hreload :
            find (fun t => Ticket._id t =? Ticket._id saved)
              (map (fun t => if Ticket._id t =? Ticket._id saved then saved else t)
                 (tickets w))
            = Some saved).
  { apply find_saved_ticket with (stored := ticket). exact Hfind. }
  assert (Hout : out
                 = (Http.ok saved,
                    set_effects
                      (effects w ++ [Console "info" req_traceId "Ticket closed" None None])%list
                      (set_auditLogs
                         (auditLogs w
                          ++ [AuditLog.mk (Some ticketId) req_traceId "agent" "TICKET_CLOSED"
                                (Routes.mixed this (TicketClosed (User._id user)))])%list
                         (set_tickets
                            (map (fun t => if Ticket._id t =? ticketId then saved else t)
                               (tickets w)) w)))).
  { subst out. unfold Routes.post_close.
    rewrite (authorize_allows _ _ Hauth).
    apply handle_Ok.
    unfold bind at 1. unfold Db.Ticket_findById, gets. rewrite Hfind.
    rewrite Hsaved.
    unfold bind at 1. unfold Db.Ticket_save, modify.
    unfold bind at 1.
    rewrite audit_accepted by (exact Henum || reflexivity).
    unfold bind at 1. unfold console_info, emit, modify.
    unfold bind at 1. unfold gets.
    cbn [tickets set_tickets set_auditLogs set_effects].
    rewrite Hreload. unfold ret. destruct w; reflexivity. }
  rewrite Hout. cbn [fst snd].
  split; [reflexivity|]. repeat split; destruct w; reflexivity.
Qed.

Lemma post_close_effect_witness :
  let w := Fixture.world (Fixture.refundTicket closed) in
  let out :=
    Routes.post_close fixtureRoutes
      (User.mk 2 "Support Agent" "agent@helpdesk.local" User.agent) 20 "req-1" w in
  map Ticket.status (tickets (snd out)) = [closed]
  /\ map Ticket.assignee (tickets (snd out)) = [Some 2]
  /\ map AuditLog.action (auditLogs (snd out)) = ["TICKET_CLOSED"].
Proof.
  cbv zeta.
  destruct (post_close_effect fixtureRoutes
              (User.mk 2 "Support Agent" "agent@helpdesk.local" User.agent) 20 "req-1"
              (Fixture.world (Fixture.refundTicket closed)) (Fixture.refundTicket closed)
              eq_refl eq_refl eq_refl)
    as (_ & Htickets & Hlogs & _).
  rewrite Htickets, Hlogs. repeat split.
Defined.

(** ** Retries and new tickets under a schema that rejects the pipeline *)

Lemma timers_app (l1 l2 : list Effect) : timers (l1 ++ l2) = (timers l1 ++ timers l2)%list.
Proof. unfold timers. apply flat_map_app. Qed.

Section RetryRejected.

Variable this : AgentService.t.
Variable ticketId : ObjectId.
Variable maxRetries : nat.

Hypothesis started_rejected :
  enum_has (AgentService.AuditLog_action this) "TRIAGE_STARTED" = false.
Hypothesis failed_rejected :
  enum_has (AgentService.AuditLog_action this) "TRIAGE_FAILED" = false.
Hypothesis uuid_not_empty : forall n, AgentService.randomUUID this n <> "".

(** The error of every attempt, by whether the ticket is stored. *)
Let failure (stored : list Ticket.t) : JsError :=
  match find (fun t => Ticket._id t =? ticketId) stored with
  | Some _ => Db.enumError "AuditLog" "action" "TRIAGE_FAILED"
  | None => mkError "Error" "Ticket not found"
  end.

Let exhausted (lastError : JsError) : JsError :=
  mkError "Error"
    ("Triage failed after " ++ Js.show_nat maxRetries ++ " attempts: " ++ message lastError).

Lemma triageTicket_rejecting_run trace w :
  trace <> "" ->
  exists d,
    AgentService.triageTicket this ticketId (Some trace) w
    = (Throw (failure (tickets w)), set_effects (effects w ++ d)%list w)
    /\ timers d = [].
Proof.
  intros Htrace. unfold failure.
  destruct (find (fun t => Ticket._id t =? ticketId) (tickets w)) as [ticket|] eqn:Hfind.
  - rewrite (triageTicket_rejected this ticketId trace w ticket started_rejected
               failed_rejected Htrace Hfind).
    eexists. split; reflexivity.
  - unfold AgentService.triageTicket.
    destruct (String.eqb_spec trace "") as [E|_]; [contradiction|].
    unfold bind at 1. unfold ret at 1.
    unfold bind at 1. unfold Db.Ticket_findById, gets. rewrite Hfind.
    unfold try_catch, throw, bind, console_error, emit, modify, ret.
    eexists. split; reflexivity.
Qed.

Lemma retryLoop_rejected :
  forall remaining attempt lastError w,
    attempt + remaining = maxRetries ->
    (remaining = 0 -> lastError = Some (failure (tickets w))) ->
    exists w' d,
      AgentService.retryLoop this ticketId maxRetries remaining attempt lastError w
      = (Throw (exhausted (failure (tickets w))), w')
      /\ tickets w' = tickets w
      /\ suggestions w' = suggestions w
      /\ auditLogs w' = auditLogs w
      /\ uuidCount w' = uuidCount w + remaining
      /\ effects w' = (effects w ++ d)%list
      /\ timers d = map (fun a => 2 ^ a * 1000) (seq (S attempt) (remaining - 1)).
Proof.
  induction remaining as [|remaining IH]; intros attempt lastError w Hsum Hlast.
  - cbn [AgentService.retryLoop]. rewrite (Hlast eq_refl).
    exists w, []. unfold AgentService.retryExit, throw.
    split; [reflexivity|]. rewrite Nat.add_0_r, app_nil_r. repeat split.
  - cbn [AgentService.retryLoop].
    destruct (Nat.ltb_spec attempt maxRetries) as [_|Hge]; [|lia].
    unfold try_catch. rewrite retryAttempt_unfold.
    match goal with
    | |- context [AgentService.triageTicket this ticketId (Some ?trace) ?w0] =>
        destruct (triageTicket_rejecting_run trace w0 (uuid_not_empty _))
          as (d1 & Hrun & Ht1)
    end.
    rewrite Hrun. cbn [tickets set_effects set_uuidCount effects].
    unfold bind at 1. unfold AgentService.retryBackoff.
    match goal with
    | |- context [(if S attempt <? maxRetries then ?m else ret tt) ?w1] =>
        assert (Hback : exists w2 d2,
                   (if S attempt <? maxRetries then m else ret tt) w1 = (Ok tt, w2)
                   /\ tickets w2 = tickets w /\ suggestions w2 = suggestions w
                   /\ auditLogs w2 = auditLogs w /\ uuidCount w2 = S (uuidCount w)
                   /\ effects w2 = (effects w1 ++ d2)%list
                   /\ timers d2 = if S attempt <? maxRetries
                                  then [2 ^ S attempt * 1000] else [])
    end.
    { destruct (S attempt <? maxRetries).
      - unfold emit, modify. eexists. eexists. split; [reflexivity|].
        destruct w; cbn. repeat split.
      - unfold ret. eexists. exists []. split; [reflexivity|].
        destruct w; cbn. rewrite app_nil_r. repeat split. }
    destruct Hback as (w2 & d2 & Hback & T2 & S2 & L2 & U2 & E2 & Ht2).
    rewrite Hback.
    destruct (IH (S attempt) (Some (failure (tickets w))) w2) as
      (w' & d' & Hloop & T' & S' & L' & U' & E' & Ht').
    { lia. }
    { intros _. rewrite T2. reflexivity. }
    rewrite T2 in Hloop. rewrite Hloop.
    exists w'. eexists. split; [reflexivity|].
    rewrite T', S', L', U', E', T2, S2, L2, U2, E2.
    cbn [effects set_effects set_uuidCount].
    split; [reflexivity|]. split; [reflexivity|]. split; [reflexivity|].
    split; [lia|]. split.
    + rewrite <- !app_assoc. reflexivity.
    + rewrite !timers_app, Ht1, Ht2, Ht'. cbn [timers flat_map app].
      destruct remaining as [|remaining'].
      * destruct (Nat.ltb_spec (S attempt) maxRetries); [lia|reflexivity].
      * destruct (Nat.ltb_spec (S attempt) maxRetries); [|lia].
        cbn [Nat.sub]. rewrite Nat.sub_0_r. reflexivity.
Qed.

End RetryRejected.

(** X21: with an [AuditLog] schema that lists neither [TRIAGE_STARTED]
    nor [TRIAGE_FAILED], as the repository's, [retryTriage] can never
    succeed: for every ticket id and every [maxRetries >= 1] it makes
    all [maxRetries] attempts, waits 2, 4, ..., [2^(maxRetries-1)]
    seconds between them, and throws [Triage failed after maxRetries
    attempts] with the message of the same error every time (the
    validation error of the [TRIAGE_FAILED] write, or [Ticket not found]
    when the ticket is not stored).  Tickets, suggestions and audit log
    are as they were. *)
Theorem retryTriage_exhausts_under_rejecting_schema
    (this : AgentService.t) (ticketId : ObjectId) (maxRetries : nat) (w : World) :
  enum_has (AgentService.AuditLog_action this) "TRIAGE_STARTED" = false ->
  enum_has (AgentService.AuditLog_action this) "TRIAGE_FAILED" = false ->
  (forall n, AgentService.randomUUID this n <> "") ->
  1 <= maxRetries ->
  exists w' d,
    AgentService.retryTriage this ticketId maxRetries w
    = (Throw (mkError "Error"
                ("Triage failed after " ++ Js.show_nat maxRetries ++ " attempts: "
                   ++ match find (fun t => Ticket._id t =? ticketId) (tickets w) with
                      | Some _ =>
                          "AuditLog validation failed: action: `TRIAGE_FAILED` is not a valid enum value for path `action`."
                      | None => "Ticket not found"
                      end)), w')
    /\ tickets w' = tickets w
    /\ suggestions w' = suggestions w
    /\ auditLogs w' = auditLogs w
    /\ uuidCount w' = uuidCount w + maxRetries
    /\ effects w' = (effects w ++ d)%list
    /\ timers d = map (fun a => 2 ^ a * 1000) (seq 1 (maxRetries - 1)).
Proof.
  intros Hs Hf Huuid Hmax.
  destruct (retryLoop_rejected this ticketId maxRetries Hs Hf Huuid maxRetries 0 None w)
    as (w' & d & Hrun & Hrest).
  { reflexivity. }
  { intros E. lia. }
  exists w', d. split; [|exact Hrest].
  unfold AgentService.retryTriage. rewrite Hrun.
  destruct (find _ (tickets w)); reflexivity.
Qed.

Lemma retryTriage_exhausts_under_rejecting_schema_witness :
  exists w' d,
    fst (AgentService.retryTriage Fixture.service 20 3
           (Fixture.world (Fixture.refundTicket open)))
    = Throw (mkError "Error"
               "Triage failed after 3 attempts: AuditLog validation failed: action: `TRIAGE_FAILED` is not a valid enum value for path `action`.")
    /\ AgentService.retryTriage Fixture.service 20 3
         (Fixture.world (Fixture.refundTicket open))
       = (fst (AgentService.retryTriage Fixture.service 20 3
                 (Fixture.world (Fixture.refundTicket open))), w')
    /\ effects w' = d
    /\ timers d = [2000; 4000].
Proof.
  assert (Huuid : forall n, AgentService.randomUUID Fixture.service n <> "").
  { intros n. cbn. unfold Fixture.uuid. discriminate. }
  assert (Hmax : 1 <= 3) by (apply Nat.leb_le; reflexivity).
  destruct (retryTriage_exhausts_under_rejecting_schema Fixture.service 20 3
              (Fixture.world (Fixture.refundTicket open)) eq_refl eq_refl Huuid Hmax)
    as (w' & d & Hrun & _ & _ & _ & _ & Heff & Htimers).
  exists w', d. rewrite Hrun. cbn [fst].
  split; [reflexivity|]. split; [reflexivity|]. split; [exact Heff|exact Htimers].
Defined.

(** X22: with such a schema that lists [TICKET_CREATED], a ticket created
    through the creation route with a title and a description that pass
    validation stays as it was created: it is stored with the trimmed
    title and description, the status [open], the category of the request
    ([other] when the request names none) and no assignee, the response
    is 201 with the stored ticket and its trace id, one [TICKET_CREATED]
    entry is written, and the background triage that follows ends without
    storing a suggestion, changing the ticket or writing an audit
    entry. *)
Theorem created_ticket_stays_untriaged
    (agentService : AgentService.t) (title description : string)
    (category : option Category) (userId : ObjectId) (w : World) :
  let ticket :=
    Ticket.mk (nextId w) (Validator.trim title) (Validator.trim description)
      (match category with Some c => c | None => other end) open userId None None [] in
  enum_has (AgentService.AuditLog_action agentService) "TICKET_CREATED" = true ->
  enum_has (AgentService.AuditLog_action agentService) "TRIAGE_STARTED" = false ->
  enum_has (AgentService.AuditLog_action agentService) "TRIAGE_FAILED" = false ->
  Validator.isLength 1 200 (Validator.trim title) = true ->
  Validator.isLength 1 5000 (Validator.trim description) = true ->
  find (fun t => Ticket._id t =? nextId w) (tickets w) = None ->
  exists traceId w1 w2,
    TicketRoutes.create agentService title description (option_map inEnum category) userId w
    = (Ok (Http.mk 201 None (Some (Some ticket, traceId))), w1)
    /\ TicketRoutes.autoTriage agentService ticket traceId w1 = (Ok tt, w2)
    /\ tickets w2 = (tickets w ++ [ticket])%list
    /\ suggestions w2 = suggestions w
    /\ auditLogs w2
       = (auditLogs w
          ++ [AuditLog.mk (Some (nextId w)) traceId "user" "TICKET_CREATED"
                (MetaCreated (Validator.trim title) (Ticket.category ticket) userId)])%list.
Proof.
  intros ticket Hcreated Hs Hf Htitle Hdescription Hfresh.
  assert (Hcreate : exists w1,
             TicketRoutes.create agentService title description
               (option_map inEnum category) userId w
             = (Ok (Http.mk 201 None
                      (Some (Some ticket,
                             AgentService.randomUUID agentService (uuidCount w)))), w1)
             /\ tickets w1 = (tickets w ++ [ticket])%list
             /\ suggestions w1 = suggestions w
             /\ auditLogs w1
                = (auditLogs w
                   ++ [AuditLog.mk (Some (nextId w))
                         (AgentService.randomUUID agentService (uuidCount w)) "user"
                         "TICKET_CREATED"
                         (MetaCreated (Validator.trim title) (Ticket.category ticket)
                            userId)])%list).
  { unfold TicketRoutes.create. cbv zeta. rewrite Htitle, Hdescription.
    assert (Hcat : match option_map inEnum category with
                   | Some (outside _) => false
                   | _ => true
                   end = true) by (destruct category; reflexivity).
    assert (Hdefault : match option_map inEnum category with
                       | Some (inEnum c) => c
                       | _ => other
                       end = match category with Some c => c | None => other end)
      by (destruct category; reflexivity).
    rewrite Hcat, Hdefault. cbn [andb negb].
    unfold bind at 1. unfold AgentService.crypto_randomUUID.
    unfold bind at 1. unfold newObjectId.
    cbn [nextId set_uuidCount].
    fold ticket.
    unfold bind at 1. unfold modify.
    unfold bind at 1. unfold Db.AuditLog_save.
    cbn [AuditLog.actor AuditLog.action]. rewrite Hcreated.
    cbn [enum_has auditLogSchema_actor existsb String.eqb Ascii.eqb Bool.eqb orb negb].
    unfold modify.
    unfold bind at 1. unfold console_info, emit, modify.
    unfold bind, Db.Ticket_findById, gets, ret.
    cbn [tickets set_tickets set_auditLogs set_effects set_nextId set_uuidCount].
    rewrite (find_app_None _ _ _ Hfresh).
    cbn [find Ticket._id ticket]. rewrite Nat.eqb_refl.
    eexists. split; [reflexivity|]. destruct w; cbn. repeat split. }
  destruct Hcreate as (w1 & Hcreate & T1 & S1 & L1).
  destruct (triageTicket_never_completes agentService (Ticket._id ticket)
              (Some (AgentService.randomUUID agentService (uuidCount w))) w1 Hs Hf)
    as (e & w' & Hrun & T' & S' & L').
  exists (AgentService.randomUUID agentService (uuidCount w)), w1.
  eexists. split; [exact Hcreate|].
  unfold TicketRoutes.autoTriage, try_catch.
  unfold bind at 1. rewrite Hrun.
  unfold console_error, emit, modify.
  split; [reflexivity|].
  destruct w'; cbn in *. rewrite T', S', L', T1, S1, L1. repeat split.
Qed.

Lemma created_ticket_stays_untriaged_witness :
  exists traceId w1 w2,
    TicketRoutes.create Fixture.service " Where is my package? "
      "It has not arrived yet." None 3
      (mkWorld [] [] [] Fixture.users [] Fixture.articles 100 0 [])
    = (Ok (Http.mk 201 None
             (Some (Some (Ticket.mk 100 "Where is my package?" "It has not arrived yet."
                            other open 3 None None []),
                    traceId))), w1)
    /\ TicketRoutes.autoTriage Fixture.service
         (Ticket.mk 100 "Where is my package?" "It has not arrived yet." other open 3
            None None [])
         traceId w1 = (Ok tt, w2)
    /\ suggestions w2 = [].
Proof.
  destruct (created_ticket_stays_untriaged Fixture.service " Where is my package? "
              "It has not arrived yet." None 3
              (mkWorld [] [] [] Fixture.users [] Fixture.articles 100 0 [])
              eq_refl eq_refl eq_refl eq_refl eq_refl eq_refl)
    as (traceId & w1 & w2 & Hcreate & Hauto & _ & Hsug & _).
  exists traceId, w1, w2. split; [exact Hcreate|]. split; [exact Hauto|exact Hsug].
Defined.
